(** * aiWebsiteGenerator: the model-fallback request pipeline

    A shallow embedding of the Express back ends of the repository
    (the OpenRouter server [server/server.js], the first Gemini server and
    the hardened Gemini server) together with the properties the
    specification states about them.

    JavaScript strings are sequences of UTF-16 code units; they are
    modelled as lists of [N].  Every function below that inspects
    characters only compares code units with ASCII constants or with the
    ECMAScript white-space set, so the definitions are meaningful on every
    such list. *)

From Stdlib Require Import NArith ZArith List String Ascii Bool Lia Arith.
Import ListNotations.

Local Open Scope N_scope.
Local Open Scope list_scope.

(** ** JavaScript strings *)

Module JsString.

Definition jsstring := list N.

(** A string literal of the source: its characters as code units. *)
Definition lit (s : string) : jsstring :=
  map N_of_ascii (list_ascii_of_string s).

(** Named code units.  [dq] is the double quote, [bt] the backtick. *)
Definition nl : N := 10.
Definition sp : N := 32.
Definition dq : N := 34.
Definition amp : N := 38.
Definition sq : N := 39.
Definition hyphen : N := 45.
Definition langle : N := 60.
Definition rangle : N := 62.
Definition underscore : N := 95.
Definition bt : N := 96.

(** The three-backtick fence marker. *)
Definition fence : jsstring := [bt; bt; bt].

(** ECMAScript WhiteSpace and LineTerminator code points: the set used both
    by [String.prototype.trim] and by the regular-expression class [\s]. *)
Definition isSpace (c : N) : bool :=
  (c =? 9) || (c =? 10) || (c =? 11) || (c =? 12) || (c =? 13) || (c =? 32)
  || (c =? 160) || (c =? 5760)
  || ((8192 <=? c) && (c <=? 8202))
  || (c =? 8232) || (c =? 8233) || (c =? 8239) || (c =? 8287)
  || (c =? 12288) || (c =? 65279).

Definition isUpperAscii (c : N) : bool := (65 <=? c) && (c <=? 90).
Definition isLowerAscii (c : N) : bool := (97 <=? c) && (c <=? 122).
Definition isDigit (c : N) : bool := (48 <=? c) && (c <=? 57).

(** Case folding restricted to ASCII letters.  Under the [i] flag without
    the [u] flag a pattern character below 128 is never matched by a code
    unit of 128 or more, so this is the comparison the regular expressions
    of the source perform on their ASCII patterns. *)
Definition asciiLower (c : N) : N := if isUpperAscii c then c + 32 else c.

Definition eqCi (p c : N) : bool := asciiLower p =? asciiLower c.

Fixpoint dropWhile (p : N -> bool) (s : jsstring) : jsstring :=
  match s with
  | [] => []
  | c :: r => if p c then dropWhile p r else s
  end.

(** [stripPrefix eq p s] removes the pattern [p] from the front of [s] when
    [s] starts with it (characters compared with [eq]). *)
Fixpoint stripPrefix (eq : N -> N -> bool) (p s : jsstring) : option jsstring :=
  match p with
  | [] => Some s
  | a :: p' =>
      match s with
      | [] => None
      | c :: s' => if eq a c then stripPrefix eq p' s' else None
      end
  end.

Definition startsWith (eq : N -> N -> bool) (p s : jsstring) : bool :=
  match stripPrefix eq p s with Some _ => true | None => false end.

(** [existsSuffix m s]: an unanchored regular expression [m] matches
    somewhere in [s]; [m] decides a match that starts at the head of its
    argument. *)
Fixpoint existsSuffix (m : jsstring -> bool) (s : jsstring) : bool :=
  m s || match s with
         | [] => false
         | _ :: r => existsSuffix m r
         end.

Fixpoint takeWhile (p : N -> bool) (s : jsstring) : jsstring :=
  match s with
  | [] => []
  | c :: r => if p c then c :: takeWhile p r else []
  end.

Definition trimStart (s : jsstring) : jsstring := dropWhile isSpace s.
Definition trimEnd (s : jsstring) : jsstring := rev (dropWhile isSpace (rev s)).

(** [String.prototype.trim]. *)
Definition trim (s : jsstring) : jsstring := trimEnd (trimStart s).

(** Removes the pattern [p] from the end of [s] when [s] ends with it. *)
Definition stripSuffix (p s : jsstring) : option jsstring :=
  match stripPrefix N.eqb (rev p) (rev s) with
  | Some r => Some (rev r)
  | None => None
  end.

(** [s.slice(0, n)]. *)
Definition slice0 (n : N) (s : jsstring) : jsstring := firstn (N.to_nat n) s.

(** The replacement by the empty string of every match of a global
    expression [re] without anchors:
    [matchLen t] is the length of the match of [re] that starts at the head
    of [t], if there is one.  Matches are found from left to right and do
    not overlap; [skip] counts the characters of the current match still to
    be dropped. *)
Fixpoint removeAll (matchLen : jsstring -> option nat) (skip : nat)
  (s : jsstring) : jsstring :=
  match s with
  | [] => []
  | c :: r =>
      match skip with
      | S k => removeAll matchLen k r
      | O =>
          match matchLen s with
          | Some (S k) => removeAll matchLen k r
          | _ => c :: removeAll matchLen O r
          end
      end
  end.

(** [s.replace(re, rep)] for a global expression [re] that matches the
    non-empty runs of characters satisfying [p]: every maximal run is
    replaced by [rep]. *)
Fixpoint replaceRuns (p : N -> bool) (rep : jsstring) (inRun : bool)
  (s : jsstring) : jsstring :=
  match s with
  | [] => []
  | c :: r =>
      if p c
      then (if inRun then [] else rep) ++ replaceRuns p rep true r
      else c :: replaceRuns p rep false r
  end.

(** [parts.join(sep)] on an array of strings. *)
Fixpoint intercalate (sep : jsstring) (parts : list jsstring) : jsstring :=
  match parts with
  | [] => []
  | [x] => x
  | x :: r => x ++ sep ++ intercalate sep r
  end.

(** [s] contains no backtick. *)
Definition noBacktick (s : jsstring) : bool := forallb (fun c => negb (c =? bt)) s.

End JsString.
Import JsString.

(** ** The fragment of the JavaScript run time the servers rely on *)

Module Js.

(** Thrown values.  The servers read nothing of an exception but its
    [message]. *)
Inductive errorKind := Error | TypeError | SyntaxError.

Record exn := Exn { kind : errorKind; message : jsstring }.

(** Completion of a computation that may throw. *)
Inductive result (A : Type) : Type :=
| Ok (a : A)
| Throw (e : exn).
Arguments Ok {A} a.
Arguments Throw {A} e.

Definition bind {A B} (m : result A) (k : A -> result B) : result B :=
  match m with
  | Ok a => k a
  | Throw e => Throw e
  end.

(** A number is kept as what the servers can observe of it: whether it is
    NaN, infinite or finite, whether it is zero, and the decimal text
    Number::toString gives it. *)
Inductive number :=
| NaN
| Infinity (negative : bool)
| Finite (zero : bool) (text : jsstring).

(** JavaScript values: the data [JSON.parse] produces, and functions.  An
    object is the list of its own properties in property order.  A function
    is kept as its source text and the completion of calling it. *)
#[warnings="-register-all"]
Inductive value :=
| VUndefined
| VNull
| VBool (b : bool)
| VNum (n : number)
| VStr (s : jsstring)
| VArr (items : list value)
| VObj (props : list (jsstring * value))
| VFun (source : jsstring) (call : result value).

Fixpoint jsstring_eqb (a b : jsstring) : bool :=
  match a, b with
  | [], [] => true
  | x :: a', y :: b' => (x =? y) && jsstring_eqb a' b'
  | _, _ => false
  end.

(** ToBoolean. *)
Definition numberTruthy (n : number) : bool :=
  match n with
  | NaN => false
  | Infinity _ => true
  | Finite zero _ => negb zero
  end.

Definition truthy (v : value) : bool :=
  match v with
  | VUndefined | VNull => false
  | VBool b => b
  | VNum n => numberTruthy n
  | VStr s => match s with [] => false | _ => true end
  | VArr _ | VObj _ | VFun _ _ => true
  end.

(** [a || b] on values. *)
Definition or_ (a b : value) : value := if truthy a then a else b.

(** [a ?? b]. *)
Definition nullish (v : value) : bool :=
  match v with VUndefined | VNull => true | _ => false end.
Definition coalesce (a b : value) : value := if nullish a then b else a.

(** Own property of an object, if present. *)
Fixpoint lookupOwn (k : jsstring) (props : list (jsstring * value)) : option value :=
  match props with
  | [] => None
  | (k', v) :: r => if jsstring_eqb k k' then Some v else lookupOwn k r
  end.

(** [v?.k] for the property names the servers read ([spec], [brief],
    [projectName], [choices], [message], [content], [response], [text],
    ...): none of them is defined on a built-in prototype, so the read
    gives the own property of an object and [undefined] on anything else. *)
Definition getOpt (v : value) (k : jsstring) : value :=
  match v with
  | VObj props => match lookupOwn k props with Some x => x | None => VUndefined end
  | _ => VUndefined
  end.

(** [v.k]: as [v?.k], but reading a property of [undefined] or [null]
    throws. *)
Definition getProp (v : value) (k : jsstring) : result value :=
  match v with
  | VUndefined =>
      Throw (Exn TypeError (lit "Cannot read properties of undefined (reading '" ++ k ++ lit "')"))
  | VNull =>
      Throw (Exn TypeError (lit "Cannot read properties of null (reading '" ++ k ++ lit "')"))
  | _ => Ok (getOpt v k)
  end.

(** [v?.[0]]. *)
Definition getOpt0 (v : value) : value :=
  match v with
  | VArr (x :: _) => x
  | VStr (c :: _) => VStr [c]
  | VObj props => match lookupOwn (lit "0") props with Some x => x | None => VUndefined end
  | _ => VUndefined
  end.

Definition isString (v : value) : bool :=
  match v with VStr _ => true | _ => false end.

(** [typeof v === "function"]. *)
Definition isFunctionValue (v : value) : bool :=
  match v with VFun _ _ => true | _ => false end.

Definition numberToString (n : number) : jsstring :=
  match n with
  | NaN => lit "NaN"
  | Infinity false => lit "Infinity"
  | Infinity true => lit "-Infinity"
  | Finite _ text => text
  end.

(** ToString of a primitive value; [None] on objects. *)
Definition primitiveToString (v : value) : option jsstring :=
  match v with
  | VUndefined => Some (lit "undefined")
  | VNull => Some (lit "null")
  | VBool true => Some (lit "true")
  | VBool false => Some (lit "false")
  | VNum n => Some (numberToString n)
  | VStr s => Some s
  | VArr _ | VObj _ | VFun _ _ => None
  end.

Definition cannotConvert : exn :=
  Exn TypeError (lit "Cannot convert object to primitive value").

(** Calls the own method [k] of an ordinary object for OrdinaryToPrimitive:
    [Some] when the method is callable and (throws or) returns a
    primitive. *)
Definition primitiveFromMethod (k : jsstring) (props : list (jsstring * value))
  : option (result jsstring) :=
  match lookupOwn k props with
  | Some (VFun _ (Throw e)) => Some (Throw e)
  | Some (VFun _ (Ok r)) =>
      match primitiveToString r with
      | Some s => Some (Ok s)
      | None => None
      end
  | _ => None
  end.

(** ToString of an ordinary object (OrdinaryToPrimitive with hint string):
    an object without an own [toString] inherits Object.prototype.toString;
    an own [toString] or [valueOf] that is not callable is skipped, and so
    is one that returns an object. *)
Definition objectToString (props : list (jsstring * value)) : result jsstring :=
  match lookupOwn (lit "toString") props with
  | None => Ok (lit "[object Object]")
  | Some _ =>
      match primitiveFromMethod (lit "toString") props with
      | Some r => r
      | None =>
          match primitiveFromMethod (lit "valueOf") props with
          | Some r => r
          | None => Throw cannotConvert
          end
      end
  end.

(** [Array.prototype.join]: [undefined] and [null] elements give the empty
    string, the others are converted by [toStr]. *)
Definition joinWith (toStr : value -> result jsstring) (sep : jsstring)
  : list value -> result jsstring :=
  fix go (items : list value) : result jsstring :=
    match items with
    | [] => Ok []
    | x :: r =>
        bind (if nullish x then Ok [] else toStr x) (fun s =>
        match r with
        | [] => Ok s
        | _ :: _ => bind (go r) (fun t => Ok (s ++ sep ++ t))
        end)
    end.

(** ToString, as applied by template literals and by [String(v)]. *)
Fixpoint ToString (v : value) : result jsstring :=
  match v with
  | VUndefined => Ok (lit "undefined")
  | VNull => Ok (lit "null")
  | VBool true => Ok (lit "true")
  | VBool false => Ok (lit "false")
  | VNum n => Ok (numberToString n)
  | VStr s => Ok s
  | VArr items => joinWith ToString (lit ",") items
  | VObj props => objectToString props
  | VFun source _ => Ok source
  end.

(** [items.join(sep)]. *)
Definition join (sep : jsstring) (items : list value) : result jsstring :=
  joinWith ToString sep items.

(** The method call [v.toString()] on a value that is neither [undefined]
    nor [null]. *)
Definition callToString (v : value) : result value :=
  match v with
  | VObj props =>
      match lookupOwn (lit "toString") props with
      | None => Ok (VStr (lit "[object Object]"))
      | Some (VFun _ call) => call
      | Some _ => Throw (Exn TypeError (lit "(intermediate value).toString is not a function"))
      end
  | VUndefined =>
      Throw (Exn TypeError (lit "Cannot read properties of undefined (reading 'toString')"))
  | VNull =>
      Throw (Exn TypeError (lit "Cannot read properties of null (reading 'toString')"))
  | _ => bind (ToString v) (fun s => Ok (VStr s))
  end.

(** The receiver of a call [s.m(...)] of a String.prototype method: the
    call throws unless [s] is a string.  The messages of the TypeErrors
    are worded as V8 words them. *)
Definition asString (receiver method : jsstring) (v : value) : result jsstring :=
  match v with
  | VStr s => Ok s
  | VUndefined =>
      Throw (Exn TypeError
               (lit "Cannot read properties of undefined (reading '" ++ method ++ lit "')"))
  | VNull =>
      Throw (Exn TypeError
               (lit "Cannot read properties of null (reading '" ++ method ++ lit "')"))
  | _ => Throw (Exn TypeError (receiver ++ lit "." ++ method ++ lit " is not a function"))
  end.

End Js.
Import Js.

Declare Scope js_scope.
Notation "x <- m ;; k" := (Js.bind m (fun x => k))
  (at level 61, m at next level, right associativity) : js_scope.
Local Open Scope js_scope.

(** ** Node's [Buffer]: UTF-8 and base64 *)

Module Buffer.

Definition isHighSurrogate (c : N) : bool := (55296 <=? c) && (c <=? 56319).
Definition isLowSurrogate (c : N) : bool := (56320 <=? c) && (c <=? 57343).

(** The code point of a surrogate pair. *)
Definition pairCodePoint (hi lo : N) : N := 65536 + (hi - 55296) * 1024 + (lo - 56320).

Definition utf8OfCodePoint (cp : N) : list N :=
  if cp <? 128 then [cp]
  else if cp <? 2048 then [192 + cp / 64; 128 + cp mod 64]
  else if cp <? 65536 then
    [224 + cp / 4096; 128 + (cp / 64) mod 64; 128 + cp mod 64]
  else
    [240 + cp / 262144; 128 + (cp / 4096) mod 64; 128 + (cp / 64) mod 64;
     128 + cp mod 64].

(** U+FFFD in UTF-8: what an unpaired surrogate is encoded as. *)
Definition replacement : list N := [239; 191; 189].

(** [Buffer.from(s, "utf8")]: the bytes of the string. *)
Fixpoint utf8Encode (s : jsstring) : list N :=
  match s with
  | [] => []
  | c :: r =>
      if isHighSurrogate c then
        match r with
        | d :: r' =>
            if isLowSurrogate d
            then utf8OfCodePoint (pairCodePoint c d) ++ utf8Encode r'
            else replacement ++ utf8Encode r
        | [] => replacement
        end
      else if isLowSurrogate c then replacement ++ utf8Encode r
      else utf8OfCodePoint c ++ utf8Encode r
  end.

(** The base64 alphabet: A-Z, a-z, 0-9, plus and slash. *)
Definition b64char (i : N) : N :=
  if i <? 26 then 65 + i
  else if i <? 52 then 97 + (i - 26)
  else if i <? 62 then 48 + (i - 52)
  else if i =? 62 then 43
  else 47.

Definition pad : N := 61.

(** [buf.toString("base64")]: three bytes give four characters, the last
    group is padded with [=]. *)
Fixpoint base64Encode (bs : list N) : jsstring :=
  match bs with
  | [] => []
  | [a] => [b64char (a / 4); b64char ((a mod 4) * 16); pad; pad]
  | [a; b] =>
      [b64char (a / 4); b64char ((a mod 4) * 16 + b / 16);
       b64char ((b mod 16) * 4); pad]
  | a :: b :: c :: r =>
      b64char (a / 4) :: b64char ((a mod 4) * 16 + b / 16)
      :: b64char ((b mod 16) * 4 + c / 64) :: b64char (c mod 64)
      :: base64Encode r
  end.

End Buffer.

(** ** HTTP responses of the servers *)

Record response := Response { status : N; body : value }.

(** One call of an external model: the model identifier and the prompt. *)
Definition providerCall := (jsstring * jsstring)%type.

(** The variables of the fallback loop: [html], [lastErr] and [tried], and
    the calls made to the provider so far. *)
Record loopState := LoopState {
  html : jsstring;
  lastErr : option exn;
  tried : list jsstring;
  calls : list providerCall
}.

Definition initialState : loopState :=
  {| html := []; lastErr := None; tried := []; calls := [] |}.

(** [for (const m of models) body]: [body] returns the new state and
    whether it left the loop with [break]. *)
Fixpoint forOf (body : jsstring -> loopState -> loopState * bool)
  (models : list jsstring) (st : loopState) : loopState :=
  match models with
  | [] => st
  | m :: rest =>
      let '(st', break) := body m st in
      if break then st' else forOf body rest st'
  end.

(** [html && html.length > 50]. *)
Definition longEnough (h : jsstring) : bool :=
  match h with [] => false | _ => Nat.ltb 50 (List.length h) end.

(** [!html || html.length < 20]. *)
Definition unusable (h : jsstring) : bool :=
  match h with [] => true | _ => Nat.ltb (List.length h) 20 end.

(** [lastErr?.message]. *)
Definition messageOf (e : option exn) : value :=
  match e with
  | Some x => VStr (message x)
  | None => VUndefined
  end.

Definition dataUriPrefix : jsstring := lit "data:text/html;base64,".

(** ["data:text/html;base64," + Buffer.from(html, "utf8").toString("base64")]. *)
Definition downloadUrlOf (h : jsstring) : jsstring :=
  dataUriPrefix ++ Buffer.base64Encode (Buffer.utf8Encode h).

(** The three ways the handler answers after validation. *)
Definition badGateway (st : loopState) : response :=
  Response 502
    (VObj [ (lit "error", VStr (lit "Model did not return usable HTML"));
            (lit "details", messageOf (lastErr st));
            (lit "tried", VArr (map VStr (tried st))) ]).

Definition success (h : jsstring) : response :=
  Response 200
    (VObj [ (lit "html", VStr h); (lit "downloadUrl", VStr (downloadUrlOf h)) ]).

Definition badRequest : response :=
  Response 400 (VObj [ (lit "error", VStr (lit "spec.brief is required")) ]).

(** [res.status(500).json({ error: err.message || "Internal Server Error" })]. *)
Definition internalError (e : exn) : response :=
  Response 500
    (VObj [ (lit "error",
             or_ (VStr (message e)) (VStr (lit "Internal Server Error"))) ]).

(** The five characters the servers escape, and their entities. *)
Definition escapeChar (c : N) : jsstring :=
  if c =? amp then lit "&amp;"
  else if c =? langle then lit "&lt;"
  else if c =? rangle then lit "&gt;"
  else if c =? dq then lit "&quot;"
  else if c =? sq then lit "&#39;"
  else [c].

(** The global replacement of the class of these five characters, each
    match replaced by its entry in the table. *)
Definition escapeHtmlAttr (s : jsstring) : jsstring := flat_map escapeChar s.

(** A match of [/<\s*html[\s>]/i] at the head of the string. *)
Definition htmlTagHere (s : jsstring) : bool :=
  match s with
  | c :: r =>
      (c =? langle) &&
      match stripPrefix eqCi (lit "html") (dropWhile isSpace r) with
      | Some (d :: _) => isSpace d || (d =? rangle)
      | _ => false
      end
  | [] => false
  end.

(** A match of [/<!doctype html>/i] at the head of the string. *)
Definition doctypeHere (s : jsstring) : bool :=
  startsWith eqCi (lit "<!doctype html>") s.

(** [/<\s*html[\s>]/i.test(html) || /<!doctype html>/i.test(html)]. *)
Definition hasHtml (h : jsstring) : bool :=
  existsSuffix htmlTagHere h || existsSuffix doctypeHere h.

(** A parameter with the default [{}]. *)
Definition defaultObj (v : value) : value :=
  match v with VUndefined => VObj [] | _ => v end.

(** ** The OpenRouter server ([server/server.js]) *)

Module OpenRouter.

(** [/^```(html)?\s*/i] replaced by the empty string. *)
Definition stripLeadingFence (s : jsstring) : jsstring :=
  match stripPrefix N.eqb fence s with
  | Some r =>
      dropWhile isSpace
        (match stripPrefix eqCi (lit "html") r with
         | Some r' => r'
         | None => r
         end)
  | None => s
  end.

(** [/```$/i] replaced by the empty string. *)
Definition stripTrailingFence (s : jsstring) : jsstring :=
  match stripSuffix fence s with
  | Some r => r
  | None => s
  end.

Definition stripFences (s : jsstring) : jsstring :=
  trim (stripTrailingFence (stripLeadingFence (trim s))).

(** [stripFences(text)] on a value: the default parameter and the method
    call [s.trim()]. *)
Definition stripFencesOf (text : value) : result jsstring :=
  s <- asString (lit "s") (lit "trim")
         (match text with VUndefined => VStr [] | _ => text end) ;;
  Ok (stripFences s).

(** The template of the document, cut at the interpolated fragment. *)
Definition shellBefore (safeTitle : jsstring) : jsstring :=
    lit "<!doctype html>" ++ [nl] ++
    lit "<html lang=" ++ [dq] ++ lit "en" ++ [dq] ++ lit ">" ++ [nl] ++
    lit "<head>" ++ [nl] ++
    lit "<meta charset=" ++ [dq] ++ lit "utf-8" ++ [dq] ++ lit "/>" ++ [nl] ++
    lit "<meta name=" ++ [dq] ++ lit "viewport" ++ [dq] ++ lit " content=" ++ [dq] ++ lit "width=device-width,initial-scale=1" ++ [dq] ++ lit "/>" ++ [nl] ++
    lit "<title>" ++ safeTitle ++ lit "</title>" ++ [nl] ++
    lit "</head>" ++ [nl] ++
    lit "<body>" ++ [nl].

Definition shellAfter : jsstring :=
    [nl] ++
    lit "</body>" ++ [nl] ++
    lit "</html>".

Definition shell (safeTitle html : jsstring) : jsstring :=
  shellBefore safeTitle ++ html ++ shellAfter.

(** The constant [title], as a string on which [replace] can be called. *)
Definition titleOf (spec : value) : result jsstring :=
  projectName <- getProp spec (lit "projectName") ;;
  t <- callToString (or_ projectName (VStr (lit "Website"))) ;;
  asString (lit "title") (lit "replace") t.

Definition ensureFullDoc (html : jsstring) (spec : value) : result jsstring :=
  if hasHtml html then Ok html
  else
    title <- titleOf (defaultObj spec) ;;
    let safeTitle := escapeHtmlAttr title in
    Ok (shell safeTitle html).

(** What [fetch] does on one call: it rejects, or resolves with a response
    of which the server reads the status, the body text and the body parsed
    as JSON. *)
Inductive fetchOutcome :=
| FetchRejects (e : exn)
| FetchResolves (status : N) (text : jsstring) (json : result value).

(** The provider, as the server sees it. *)
Definition provider := jsstring -> jsstring -> fetchOutcome.

(** [res.ok]. *)
Definition ok (status : N) : bool := (200 <=? status) && (status <=? 299).

Definition callOpenRouter (fetch : provider) (model prompt : jsstring)
  : result value :=
  match fetch model prompt with
  | FetchRejects e => Throw e
  | FetchResolves status errText json =>
      if negb (ok status)
      then Throw (Exn Error (lit "OpenRouter error: " ++ errText))
      else
        data <- json ;;
        Ok (or_ (getOpt (getOpt (getOpt0 (getOpt data (lit "choices")))
                           (lit "message")) (lit "content"))
                (VStr []))
  end.

Record safeSpec := SafeSpec {
  projectName : value;
  brief : value;
  primaryColor : value;
  style : value;
  tone : value;
  pages : list value
}.

Definition normalize (spec : value) : safeSpec :=
  {| projectName := or_ (getOpt spec (lit "projectName")) (VStr (lit "Website"));
     brief := or_ (getOpt spec (lit "brief")) (VStr []);
     primaryColor := or_ (getOpt spec (lit "primaryColor")) (VStr (lit "#4f46e5"));
     style := or_ (getOpt spec (lit "style")) (VStr (lit "modern, clean"));
     tone := or_ (getOpt spec (lit "tone")) (VStr (lit "professional"));
     pages := match getOpt spec (lit "pages") with
              | VArr items => items
              | _ => []
              end |}.

Definition promptText (pages primaryColor style tone projectName brief : jsstring)
  : jsstring :=
    [nl] ++
    lit "You are a senior frontend engineer and UX designer. Generate a production-quality, fully responsive, single-file website with:" ++ [nl] ++
    [nl] ++
    lit "Strictly ONE complete HTML document. No markdown. No code fences." ++ [nl] ++
    lit "- strictly write whole css in the HTML document , either use inline or internal css" ++ [nl] ++
    [nl] ++
    lit "Vanilla JavaScript only inside a single <script> tag near the end of <body>. No external libraries." ++ [nl] ++
    [nl] ++
    lit "dont give href=" ++ [dq] ++ lit "#" ++ [dq] ++ lit " in anchor tag, give class name instead" ++ [nl] ++
    [nl] ++
    lit "Requirements:" ++ [nl] ++
    [nl] ++
    lit "Structure: semantic sections (<header>, <nav>, <main>, <section>, <footer>), one section per page: " ++ pages ++ lit ". Give each section an id matching its page name (kebab-case). Include a hero on Home." ++ [nl] ++
    [nl] ++
    lit "Navigation: sticky top nav with links that smooth-scroll to sections; active link highlighting on scroll; mobile menu with hamburger toggle." ++ [nl] ++
    [nl] ++
    lit "Styling: use CSS variables, set --primary to " ++ primaryColor ++ lit ". Apply a modern " ++ style ++ lit " look and a " ++ tone ++ lit " tone. Respect prefers-color-scheme; provide light/dark theme toggle." ++ [nl] ++
    [nl] ++
    lit "Layout: fluid, mobile-first grid; accessible color contrast; focus outlines; skip-to-content link." ++ [nl] ++
    [nl] ++
    lit "Interactivity: implement smooth-scroll, section active state, back-to-top button, simple tabs OR carousel component, and a basic contact form with client-side validation (no network calls). Persist theme choice in localStorage." ++ [nl] ++
    [nl] ++
    lit "Assets: do not load external fonts/images. Use system font stack. For images, use placeholder SVGs or gradients inline." ++ [nl] ++
    [nl] ++
    lit "Content: craft meaningful, concise copy aligned with the brief and project name." ++ [nl] ++
    [nl] ++
    lit "SEO: include <title>, meta description, canonical (self), Open Graph, and JSON-LD Organization schema with " ++ projectName ++ lit "." ++ [nl] ++
    [nl] ++
    lit "Performance: avoid heavy box-shadows; keep CSS minimal; avoid oversized DOM; no animations that harm motion-sensitive users; respect prefers-reduced-motion." ++ [nl] ++
    [nl] ++
    lit "Accessibility: ARIA where needed; labels for inputs; reachable with keyboard; alt text for decorative placeholders can be empty." ++ [nl] ++
    [nl] ++
    lit "Input context:" ++ [nl] ++
    [nl] ++
    lit "Project: " ++ projectName ++ [nl] ++
    lit "Brief: " ++ brief ++ [nl] ++
    lit "Pages: " ++ pages ++ [nl] ++
    [nl] ++
    lit "Output:" ++ [nl] ++
    lit "Return ONLY the final HTML string for a complete document (<!doctype html> ... </html>), nothing else." ++ [nl].

(** The template literal: each substitution is converted with ToString. *)
Definition buildPrompt (safe : safeSpec) : result jsstring :=
  pagesText <- join (lit ", ") (pages safe) ;;
  primaryColorText <- ToString (primaryColor safe) ;;
  styleText <- ToString (style safe) ;;
  toneText <- ToString (tone safe) ;;
  projectNameText <- ToString (projectName safe) ;;
  briefText <- ToString (brief safe) ;;
  Ok (promptText pagesText primaryColorText styleText toneText
        projectNameText briefText).

Definition modelIds : list jsstring :=
  [ lit "x-ai/grok-code-fast-1";
    lit "openai/gpt-4o";
    lit "anthropic/claude-3.5-sonnet";
    lit "deepseek/deepseek-chat" ].

(** The [try] block of the loop: one call and the finalization of its
    text. *)
Definition attempt (fetch : provider) (spec : value) (prompt model : jsstring)
  : result jsstring :=
  text <- callOpenRouter fetch model prompt ;;
  stripped <- stripFencesOf text ;;
  ensureFullDoc stripped spec.

(** One iteration: [try], [catch] and [finally]. *)
Definition iteration (fetch : provider) (spec : value) (prompt : jsstring)
  (model : jsstring) (st : loopState) : loopState * bool :=
  let called := calls st ++ [(model, prompt)] in
  match attempt fetch spec prompt model with
  | Ok h =>
      ({| html := h; lastErr := lastErr st;
          tried := tried st ++ [model]; calls := called |},
       longEnough h)
  | Throw e =>
      ({| html := html st; lastErr := Some e;
          tried := tried st ++ [model]; calls := called |},
       false)
  end.

Definition fallback (fetch : provider) (spec : value) (prompt : jsstring)
  (models : list jsstring) : loopState :=
  forOf (iteration fetch spec prompt) models initialState.

(** The part of the handler after the prompt is built. *)
Definition respond (st : loopState) : response :=
  if unusable (html st) then badGateway st else success (html st).

(** [app.post("/api/generate", ...)]: the response, and the calls made to
    the provider while handling the request. *)
Definition generate (fetch : provider) (reqBody : value)
  : response * list providerCall :=
  let spec := getOpt (or_ reqBody (VObj [])) (lit "spec") in
  if negb (truthy (getOpt spec (lit "brief"))) then (badRequest, [])
  else
    match buildPrompt (normalize spec) with
    | Throw err => (internalError err, [])
    | Ok prompt =>
        let st := fallback fetch spec prompt modelIds in
        (respond st, calls st)
    end.

End OpenRouter.

(** ** [JSON.stringify] *)

Module Json.

Definition hexDigit (d : N) : N := if d <? 10 then 48 + d else 97 + (d - 10).

Definition backslash : N := 92.

(** The escape of one code unit as [\uXXXX], in lower-case hexadecimal. *)
Definition unicodeEscape (c : N) : jsstring :=
  [backslash; 117; hexDigit ((c / 4096) mod 16); hexDigit ((c / 256) mod 16);
   hexDigit ((c / 16) mod 16); hexDigit (c mod 16)].

Definition quoteUnit (c : N) : jsstring :=
  if c =? 8 then [backslash; 98]
  else if c =? 9 then [backslash; 116]
  else if c =? 10 then [backslash; 110]
  else if c =? 12 then [backslash; 102]
  else if c =? 13 then [backslash; 114]
  else if c =? dq then [backslash; dq]
  else if c =? backslash then [backslash; backslash]
  else if c <? 32 then unicodeEscape c
  else [c].

(** QuoteJSONString without the quotes: unpaired surrogates are escaped,
    surrogate pairs are kept. *)
Fixpoint quoteBody (s : jsstring) : jsstring :=
  match s with
  | [] => []
  | c :: r =>
      if Buffer.isHighSurrogate c then
        match r with
        | d :: r' =>
            if Buffer.isLowSurrogate d then c :: d :: quoteBody r'
            else unicodeEscape c ++ quoteBody r
        | [] => unicodeEscape c
        end
      else if Buffer.isLowSurrogate c then unicodeEscape c ++ quoteBody r
      else quoteUnit c ++ quoteBody r
  end.

Definition quote (s : jsstring) : jsstring := [dq] ++ quoteBody s ++ [dq].

Definition numberText (n : number) : jsstring :=
  match n with
  | Finite _ text => text
  | _ => lit "null"
  end.

Definition orNull (t : option jsstring) : jsstring :=
  match t with Some x => x | None => lit "null" end.

(** SerializeJSONProperty without replacer and indentation: [None] stands
    for [undefined].  [useToJSON] tells whether the [toJSON] method of the
    value is still to be looked for. *)
Fixpoint serialize (useToJSON : bool) (v : value) : result (option jsstring) :=
  match v with
  | VUndefined | VFun _ _ => Ok None
  | VNull => Ok (Some (lit "null"))
  | VBool true => Ok (Some (lit "true"))
  | VBool false => Ok (Some (lit "false"))
  | VNum n => Ok (Some (numberText n))
  | VStr s => Ok (Some (quote s))
  | VArr items =>
      parts <- (fix elements (l : list value) : result (list jsstring) :=
                  match l with
                  | [] => Ok []
                  | x :: r =>
                      t <- serialize true x ;;
                      rest <- elements r ;;
                      Ok (orNull t :: rest)
                  end) items ;;
      Ok (Some (lit "[" ++ intercalate (lit ",") parts ++ lit "]"))
  | VObj props =>
      let plain :=
        members <- (fix members (l : list (jsstring * value))
                      : result (list jsstring) :=
                      match l with
                      | [] => Ok []
                      | (k, x) :: r =>
                          t <- serialize true x ;;
                          rest <- members r ;;
                          Ok (match t with
                              | Some text => (quote k ++ lit ":" ++ text) :: rest
                              | None => rest
                              end)
                      end) props ;;
        Ok (Some (lit "{" ++ intercalate (lit ",") members ++ lit "}")) in
      if useToJSON then
        (fix toJSON (l : list (jsstring * value)) : result (option jsstring) :=
           match l with
           | [] => plain
           | (k, x) :: r =>
               if jsstring_eqb (lit "toJSON") k then
                 match x with
                 | VFun _ (Ok replaced) => serialize false replaced
                 | VFun _ (Throw e) => Throw e
                 | _ => plain
                 end
               else toJSON r
           end) props
      else plain
  end.

(** [JSON.stringify(v)]. *)
Definition stringify (v : value) : result (option jsstring) := serialize true v.

End Json.

(** ** The first Gemini server *)

Module Gemini.

(** A match of [/```(?:html)?/gi] at the head of the string. *)
Definition fenceWithTag (s : jsstring) : option nat :=
  match stripPrefix N.eqb fence s with
  | Some r => if startsWith eqCi (lit "html") r then Some 7%nat else Some 3%nat
  | None => None
  end.

(** A match of [/```/g] at the head of the string. *)
Definition fenceOnly (s : jsstring) : option nat :=
  if startsWith N.eqb fence s then Some 3%nat else None.

(** The first two replacements are those of the OpenRouter server, with a
    group that does not capture. *)
Definition stripFences (s : jsstring) : jsstring :=
  trim
    (removeAll fenceOnly 0
       (removeAll fenceWithTag 0
          (OpenRouter.stripTrailingFence
             (OpenRouter.stripLeadingFence (trim s))))).

(** The template of the document, cut at the interpolated fragment. *)
Definition shellBefore (safeTitle : jsstring) : jsstring :=
    lit "<!doctype html>" ++ [nl] ++
    lit "<html lang=" ++ [dq] ++ lit "en" ++ [dq] ++ lit ">" ++ [nl] ++
    lit "<head>" ++ [nl] ++
    lit "<meta charset=" ++ [dq] ++ lit "utf-8" ++ [dq] ++ lit "/>" ++ [nl] ++
    lit "<meta name=" ++ [dq] ++ lit "viewport" ++ [dq] ++ lit " content=" ++ [dq] ++ lit "width=device-width,initial-scale=1" ++ [dq] ++ lit "/>" ++ [nl] ++
    lit "<title>" ++ safeTitle ++ lit "</title>" ++ [nl] ++
    lit "</head>" ++ [nl] ++
    lit "<body>".

Definition shellAfter : jsstring :=
    lit "</body>" ++ [nl] ++
    lit "</html>".

Definition shell (safeTitle html : jsstring) : jsstring :=
  shellBefore safeTitle ++ html ++ shellAfter.

(** The constant [title], as a string on which [replace] can be called. *)
Definition titleOf (spec : value) : result jsstring :=
  seo <- getProp spec (lit "seo") ;;
  t <- callToString
         (or_ (or_ (getOpt seo (lit "title")) (getOpt spec (lit "projectName")))
              (VStr (lit "Website"))) ;;
  asString (lit "title") (lit "replace") t.

Definition ensureFullDoc (html : jsstring) (spec : value) : result jsstring :=
  if hasHtml html then Ok html
  else
    title <- titleOf (defaultObj spec) ;;
    Ok (shell (escapeHtmlAttr title) html).

(** The provider, as this server sees it: the settled promise of
    [model.generateContent(prompt)] for the model with the given
    identifier.  The call is not raced against a timer here. *)
Definition provider := jsstring -> jsstring -> result value.

(** [result?.response?.text ? result.response.text() : ""]. *)
Definition textOf (result : value) : Js.result value :=
  let text := getOpt (getOpt result (lit "response")) (lit "text") in
  if truthy text then
    match text with
    | VFun _ call => call
    | _ => Throw (Exn TypeError (lit "result.response.text is not a function"))
    end
  else Ok (VStr []).

Definition stripFencesOf (text : value) : result jsstring :=
  s <- asString (lit "s") (lit "trim")
         (match text with VUndefined => VStr [] | _ => text end) ;;
  Ok (stripFences s).

Definition promptText (pages primaryColor style tone projectName brief : jsstring)
  : jsstring :=
    [nl] ++
    lit "You are a senior frontend engineer and UX designer. Generate a production-quality, fully responsive, single-file website with:" ++ [nl] ++
    lit "- Strictly ONE complete HTML document. No markdown. No code fences." ++ [nl] ++
    lit "-strictly write whole css in the HTML document , either use inline or internal css" ++ [nl] ++
    lit "- Vanilla JavaScript only inside a single <script> tag near the end of <body>. No external libraries." ++ [nl] ++
    lit "- dont give href=" ++ [dq] ++ lit "#" ++ [dq] ++ lit " in anchor tag, give class name instead " ++ [nl] ++
    [nl] ++
    lit "Requirements:" ++ [nl] ++
    lit "- Structure: semantic sections (<header>, <nav>, <main>, <section>, <footer>), one section per page: " ++ pages ++ lit ". Give each section an id matching its page name (kebab-case). Include a hero on Home." ++ [nl] ++
    lit "- Navigation: sticky top nav with links that smooth-scroll to sections; active link highlighting on scroll; mobile menu with hamburger toggle." ++ [nl] ++
    lit "- Styling: use CSS variables, set --primary to " ++ primaryColor ++ lit ". Apply a modern " ++ style ++ lit " look and a " ++ tone ++ lit " tone. Respect prefers-color-scheme; provide light/dark theme toggle." ++ [nl] ++
    lit "- Layout: fluid, mobile-first grid; accessible color contrast; focus outlines; skip-to-content link." ++ [nl] ++
    lit "- Interactivity: implement smooth-scroll, section active state, back-to-top button, simple tabs OR carousel component, and a basic contact form with client-side validation (no network calls). Persist theme choice in localStorage." ++ [nl] ++
    lit "- Assets: do not load external fonts/images. Use system font stack. For images, use placeholder SVGs or gradients inline." ++ [nl] ++
    lit "- Content: craft meaningful, concise copy aligned with the brief and project name." ++ [nl] ++
    lit "- SEO: include <title>, meta description, canonical (self), Open Graph, and JSON-LD Organization schema with " ++ projectName ++ lit "." ++ [nl] ++
    lit "- Performance: avoid heavy box-shadows; keep CSS minimal; avoid oversized DOM; no animations that harm motion-sensitive users; respect prefers-reduced-motion." ++ [nl] ++
    lit "- Accessibility: ARIA where needed; labels for inputs; reachable with keyboard; alt text for decorative placeholders can be empty." ++ [nl] ++
    [nl] ++
    lit "Input context:" ++ [nl] ++
    lit "- Project: " ++ projectName ++ [nl] ++
    lit "- Brief: " ++ brief ++ [nl] ++
    lit "- Pages: " ++ pages ++ [nl] ++
    [nl] ++
    lit "Output:" ++ [nl] ++
    lit "- Return ONLY the final HTML string for a complete document (<!doctype html> ... </html>), nothing else.".

(** The object [safe] is built as in the OpenRouter server. *)
Definition buildPrompt (safe : OpenRouter.safeSpec) : result jsstring :=
  pagesText <- join (lit ", ") (OpenRouter.pages safe) ;;
  primaryColorText <- ToString (OpenRouter.primaryColor safe) ;;
  styleText <- ToString (OpenRouter.style safe) ;;
  toneText <- ToString (OpenRouter.tone safe) ;;
  projectNameText <- ToString (OpenRouter.projectName safe) ;;
  briefText <- ToString (OpenRouter.brief safe) ;;
  Ok (promptText pagesText primaryColorText styleText toneText
        projectNameText briefText).

Definition modelIds : list jsstring :=
  [ lit "gemini-2.0-flash-exp"; lit "gemini-2.0-flash"; lit "gemini-1.5-flash" ].

Definition attempt (generateContent : provider) (spec : value)
  (prompt id : jsstring) : result jsstring :=
  result <- generateContent id prompt ;;
  text <- textOf result ;;
  stripped <- stripFencesOf text ;;
  ensureFullDoc stripped spec.

Definition iteration (generateContent : provider) (spec : value)
  (prompt : jsstring) (id : jsstring) (st : loopState) : loopState * bool :=
  let called := calls st ++ [(id, prompt)] in
  match attempt generateContent spec prompt id with
  | Ok h =>
      ({| html := h; lastErr := lastErr st;
          tried := tried st ++ [id]; calls := called |},
       longEnough h)
  | Throw e =>
      ({| html := html st; lastErr := Some e;
          tried := tried st ++ [id]; calls := called |},
       false)
  end.

Definition fallback (generateContent : provider) (spec : value)
  (prompt : jsstring) (models : list jsstring) : loopState :=
  forOf (iteration generateContent spec prompt) models initialState.

Definition respond (st : loopState) : response :=
  if unusable (html st) then badGateway st else success (html st).

Definition generate (generateContent : provider) (reqBody : value)
  : response * list providerCall :=
  let spec := getOpt (or_ reqBody (VObj [])) (lit "spec") in
  if negb (truthy (getOpt spec (lit "brief"))) then (badRequest, [])
  else
    match buildPrompt (OpenRouter.normalize spec) with
    | Throw err => (internalError err, [])
    | Ok prompt =>
        let st := fallback generateContent spec prompt modelIds in
        (respond st, calls st)
    end.

End Gemini.

(** ** The OpenRouter server deployed with an allow-list of origins *)

Module Render.

(** [stripFences] and [ensureFullDoc] are those of [server/server.js],
    character for character. *)

(** The body is read as text and parsed with [JSON.parse]; [json] is the
    outcome of that parse. *)
Definition callOpenRouter (fetch : OpenRouter.provider) (model prompt : jsstring)
  : result value :=
  match fetch model prompt with
  | OpenRouter.FetchRejects e => Throw e
  | OpenRouter.FetchResolves status raw json =>
      if negb (OpenRouter.ok status)
      then Throw (Exn Error raw)
      else
        data <- json ;;
        Ok (or_ (getOpt (getOpt (getOpt0 (getOpt data (lit "choices")))
                           (lit "message")) (lit "content"))
                (VStr []))
  end.

(** The prompt is a constant: the template has no substitution. *)
Definition prompt : jsstring :=
    [nl] ++
    lit "You are a senior frontend engineer and UX designer. Generate a production-quality, fully responsive, single-file website." ++ [nl] ++
    [nl] ++
    lit "Return ONLY valid HTML." ++ [nl].

Definition modelIds : list jsstring :=
  [ lit "mistralai/devstral-2512:free";
    lit "nvidia/nemotron-3-nano-30b-a3b:free";
    lit "nex-agi/deepseek-v3.1-nex-n1:free" ].

Definition attempt (fetch : OpenRouter.provider) (spec : value) (model : jsstring)
  : result jsstring :=
  text <- callOpenRouter fetch model prompt ;;
  stripped <- OpenRouter.stripFencesOf text ;;
  OpenRouter.ensureFullDoc stripped spec.

Definition iteration (fetch : OpenRouter.provider) (spec : value)
  (model : jsstring) (st : loopState) : loopState * bool :=
  let called := calls st ++ [(model, prompt)] in
  match attempt fetch spec model with
  | Ok h =>
      ({| html := h; lastErr := lastErr st;
          tried := tried st ++ [model]; calls := called |},
       longEnough h)
  | Throw e =>
      ({| html := html st; lastErr := Some e;
          tried := tried st ++ [model]; calls := called |},
       false)
  end.

Definition fallback (fetch : OpenRouter.provider) (spec : value)
  (models : list jsstring) : loopState :=
  forOf (iteration fetch spec) models initialState.

Definition respond (st : loopState) : response :=
  if unusable (html st) then badGateway st else success (html st).

(** The object [safe] is built and not used; building it cannot throw. *)
Definition generate (fetch : OpenRouter.provider) (reqBody : value)
  : response * list providerCall :=
  let spec := getOpt (or_ reqBody (VObj [])) (lit "spec") in
  if negb (truthy (getOpt spec (lit "brief"))) then (badRequest, [])
  else
    let st := fallback fetch spec modelIds in
    (respond st, calls st).

End Render.

(** ** The hardened Gemini server *)

Module Hardened.

(** [clamp(s, n)]. *)
Definition clamp (s : jsstring) (n : N) : jsstring :=
  if n <? N.of_nat (List.length s) then slice0 n s else s.

Definition isTagChar (c : N) : bool :=
  isLowerAscii c || isUpperAscii c || isDigit c
  || (c =? underscore) || (c =? hyphen).

(** [/^\s*```(?:[a-zA-Z0-9_-]+)?\s*/i] replaced by the empty string. *)
Definition stripLeadingFence (s : jsstring) : jsstring :=
  match stripPrefix N.eqb fence (dropWhile isSpace s) with
  | Some r => dropWhile isSpace (dropWhile isTagChar r)
  | None => s
  end.

(** [/\s*```\s*$/i] replaced by the empty string: the match starts at the
    white space that precedes the last fence. *)
Definition stripTrailingFence (s : jsstring) : jsstring :=
  match stripSuffix fence (trimEnd s) with
  | Some r => trimEnd r
  | None => s
  end.

(** A match of [/`{3,}/g] at the head of the string. *)
Definition backtickRun (s : jsstring) : option nat :=
  let n := List.length (takeWhile (N.eqb bt) s) in
  if Nat.leb 3 n then Some n else None.

Definition stripFences (s : jsstring) : jsstring :=
  trim (removeAll backtickRun 0 (stripTrailingFence (stripLeadingFence s))).

(** [String.prototype.toLowerCase], unit by unit.  It is exact on the code
    units whose lower case contains an ASCII character: the letters A-Z,
    U+0130 and the Kelvin sign U+212A.  The other units are left as they
    are; JavaScript may map them to other units, which are neither ASCII
    nor white space, so [toKebab] deletes them in either case. *)
Definition lowerUnit (c : N) : jsstring :=
  if isUpperAscii c then [c + 32]
  else if c =? 304 then [105; 775]
  else if c =? 8490 then [107]
  else [c].

Definition toLowerCase (s : jsstring) : jsstring := flat_map lowerUnit s.

Definition isSlugChar (c : N) : bool :=
  isLowerAscii c || isDigit c || (c =? hyphen).

(** [/^-|-$/g] replaced by the empty string. *)
Definition stripEdgeHyphens (s : jsstring) : jsstring :=
  let s1 := match s with
            | c :: r => if c =? hyphen then r else s
            | [] => s
            end in
  match stripSuffix [hyphen] s1 with
  | Some r => r
  | None => s1
  end.

Definition toKebab (s : jsstring) : jsstring :=
  stripEdgeHyphens
    (replaceRuns (N.eqb hyphen) [hyphen] false
       (filter isSlugChar
          (replaceRuns (fun c => (c =? underscore) || isSpace c) [hyphen] false
             (toLowerCase (trim s))))).

(** [escapeHtmlAttr(v)] on a value: the default parameter and the method
    call [s.replace(...)]. *)
Definition escapeHtmlAttrOf (v : value) : result jsstring :=
  s <- asString (lit "s") (lit "replace")
         (match v with VUndefined => VStr [] | _ => v end) ;;
  Ok (escapeHtmlAttr s).

(** The template of the document, cut at the interpolated fragment. *)
Definition shellBefore (title description canonical jsonLd : jsstring) : jsstring :=
    lit "<!doctype html>" ++ [nl] ++
    lit "<html lang=" ++ [dq] ++ lit "en" ++ [dq] ++ lit ">" ++ [nl] ++
    lit "<head>" ++ [nl] ++
    lit "<meta charset=" ++ [dq] ++ lit "utf-8" ++ [dq] ++ lit "/>" ++ [nl] ++
    lit "<meta name=" ++ [dq] ++ lit "viewport" ++ [dq] ++ lit " content=" ++ [dq] ++ lit "width=device-width,initial-scale=1" ++ [dq] ++ lit "/>" ++ [nl] ++
    lit "<title>" ++ title ++ lit "</title>" ++ [nl] ++
    lit "<meta name=" ++ [dq] ++ lit "description" ++ [dq] ++ lit " content=" ++ [dq] ++ description ++ [dq] ++ lit "/>" ++ [nl] ++
    lit "<link rel=" ++ [dq] ++ lit "canonical" ++ [dq] ++ lit " href=" ++ [dq] ++ canonical ++ [dq] ++ lit "/>" ++ [nl] ++
    lit "<!-- Open Graph minimal -->" ++ [nl] ++
    lit "<meta property=" ++ [dq] ++ lit "og:title" ++ [dq] ++ lit " content=" ++ [dq] ++ title ++ [dq] ++ lit "/>" ++ [nl] ++
    lit "<meta property=" ++ [dq] ++ lit "og:description" ++ [dq] ++ lit " content=" ++ [dq] ++ description ++ [dq] ++ lit "/>" ++ [nl] ++
    lit "<meta property=" ++ [dq] ++ lit "og:type" ++ [dq] ++ lit " content=" ++ [dq] ++ lit "website" ++ [dq] ++ lit "/>" ++ [nl] ++
    lit "<script type=" ++ [dq] ++ lit "application/ld+json" ++ [dq] ++ lit ">" ++ [nl] ++
    jsonLd ++ [nl] ++
    lit "</script>" ++ [nl] ++
    lit "</head>" ++ [nl] ++
    lit "<body>".

Definition shellAfter : jsstring :=
    lit "</body>" ++ [nl] ++
    lit "</html>".

Definition shell (title description canonical jsonLd html : jsstring) : jsstring :=
  shellBefore title description canonical jsonLd ++ html ++ shellAfter.

(** The object of the JSON-LD block. *)
Definition organization (spec : value) : value :=
  VObj [ (lit "@context", VStr (lit "https://schema.org"));
         (lit "@type", VStr (lit "Organization"));
         (lit "name", or_ (getOpt spec (lit "projectName")) (VStr (lit "Website"))) ].

(** What the shell interpolates besides the fragment. *)
Record headFields := HeadFields {
  title : jsstring;
  description : jsstring;
  canonical : jsstring;
  jsonLd : jsstring
}.

Definition headOf (spec : value) : result headFields :=
  seo <- getProp spec (lit "seo") ;;
  t <- callToString
         (or_ (or_ (getOpt seo (lit "title")) (getOpt spec (lit "projectName")))
              (VStr (lit "Website"))) ;;
  title <- escapeHtmlAttrOf t ;;
  d <- callToString
         (or_ (or_ (getOpt seo (lit "description")) (getOpt spec (lit "brief")))
              (VStr [])) ;;
  description <- escapeHtmlAttrOf d ;;
  canonical <- escapeHtmlAttrOf (or_ (getOpt spec (lit "canonical")) (VStr [])) ;;
  json <- Json.stringify (organization spec) ;;
  Ok {| title := title;
        description := description;
        canonical := canonical;
        jsonLd := match json with Some text => text | None => lit "undefined" end |}.

Definition ensureFullDoc (html : jsstring) (spec : value) : result jsstring :=
  if hasHtml html then Ok html
  else
    head <- headOf (defaultObj spec) ;;
    Ok (shell (title head) (description head) (canonical head) (jsonLd head) html).

(** [c?.type?.includes("output_text")], as a condition. *)
Definition includesOutputText (ty : value) : result bool :=
  match ty with
  | VUndefined | VNull => Ok false
  | VStr s => Ok (existsSuffix (startsWith N.eqb (lit "output_text")) s)
  | VArr items =>
      Ok (existsb (fun x => match x with
                            | VStr t => jsstring_eqb t (lit "output_text")
                            | _ => false
                            end) items)
  | VObj props =>
      match lookupOwn (lit "includes") props with
      | Some (VFun _ call) => r <- call ;; Ok (truthy r)
      | _ => Throw (Exn TypeError (lit "c?.type?.includes is not a function"))
      end
  | _ => Throw (Exn TypeError (lit "c?.type?.includes is not a function"))
  end.

(** The loop over [item.content]: [Some v] when it returns [v]. *)
Fixpoint searchContent (cs : list value) : result (option value) :=
  match cs with
  | [] => Ok None
  | c :: r =>
      tagged <- includesOutputText (getOpt c (lit "type")) ;;
      if tagged && truthy (getOpt c (lit "text")) then Ok (Some (getOpt c (lit "text")))
      else if truthy (getOpt c (lit "text")) then Ok (Some (getOpt c (lit "text")))
      else searchContent r
  end.

(** The loop over the array [out]. *)
Fixpoint searchOutput (out : list value) : result (option value) :=
  match out with
  | [] => Ok None
  | item :: r =>
      found <-
        (let content := getOpt item (lit "content") in
         if truthy content then
           match content with
           | VArr cs => searchContent cs
           | VStr _ => Ok None
           | _ => Throw (Exn TypeError (lit "item.content is not iterable"))
           end
         else Ok None) ;;
      match found with
      | Some v => Ok (Some v)
      | None => if isString item then Ok (Some item) else searchOutput r
      end
  end.

Definition extractTextFromModelResult (result : value) : Js.result value :=
  if negb (truthy result) then Ok (VStr [])
  else
    let response := getOpt result (lit "response") in
    let viaMethod :=
      if truthy response then
        match getOpt response (lit "text") with
        | VFun _ (Ok r) => Some r
        | _ => None
        end
      else None in
    match viaMethod with
    | Some r => Ok r
    | None =>
        if isString (getOpt response (lit "output_text"))
        then Ok (getOpt response (lit "output_text"))
        else if isString (getOpt result (lit "output_text"))
        then Ok (getOpt result (lit "output_text"))
        else
          let out := coalesce (coalesce (getOpt response (lit "output"))
                                        (getOpt result (lit "output"))) VNull in
          let viaOutput :=
            match out with
            | VArr items =>
                match searchOutput items with
                | Ok found => found
                | Throw _ => None
                end
            | _ => None
            end in
          match viaOutput with
          | Some v => Ok v
          | None =>
              match result with
              | VStr _ => Ok result
              | _ =>
                  json <- Json.stringify result ;;
                  match json with
                  | Some text => Ok (VStr (slice0 10000 text))
                  | None =>
                      Throw (Exn TypeError
                               (lit "Cannot read properties of undefined (reading 'slice')"))
                  end
              end
          end
    end.

(** The provider, as the server sees it.  The client of the SDK offers
    [getGenerativeModel] and the model it returns offers [generateContent],
    so the loop calls [model.generateContent(prompt)]; the other branches
    of the two conditionals are for clients of another shape.  The promise
    of that call resolves, rejects, or is still pending when the timer of
    [withTimeout] fires. *)
Inductive sdkOutcome :=
| Resolves (result : value)
| Rejects (e : exn)
| Pending.

Definition provider := jsstring -> jsstring -> sdkOutcome.

Definition withTimeout (p : sdkOutcome) : result value :=
  match p with
  | Resolves r => Ok r
  | Rejects e => Throw e
  | Pending => Throw (Exn Error (lit "timeout"))
  end.

Record safeSpec := SafeSpec {
  projectName : jsstring;
  brief : jsstring;
  primaryColor : jsstring;
  style : jsstring;
  tone : jsstring;
  pages : list jsstring
}.

(** [spec.pages.map((p) => toKebab(String(p)))]. *)
Fixpoint kebabAll (items : list value) : result (list jsstring) :=
  match items with
  | [] => Ok []
  | p :: r =>
      s <- ToString p ;;
      rest <- kebabAll r ;;
      Ok (toKebab s :: rest)
  end.

Definition nonEmpty (s : jsstring) : bool :=
  match s with [] => false | _ => true end.

(** [if (!pages.includes("home")) pages.unshift("home")]. *)
Definition ensureHome (pages : list jsstring) : list jsstring :=
  if existsb (jsstring_eqb (lit "home")) pages then pages
  else lit "home" :: pages.

Definition normalize (spec : value) : result safeSpec :=
  projectName <- ToString (or_ (getOpt spec (lit "projectName")) (VStr (lit "Website"))) ;;
  brief <- ToString (or_ (getOpt spec (lit "brief")) (VStr [])) ;;
  primaryColor <- ToString (or_ (getOpt spec (lit "primaryColor")) (VStr (lit "#4f46e5"))) ;;
  style <- ToString (or_ (getOpt spec (lit "style")) (VStr (lit "modern, clean"))) ;;
  tone <- ToString (or_ (getOpt spec (lit "tone")) (VStr (lit "professional"))) ;;
  pages <- match getOpt spec (lit "pages") with
           | VArr items =>
               slugs <- kebabAll items ;;
               Ok (filter nonEmpty slugs)
           | _ => Ok []
           end ;;
  Ok {| projectName := slice0 200 projectName;
        brief := clamp brief 4000;
        primaryColor := slice0 20 primaryColor;
        style := slice0 200 style;
        tone := slice0 200 tone;
        pages := ensureHome pages |}.

Definition promptText (pages primaryColor style tone projectName brief : jsstring)
  : jsstring :=
    [nl] ++
    lit "You are a senior frontend engineer and UX designer. Generate a production-quality, fully responsive, single-file website with:" ++ [nl] ++
    lit "- Strictly ONE complete HTML document. No markdown. No code fences." ++ [nl] ++
    lit "- strictly write whole css in the HTML document, either use inline or internal css" ++ [nl] ++
    lit "- Vanilla JavaScript only inside a single <script> tag near the end of <body>. No external libraries." ++ [nl] ++
    lit "- don't give href=" ++ [dq] ++ lit "#" ++ [dq] ++ lit " in anchor tag, give class name instead" ++ [nl] ++
    [nl] ++
    lit "Requirements:" ++ [nl] ++
    lit "- Structure: semantic sections (<header>, <nav>, <main>, <section>, <footer>), one section per page: " ++ pages ++ lit ". Give each section an id matching its page name (kebab-case). Include a hero on Home." ++ [nl] ++
    lit "- Navigation: sticky top nav with links that smooth-scroll to sections; active link highlighting on scroll; mobile menu with hamburger toggle." ++ [nl] ++
    lit "- Styling: use CSS variables, set --primary to " ++ primaryColor ++ lit ". Apply a modern " ++ style ++ lit " look and a " ++ tone ++ lit " tone. Respect prefers-color-scheme; provide light/dark theme toggle." ++ [nl] ++
    lit "- Layout: fluid, mobile-first grid; accessible color contrast; focus outlines; skip-to-content link." ++ [nl] ++
    lit "- Interactivity: implement smooth-scroll, section active state, back-to-top button, simple tabs OR carousel component, and a basic contact form with client-side validation (no network calls). Persist theme choice in localStorage." ++ [nl] ++
    lit "- Assets: do not load external fonts/images. Use system font stack. For images, use placeholder SVGs or gradients inline." ++ [nl] ++
    lit "- Content: craft meaningful, concise copy aligned with the brief and project name." ++ [nl] ++
    lit "- SEO: include <title>, meta description, canonical (self), Open Graph, and JSON-LD Organization schema with " ++ projectName ++ lit "." ++ [nl] ++
    lit "- Performance: avoid heavy box-shadows; keep CSS minimal; avoid oversized DOM; no animations that harm motion-sensitive users; respect prefers-reduced-motion." ++ [nl] ++
    lit "- Accessibility: ARIA where needed; labels for inputs; reachable with keyboard; alt text for decorative placeholders can be empty." ++ [nl] ++
    [nl] ++
    lit "Input context:" ++ [nl] ++
    lit "- Project: " ++ projectName ++ [nl] ++
    lit "- Brief: " ++ brief ++ [nl] ++
    lit "- Pages: " ++ pages ++ [nl] ++
    [nl] ++
    lit "Output:" ++ [nl] ++
    lit "- Return ONLY the final HTML string for a complete document (<!doctype html> ... </html>), nothing else." ++ [nl].

Definition buildPrompt (safe : safeSpec) : jsstring :=
  let pagesText := intercalate (lit ", ") (pages safe) in
  trim (promptText pagesText (primaryColor safe) (style safe) (tone safe)
          (projectName safe) (brief safe)).

Definition modelIds : list jsstring :=
  [ lit "gemini-2.0-flash-exp"; lit "gemini-2.0-flash"; lit "gemini-1.5-flash" ].

(** The two ways the [try] block ends without throwing: the text is
    rejected as empty or too short, or it is finalized. *)
Inductive attemptOutcome :=
| TooShort
| Finalized (h : jsstring).

Definition tooShortError : exn := Exn Error (lit "Empty or too short model output").

Definition attempt (generateContent : provider) (spec : value)
  (prompt id : jsstring) : result attemptOutcome :=
  result <- withTimeout (generateContent id prompt) ;;
  text <- extractTextFromModelResult result ;;
  if negb (truthy text) then Ok TooShort
  else
    t <- asString (lit "text") (lit "trim") text ;;
    if Nat.ltb (List.length (trim t)) 20 then Ok TooShort
    else
      h <- ensureFullDoc (stripFences t) spec ;;
      Ok (Finalized h).

Definition iteration (generateContent : provider) (spec : value)
  (prompt : jsstring) (id : jsstring) (st : loopState) : loopState * bool :=
  let tried' := tried st ++ [id] in
  let called := calls st ++ [(id, prompt)] in
  match attempt generateContent spec prompt id with
  | Ok TooShort =>
      ({| html := html st; lastErr := Some tooShortError;
          tried := tried'; calls := called |}, false)
  | Ok (Finalized h) =>
      ({| html := h; lastErr := lastErr st;
          tried := tried'; calls := called |}, longEnough h)
  | Throw e =>
      ({| html := html st; lastErr := Some e;
          tried := tried'; calls := called |}, false)
  end.

Definition fallback (generateContent : provider) (spec : value)
  (prompt : jsstring) (models : list jsstring) : loopState :=
  forOf (iteration generateContent spec prompt) models initialState.

Definition respond (st : loopState) : response :=
  if unusable (html st) then badGateway st else success (html st).

Definition generate (generateContent : provider) (reqBody : value)
  : response * list providerCall :=
  let spec := getOpt (or_ reqBody (VObj [])) (lit "spec") in
  if negb (truthy (getOpt spec (lit "brief"))) then (badRequest, [])
  else
    match normalize spec with
    | Throw err => (internalError err, [])
    | Ok safe =>
        let st := fallback generateContent spec (buildPrompt safe) modelIds in
        (respond st, calls st)
    end.

End Hardened.

(** ** Notions of the specification *)

Module Reading.

(** A string in which the five special characters occur only as parts of
    their entities. *)
Inductive Escaped : jsstring -> Prop :=
| EscapedNil : Escaped []
| EscapedPlain c s :
    c <> amp -> c <> langle -> c <> rangle -> c <> dq -> c <> sq ->
    Escaped s -> Escaped (c :: s)
| EscapedAmp s : Escaped s -> Escaped (lit "&amp;" ++ s)
| EscapedLt s : Escaped s -> Escaped (lit "&lt;" ++ s)
| EscapedGt s : Escaped s -> Escaped (lit "&gt;" ++ s)
| EscapedQuot s : Escaped s -> Escaped (lit "&quot;" ++ s)
| EscapedApos s : Escaped s -> Escaped (lit "&#39;" ++ s).

(** The characters that end a tag or an attribute value. *)
Definition unsafeChar (c : N) : bool :=
  (c =? langle) || (c =? rangle) || (c =? dq) || (c =? sq).

(** The entity whose text after the ampersand starts the string: the
    character it stands for, and the length of that text. *)
Definition entityAt (r : jsstring) : option (N * nat) :=
  if startsWith N.eqb (lit "amp;") r then Some (amp, 4%nat)
  else if startsWith N.eqb (lit "lt;") r then Some (langle, 3%nat)
  else if startsWith N.eqb (lit "gt;") r then Some (rangle, 3%nat)
  else if startsWith N.eqb (lit "quot;") r then Some (dq, 5%nat)
  else if startsWith N.eqb (lit "#39;") r then Some (sq, 4%nat)
  else None.

(** The reader's side of the five entities; [skip] counts the characters
    of the current entity still to be passed over. *)
Fixpoint unescape (skip : nat) (s : jsstring) : jsstring :=
  match s with
  | [] => []
  | c :: r =>
      match skip with
      | S k => unescape k r
      | O =>
          if c =? amp then
            match entityAt r with
            | Some (ch, n) => ch :: unescape n r
            | None => c :: unescape O r
            end
          else c :: unescape O r
      end
  end.

(** A slug: lower-case letters, digits and hyphens only, and no two hyphens
    in a row. *)
Fixpoint noDoubleHyphen (s : jsstring) : bool :=
  match s with
  | a :: ((b :: _) as r) => negb ((a =? hyphen) && (b =? hyphen)) && noDoubleHyphen r
  | _ => true
  end.

Definition isSlug (s : jsstring) : bool :=
  forallb Hardened.isSlugChar s && noDoubleHyphen s.

(** The [spec] of a request body, and the [brief] the handler looks at. *)
Definition specOf (reqBody : value) : value :=
  getOpt (or_ reqBody (VObj [])) (lit "spec").

Definition briefOf (reqBody : value) : value :=
  getOpt (specOf reqBody) (lit "brief").

(** The last error among the errors of the attempts, in the order of the
    attempts. *)
Definition laterError (acc o : option exn) : option exn :=
  match o with Some e => Some e | None => acc end.

Definition lastThrown (errors : list (option exn)) : option exn :=
  fold_left laterError errors None.

(** The html that stands after an attempt: the document it finalized, or
    the html before it. *)
Definition laterHtml (acc : jsstring) (o : option jsstring) : jsstring :=
  match o with Some h => h | None => acc end.

(** An attempt that finalizes the document [newHtml m], if any, lets the
    loop go on unless that document is long enough. *)
Definition continues (newHtml : jsstring -> option jsstring) (m : jsstring) : bool :=
  match newHtml m with Some h => negb (longEnough h) | None => true end.

(** The outcome of an attempt of the OpenRouter server: the document it
    finalizes, the error it records, whether it is an error or a document
    shorter than 20 characters, and whether it ends the loop. *)
Definition documentOf (r : result jsstring) : option jsstring :=
  match r with Throw _ => None | Ok h => Some h end.

Definition errorOf (r : result jsstring) : option exn :=
  match r with Throw e => Some e | Ok _ => None end.

Definition failsOrShort (r : result jsstring) : bool :=
  match r with Throw _ => true | Ok h => Nat.ltb (List.length h) 20 end.

Definition endsLoop (r : result jsstring) : bool :=
  match r with Throw _ => false | Ok h => longEnough h end.

(** The same for an attempt of the hardened server, where a text that is
    empty or too short is recorded as an error. *)
Definition documentOfH (r : result Hardened.attemptOutcome) : option jsstring :=
  match r with
  | Ok (Hardened.Finalized h) => Some h
  | _ => None
  end.

Definition errorOfH (r : result Hardened.attemptOutcome) : option exn :=
  match r with
  | Throw e => Some e
  | Ok Hardened.TooShort => Some Hardened.tooShortError
  | Ok (Hardened.Finalized _) => None
  end.

Definition failsOrShortH (r : result Hardened.attemptOutcome) : bool :=
  match r with
  | Throw _ | Ok Hardened.TooShort => true
  | Ok (Hardened.Finalized h) => Nat.ltb (List.length h) 20
  end.

Definition endsLoopH (r : result Hardened.attemptOutcome) : bool :=
  match r with
  | Throw _ | Ok Hardened.TooShort => false
  | Ok (Hardened.Finalized h) => longEnough h
  end.

(** The calls of the provider for a list of models, in order. *)
Definition callsFor (prompt : jsstring) (models : list jsstring) : list providerCall :=
  map (fun m => (m, prompt)) models.

(** The body of the 502 answer. *)
Definition exhausted (details : value) (models : list jsstring) : response :=
  Response 502
    (VObj [ (lit "error", VStr (lit "Model did not return usable HTML"));
            (lit "details", details);
            (lit "tried", VArr (map VStr models)) ]).

(** Well-formed UTF-16: every surrogate is half of a pair. *)
Fixpoint wellFormed (s : jsstring) : bool :=
  match s with
  | [] => true
  | c :: r =>
      if Buffer.isHighSurrogate c then
        match r with
        | d :: r' => Buffer.isLowSurrogate d && wellFormed r'
        | [] => false
        end
      else negb (Buffer.isLowSurrogate c) && (c <? 65536) && wellFormed r
  end.

Definition b64index (c : N) : option N :=
  if (65 <=? c) && (c <=? 90) then Some (c - 65)
  else if (97 <=? c) && (c <=? 122) then Some (c - 97 + 26)
  else if (48 <=? c) && (c <=? 57) then Some (c - 48 + 52)
  else if c =? 43 then Some 62
  else if c =? 47 then Some 63
  else None.

(** Base64 decoding of a padded text. *)
Fixpoint base64Decode (s : jsstring) : option (list N) :=
  match s with
  | [] => Some []
  | c1 :: c2 :: c3 :: c4 :: r =>
      match b64index c1, b64index c2 with
      | Some i1, Some i2 =>
          if c3 =? Buffer.pad then
            if c4 =? Buffer.pad then
              match r with
              | [] => Some [i1 * 4 + i2 / 16]
              | _ => None
              end
            else None
          else
            match b64index c3 with
            | Some i3 =>
                if c4 =? Buffer.pad then
                  match r with
                  | [] => Some [i1 * 4 + i2 / 16; (i2 mod 16) * 16 + i3 / 4]
                  | _ => None
                  end
                else
                  match b64index c4, base64Decode r with
                  | Some i4, Some bs =>
                      Some (i1 * 4 + i2 / 16 :: (i2 mod 16) * 16 + i3 / 4
                            :: (i3 mod 4) * 64 + i4 :: bs)
                  | _, _ => None
                  end
            | None => None
            end
      | _, _ => None
      end
  | _ => None
  end.

Definition isContinuation (b : N) : bool := (128 <=? b) && (b <? 192).

(** The UTF-16 code units of a code point. *)
Definition utf16OfCodePoint (cp : N) : jsstring :=
  if cp <? 65536 then [cp]
  else [55296 + (cp - 65536) / 1024; 56320 + (cp - 65536) mod 1024].

(** UTF-8 decoding into a JavaScript string; [None] on bytes that are not
    UTF-8. *)
Fixpoint utf8Decode (bs : list N) : option jsstring :=
  match bs with
  | [] => Some []
  | b0 :: r0 =>
      if b0 <? 128 then option_map (cons b0) (utf8Decode r0)
      else if b0 <? 192 then None
      else if b0 <? 224 then
        match r0 with
        | b1 :: r1 =>
            if isContinuation b1
            then option_map (app (utf16OfCodePoint ((b0 - 192) * 64 + (b1 - 128))))
                   (utf8Decode r1)
            else None
        | _ => None
        end
      else if b0 <? 240 then
        match r0 with
        | b1 :: b2 :: r2 =>
            if isContinuation b1 && isContinuation b2
            then option_map
                   (app (utf16OfCodePoint
                           ((b0 - 224) * 4096 + (b1 - 128) * 64 + (b2 - 128))))
                   (utf8Decode r2)
            else None
        | _ => None
        end
      else if b0 <? 248 then
        match r0 with
        | b1 :: b2 :: b3 :: r3 =>
            if isContinuation b1 && isContinuation b2 && isContinuation b3
            then option_map
                   (app (utf16OfCodePoint
                           ((b0 - 240) * 262144 + (b1 - 128) * 4096
                            + (b2 - 128) * 64 + (b3 - 128))))
                   (utf8Decode r3)
            else None
        | _ => None
        end
      else None
  end.

(** What a reader of the data URI obtains: the payload after the prefix,
    decoded from base64 and then from UTF-8. *)
Definition decodeDataUri (url : jsstring) : option jsstring :=
  match stripPrefix N.eqb dataUriPrefix url with
  | Some payload =>
      match base64Decode payload with
      | Some bytes => utf8Decode bytes
      | None => None
      end
  | None => None
  end.

(** A property that is absent or holds a string. *)
Definition absentOrString (v : value) : bool :=
  match v with VUndefined | VStr _ => true | _ => false end.

(** A spec of the documented shape, as far as the finalizer reads it: an
    object whose [projectName], [brief] and [canonical] are absent or
    strings and whose [seo], if present, is an object with [title] and
    [description] absent or strings. *)
Definition plainSpec (spec : value) : bool :=
  match spec with
  | VObj _ =>
      absentOrString (getOpt spec (lit "projectName"))
      && absentOrString (getOpt spec (lit "brief"))
      && absentOrString (getOpt spec (lit "canonical"))
      && match getOpt spec (lit "seo") with
         | VUndefined => true
         | VObj _ as seo =>
             absentOrString (getOpt seo (lit "title"))
             && absentOrString (getOpt seo (lit "description"))
         | _ => false
         end
  | _ => false
  end.

(** [needle] occurs in [s] as a contiguous substring. *)
Definition contains (needle s : jsstring) : Prop :=
  exists pre post, s = pre ++ needle ++ post.

(** The text of a document, line by line. *)
Definition unlines (ls : list jsstring) : jsstring := intercalate [nl] ls.

(** The document [server/server.js] generates around a fragment, as the
    lines of its template, with [t] between the title tags. *)
Definition pageOfServer (t h : jsstring) : jsstring :=
  unlines
    [ lit "<!doctype html>";
      lit "<html lang=" ++ [dq] ++ lit "en" ++ [dq] ++ lit ">";
      lit "<head>";
      lit "<meta charset=" ++ [dq] ++ lit "utf-8" ++ [dq] ++ lit "/>";
      lit "<meta name=" ++ [dq] ++ lit "viewport" ++ [dq] ++ lit " content=" ++ [dq]
        ++ lit "width=device-width,initial-scale=1" ++ [dq] ++ lit "/>";
      lit "<title>" ++ t ++ lit "</title>";
      lit "</head>";
      lit "<body>";
      h;
      lit "</body>";
      lit "</html>" ].

(** The document the hardened server generates around a fragment: [t]
    stands between the title tags and in the [og:title] attribute, [d] in
    the two description attributes, [c] in the address of the canonical
    link and [j] in the JSON-LD script block. *)
Definition pageOfHardened (t d c j h : jsstring) : jsstring :=
  unlines
    [ lit "<!doctype html>";
      lit "<html lang=" ++ [dq] ++ lit "en" ++ [dq] ++ lit ">";
      lit "<head>";
      lit "<meta charset=" ++ [dq] ++ lit "utf-8" ++ [dq] ++ lit "/>";
      lit "<meta name=" ++ [dq] ++ lit "viewport" ++ [dq] ++ lit " content=" ++ [dq]
        ++ lit "width=device-width,initial-scale=1" ++ [dq] ++ lit "/>";
      lit "<title>" ++ t ++ lit "</title>";
      lit "<meta name=" ++ [dq] ++ lit "description" ++ [dq] ++ lit " content=" ++ [dq]
        ++ d ++ [dq] ++ lit "/>";
      lit "<link rel=" ++ [dq] ++ lit "canonical" ++ [dq] ++ lit " href=" ++ [dq]
        ++ c ++ [dq] ++ lit "/>";
      lit "<!-- Open Graph minimal -->";
      lit "<meta property=" ++ [dq] ++ lit "og:title" ++ [dq] ++ lit " content=" ++ [dq]
        ++ t ++ [dq] ++ lit "/>";
      lit "<meta property=" ++ [dq] ++ lit "og:description" ++ [dq] ++ lit " content="
        ++ [dq] ++ d ++ [dq] ++ lit "/>";
      lit "<meta property=" ++ [dq] ++ lit "og:type" ++ [dq] ++ lit " content=" ++ [dq]
        ++ lit "website" ++ [dq] ++ lit "/>";
      lit "<script type=" ++ [dq] ++ lit "application/ld+json" ++ [dq] ++ lit ">";
      j;
      lit "</script>";
      lit "</head>";
      lit "<body>" ++ h ++ lit "</body>";
      lit "</html>" ].

(** The text [JSON.stringify] gives for the organization of the JSON-LD
    block: the name is a JSON string, quoted by the rules of JSON. *)
Definition organizationJson (name : jsstring) : jsstring :=
  lit "{" ++ Json.quote (lit "@context") ++ lit ":"
  ++ Json.quote (lit "https://schema.org") ++ lit ","
  ++ Json.quote (lit "@type") ++ lit ":"
  ++ Json.quote (lit "Organization") ++ lit ","
  ++ Json.quote (lit "name") ++ lit ":"
  ++ Json.quote name ++ lit "}".

(** [needle] occurs in [s], as a decision. *)
Definition occurs (needle s : jsstring) : bool :=
  existsSuffix (startsWith N.eqb needle) s.

(** The text a field contributes: the field when it is a string that is
    not empty, the default otherwise. *)
Definition textOr (v : value) (default : jsstring) : jsstring :=
  match v with
  | VStr (c :: r) => c :: r
  | _ => default
  end.

End Reading.
Import Reading.

(** ** Sample requests and providers *)

Module Examples.

(** A request body with the given [brief] and nothing else. *)
Definition request (brief : value) : value :=
  VObj [(lit "spec", VObj [(lit "brief", brief)])].

(** A chat completion with one choice. *)
Definition completion (content : jsstring) : value :=
  VObj [(lit "choices",
         VArr [VObj [(lit "message", VObj [(lit "content", VStr content)])]])].

(** A response with status 200 and the given JSON body. *)
Definition answer (data : value) : OpenRouter.fetchOutcome :=
  OpenRouter.FetchResolves 200
    (match Json.stringify data with Ok (Some text) => text | _ => [] end)
    (Ok data).

(** A complete document of 75 characters. *)
Definition page : jsstring :=
  lit "<!doctype html><html><head><title>t</title></head><body>hello</body></html>".

(** A complete document of 56 code units with an unpaired surrogate. *)
Definition pageWithLoneSurrogate : jsstring :=
  lit "<html><head><title>t</title></head><body>" ++ [55296] ++ lit "</body></html>".

Definition fetchFailed : exn := Exn Error (lit "fetch failed").

(** Every call fails. *)
Definition down : OpenRouter.provider :=
  fun _ _ => OpenRouter.FetchRejects fetchFailed.

(** The first two models fail, the others answer with [page]. *)
Definition thirdAnswers : OpenRouter.provider :=
  fun model _ =>
    if jsstring_eqb model (lit "x-ai/grok-code-fast-1")
       || jsstring_eqb model (lit "openai/gpt-4o")
    then OpenRouter.FetchRejects fetchFailed
    else answer (completion page).

(** Every model answers with the given content. *)
Definition answers (content : jsstring) : OpenRouter.provider :=
  fun _ _ => answer (completion content).

(** The result object of the SDK: its [response.text()] gives the text. *)
Definition sdkResult (text : jsstring) : value :=
  VObj [(lit "response", VObj [(lit "text", VFun [] (Ok (VStr text)))])].

(** The first model is rejected, the second hangs, the third answers with
    [page]. *)
Definition sdkThirdAnswers : Hardened.provider :=
  fun id _ =>
    if jsstring_eqb id (lit "gemini-2.0-flash-exp") then Hardened.Rejects fetchFailed
    else if jsstring_eqb id (lit "gemini-2.0-flash") then Hardened.Pending
    else Hardened.Resolves (sdkResult page).

Definition sdkAnswers (text : jsstring) : Hardened.provider :=
  fun _ _ => Hardened.Resolves (sdkResult text).

Definition sdkDown : Hardened.provider :=
  fun _ _ => Hardened.Rejects fetchFailed.

End Examples.

(** ** Notions for the further properties *)

Module Observations.

(** [s] holds no three-backtick fence. *)
Definition noFence (s : jsstring) : bool :=
  negb (existsSuffix (startsWith N.eqb fence) s).

(** [s] does not start with white space. *)
Definition startsClean (s : jsstring) : bool :=
  match s with c :: _ => negb (isSpace c) | [] => true end.

(** [s] neither starts nor ends with white space. *)
Definition trimmed (s : jsstring) : bool := startsClean s && startsClean (rev s).

(** The number of backticks at the head of [s]. *)
Definition leadingBackticks (s : jsstring) : nat :=
  List.length (takeWhile (N.eqb bt) s).

(** One of the five characters [escapeHtmlAttr] replaces. *)
Definition isSpecial (c : N) : bool :=
  (c =? amp) || (c =? langle) || (c =? rangle) || (c =? dq) || (c =? sq).

(** [s] starts, or ends, with the code unit [c]. *)
Definition startsWithUnit (c : N) (s : jsstring) : bool :=
  match s with x :: _ => x =? c | [] => false end.

Definition endsWithUnit (c : N) (s : jsstring) : bool := startsWithUnit c (rev s).

(** The answer after the loop, as the four servers compute it. *)
Definition answerOf (st : loopState) : response :=
  if unusable (html st) then badGateway st else success (html st).

(** Sample providers of the first Gemini server: every call is rejected,
    or every call resolves with a result whose [response.text()] gives
    the text. *)
Definition geminiDown : Gemini.provider := fun _ _ => Throw Examples.fetchFailed.

Definition geminiAnswers (text : jsstring) : Gemini.provider :=
  fun _ _ => Ok (Examples.sdkResult text).

(** An object whose [toString] throws. *)
Definition hostile : value :=
  VObj [(lit "toString", VFun [] (Throw (Exn Error (lit "boom"))))].

(** A spec whose text fields are absent or strings and whose [pages], when
    it is an array, holds strings. *)
Definition stringSpec (spec : value) : bool :=
  absentOrString (getOpt spec (lit "projectName"))
  && absentOrString (getOpt spec (lit "brief"))
  && absentOrString (getOpt spec (lit "primaryColor"))
  && absentOrString (getOpt spec (lit "style"))
  && absentOrString (getOpt spec (lit "tone"))
  && match getOpt spec (lit "pages") with
     | VArr items => forallb isString items
     | _ => true
     end.

(** An attempt that puts no document into [html]. *)
Definition noDocument (o : option jsstring) : bool :=
  match o with None => true | Some _ => false end.

(** A provider whose first model answers with a document of 33
    characters, whose second model answers with one of 13 characters, and
    whose other models fail. *)
Definition shrinking : OpenRouter.provider :=
  fun model _ =>
    if jsstring_eqb model (lit "x-ai/grok-code-fast-1")
    then Examples.answer (Examples.completion (lit "<html><body>hello!!</body></html>"))
    else if jsstring_eqb model (lit "openai/gpt-4o")
    then Examples.answer (Examples.completion (lit "<html></html>"))
    else OpenRouter.FetchRejects Examples.fetchFailed.

(** A result of the SDK without a text. *)
Definition geminiSilent : Gemini.provider := fun _ _ => Ok (VObj []).

(** Every model of the SDK answers with a short document between fences:
    a text of 27 characters that holds a document of 13. *)
Definition sdkFencedShort : Hardened.provider :=
  Examples.sdkAnswers (fence ++ lit "html" ++ [nl] ++ lit "<html></html>" ++ [nl] ++ fence).

(** Code units of the ASCII range. *)
Definition isAscii (c : N) : bool := c <? 128.

(** A value without functions, as [JSON.parse] produces them. *)
Fixpoint dataOnly (v : value) : bool :=
  match v with
  | VFun _ _ => false
  | VArr items => forallb dataOnly items
  | VObj props => forallb (fun kv => dataOnly (snd kv)) props
  | _ => true
  end.

(** A code unit [JSON.stringify] writes as it is inside a string: not a
    control character, a double quote, a backslash or a surrogate. *)
Definition jsonPlain (c : N) : bool :=
  (32 <=? c) && negb (c =? dq) && negb (c =? Json.backslash)
  && negb (Buffer.isHighSurrogate c) && negb (Buffer.isLowSurrogate c).

(** The JSON text of the organization with the given name written as it
    is between the quotes. *)
Definition organizationText (name : jsstring) : jsstring :=
  lit "{"
  ++ intercalate (lit ",")
       [ Json.quote (lit "@context") ++ lit ":" ++ Json.quote (lit "https://schema.org");
         Json.quote (lit "@type") ++ lit ":" ++ Json.quote (lit "Organization");
         Json.quote (lit "name") ++ lit ":" ++ ([dq] ++ name ++ [dq]) ]
  ++ lit "}".

(** No model of the SDK answers in time. *)
Definition sdkHangs : Hardened.provider := fun _ _ => Hardened.Pending.

(** A pattern that matches at the head of a string still matches when
    the string is continued. *)
Definition prefixStable (m : jsstring -> bool) : Prop :=
  forall x y, m x = true -> m (x ++ y) = true.

End Observations.
Import Observations.

(** * Properties *)

(** ** Strings *)

Lemma dropWhile_app_stop (p : N -> bool) (a b : jsstring) :
  match b with c :: _ => p c = false | [] => False end ->
  dropWhile p (a ++ b) = dropWhile p a ++ b.
Proof.
  intros Hb. induction a as [|x a IH]; simpl.
  - destruct b as [|c b]; [contradiction|]. simpl. now rewrite Hb.
  - destruct (p x); [exact IH | reflexivity].
Qed.

Lemma dropWhile_idem (p : N -> bool) (s : jsstring) :
  dropWhile p (dropWhile p s) = dropWhile p s.
Proof.
  induction s as [|x s IH]; simpl; [reflexivity|].
  destruct (p x) eqn:E; [exact IH|]. simpl. now rewrite E.
Qed.

Lemma dropWhile_head (p : N -> bool) (c : N) (s : jsstring) :
  p c = false -> dropWhile p (c :: s) = c :: s.
Proof. intros H. simpl. now rewrite H. Qed.

Lemma trimEnd_snoc (s : jsstring) (c : N) :
  isSpace c = false -> trimEnd (s ++ [c]) = s ++ [c].
Proof.
  intros H. unfold trimEnd. rewrite rev_app_distr. simpl.
  rewrite H. simpl. now rewrite rev_involutive.
Qed.

Lemma trimEnd_idem (s : jsstring) : trimEnd (trimEnd s) = trimEnd s.
Proof.
  unfold trimEnd. rewrite rev_involutive, dropWhile_idem. reflexivity.
Qed.

Lemma stripPrefix_app (eq : N -> N -> bool) (p s : jsstring) :
  (forall c, eq c c = true) -> stripPrefix eq p (p ++ s) = Some s.
Proof.
  intros Hr. induction p as [|a p IH]; simpl; [reflexivity|]. now rewrite Hr.
Qed.

Lemma stripSuffix_app (p s : jsstring) : stripSuffix p (s ++ p) = Some s.
Proof.
  unfold stripSuffix. rewrite rev_app_distr.
  rewrite stripPrefix_app by apply N.eqb_refl. now rewrite rev_involutive.
Qed.

#[local] Arguments N.eqb : simpl never.
#[local] Arguments N.leb : simpl never.
#[local] Arguments N.ltb : simpl never.

Lemma eqb_bt_false (c : N) : c <> bt -> (bt =? c) = false.
Proof. intros H. apply N.eqb_neq. congruence. Qed.

Lemma dropWhile_stops (p : N -> bool) (s : jsstring) :
  match dropWhile p s with c :: _ => p c = false | [] => True end.
Proof.
  induction s as [|x s IH]; simpl; [exact I|].
  destruct (p x) eqn:E; [exact IH | exact E].
Qed.

Lemma trimEnd_cons (c : N) (r : jsstring) :
  isSpace c = false -> trimEnd (c :: r) = c :: trimEnd r.
Proof.
  intros H. unfold trimEnd. simpl.
  rewrite dropWhile_app_stop by (simpl; exact H).
  rewrite rev_app_distr. reflexivity.
Qed.

Lemma trimStart_trim (s : jsstring) : trimStart (trim s) = trim s.
Proof.
  unfold trim. pose proof (dropWhile_stops isSpace s) as H.
  unfold trimStart at 2 3. destruct (dropWhile isSpace s) as [|c r]; [reflexivity|].
  rewrite trimEnd_cons by exact H. unfold trimStart. now apply dropWhile_head.
Qed.

Lemma trim_idem (s : jsstring) : trim (trim s) = trim s.
Proof.
  unfold trim at 1. rewrite trimStart_trim. unfold trim. apply trimEnd_idem.
Qed.

Lemma trim_trimStart (s : jsstring) : trim (trimStart s) = trim s.
Proof. unfold trim, trimStart. now rewrite dropWhile_idem. Qed.

(** *** Strings without backticks *)

Lemma noBacktick_head (s : jsstring) :
  noBacktick s = true -> match s with c :: _ => c <> bt | [] => True end.
Proof.
  destruct s as [|c r]; simpl; [trivial|].
  intros H. apply andb_true_iff in H. destruct H as [H _].
  apply negb_true_iff in H. now apply N.eqb_neq.
Qed.

Lemma noBacktick_no_fence (s : jsstring) :
  noBacktick s = true -> stripPrefix N.eqb fence s = None.
Proof.
  intros H. apply noBacktick_head in H. destruct s as [|c r]; [reflexivity|].
  simpl. now rewrite eqb_bt_false by congruence.
Qed.

Lemma noBacktick_app (a b : jsstring) :
  noBacktick (a ++ b) = noBacktick a && noBacktick b.
Proof. apply forallb_app. Qed.

Lemma noBacktick_rev (s : jsstring) : noBacktick (rev s) = noBacktick s.
Proof.
  induction s as [|c r IH]; [reflexivity|]. simpl rev.
  rewrite noBacktick_app, IH. simpl. rewrite andb_true_r. apply andb_comm.
Qed.

Lemma noBacktick_dropWhile (p : N -> bool) (s : jsstring) :
  noBacktick s = true -> noBacktick (dropWhile p s) = true.
Proof.
  induction s as [|c r IH]; simpl; [trivial|]. intros H.
  destruct (p c); [|exact H]. apply IH.
  apply andb_true_iff in H. tauto.
Qed.

Lemma noBacktick_trimEnd (s : jsstring) :
  noBacktick s = true -> noBacktick (trimEnd s) = true.
Proof.
  intros H. unfold trimEnd. rewrite noBacktick_rev.
  apply noBacktick_dropWhile. now rewrite noBacktick_rev.
Qed.

Lemma noBacktick_trim (s : jsstring) :
  noBacktick s = true -> noBacktick (trim s) = true.
Proof.
  intros H. unfold trim, trimStart.
  now apply noBacktick_trimEnd, noBacktick_dropWhile.
Qed.

Lemma noBacktick_no_trailing_fence (s : jsstring) :
  noBacktick s = true -> stripSuffix fence s = None.
Proof.
  intros H. unfold stripSuffix. change (rev fence) with fence.
  rewrite noBacktick_no_fence; [reflexivity|]. now rewrite noBacktick_rev.
Qed.

(** A global removal whose matches start with a backtick leaves a string
    without backticks as it is. *)
Lemma removeAll_noBacktick (m : jsstring -> option nat) (s : jsstring) :
  (forall c r, c <> bt -> m (c :: r) = None) ->
  noBacktick s = true -> removeAll m 0 s = s.
Proof.
  intros Hm. induction s as [|c r IH]; [reflexivity|].
  intros H. pose proof (noBacktick_head _ H) as Hc. simpl in Hc.
  simpl. rewrite (Hm c r Hc). f_equal. apply IH.
  simpl in H. apply andb_true_iff in H. tauto.
Qed.

Lemma fenceOnly_starts_with_backtick (c : N) (r : jsstring) :
  c <> bt -> Gemini.fenceOnly (c :: r) = None.
Proof.
  intros H. unfold Gemini.fenceOnly, startsWith. simpl.
  now rewrite eqb_bt_false.
Qed.

Lemma fenceWithTag_starts_with_backtick (c : N) (r : jsstring) :
  c <> bt -> Gemini.fenceWithTag (c :: r) = None.
Proof.
  intros H. unfold Gemini.fenceWithTag. simpl.
  now rewrite eqb_bt_false.
Qed.

Lemma backtickRun_starts_with_backtick (c : N) (r : jsstring) :
  c <> bt -> Hardened.backtickRun (c :: r) = None.
Proof.
  intros H. unfold Hardened.backtickRun. simpl.
  now rewrite eqb_bt_false.
Qed.

(** *** Fence-free input *)

Lemma OpenRouter_stripFences_plain (s : jsstring) :
  noBacktick s = true -> OpenRouter.stripFences s = trim s.
Proof.
  intros H. apply noBacktick_trim in H.
  unfold OpenRouter.stripFences, OpenRouter.stripLeadingFence,
    OpenRouter.stripTrailingFence.
  rewrite (noBacktick_no_fence _ H), (noBacktick_no_trailing_fence _ H).
  apply trim_idem.
Qed.

Lemma Gemini_stripFences_plain (s : jsstring) :
  noBacktick s = true -> Gemini.stripFences s = trim s.
Proof.
  intros H. apply noBacktick_trim in H.
  unfold Gemini.stripFences, OpenRouter.stripLeadingFence,
    OpenRouter.stripTrailingFence.
  rewrite (noBacktick_no_fence _ H), (noBacktick_no_trailing_fence _ H).
  rewrite (removeAll_noBacktick _ _ fenceWithTag_starts_with_backtick H).
  rewrite (removeAll_noBacktick _ _ fenceOnly_starts_with_backtick H).
  apply trim_idem.
Qed.

Lemma Hardened_stripFences_plain (s : jsstring) :
  noBacktick s = true -> Hardened.stripFences s = trim s.
Proof.
  intros H.
  unfold Hardened.stripFences, Hardened.stripLeadingFence,
    Hardened.stripTrailingFence.
  rewrite (noBacktick_no_fence _ (noBacktick_dropWhile isSpace _ H)).
  rewrite (noBacktick_no_trailing_fence _ (noBacktick_trimEnd _ H)).
  now rewrite (removeAll_noBacktick _ _ backtickRun_starts_with_backtick H).
Qed.

(** *** Fenced input *)

Lemma isSpace_bt : isSpace bt = false.
Proof. reflexivity. Qed.

Lemma trim_fenced (x : jsstring) : trim (fence ++ x ++ fence) = fence ++ x ++ fence.
Proof.
  unfold trim, trimStart. change (fence ++ x ++ fence) with (bt :: [bt; bt] ++ x ++ fence).
  rewrite dropWhile_head by apply isSpace_bt.
  change (bt :: [bt; bt] ++ x ++ fence) with (fence ++ x ++ [bt; bt] ++ [bt]).
  rewrite !app_assoc. apply trimEnd_snoc, isSpace_bt.
Qed.

Lemma trimStart_before_fence (x : jsstring) :
  dropWhile isSpace (x ++ fence) = trimStart x ++ fence.
Proof. apply dropWhile_app_stop. exact isSpace_bt. Qed.

Lemma OpenRouter_fenced_tail (x : jsstring) :
  trim (OpenRouter.stripTrailingFence (dropWhile isSpace (x ++ fence))) = trim x.
Proof.
  rewrite trimStart_before_fence. unfold OpenRouter.stripTrailingFence.
  rewrite stripSuffix_app. apply trim_trimStart.
Qed.

Lemma OpenRouter_stripFences_html (body : jsstring) :
  OpenRouter.stripFences (fence ++ lit "html" ++ body ++ fence) = trim body.
Proof.
  unfold OpenRouter.stripFences.
  rewrite (app_assoc (lit "html")), trim_fenced.
  unfold OpenRouter.stripLeadingFence.
  rewrite stripPrefix_app by apply N.eqb_refl.
  rewrite <- app_assoc. rewrite stripPrefix_app by (intros c; apply N.eqb_refl).
  apply OpenRouter_fenced_tail.
Qed.

Lemma OpenRouter_stripFences_bare (body : jsstring) :
  startsWith eqCi (lit "html") body = false ->
  OpenRouter.stripFences (fence ++ body ++ fence) = trim body.
Proof.
  intros Hb. unfold OpenRouter.stripFences. rewrite trim_fenced.
  unfold OpenRouter.stripLeadingFence.
  rewrite stripPrefix_app by apply N.eqb_refl.
  assert (E : stripPrefix eqCi (lit "html") (body ++ fence) = None).
  { unfold startsWith in Hb.
    destruct body as [|c1 [|c2 [|c3 [|c4 r]]]]; simpl in *;
      repeat match goal with
             | |- context [eqCi ?a ?b] => destruct (eqCi a b) eqn:?
             end; try reflexivity; try discriminate. }
  rewrite E. apply OpenRouter_fenced_tail.
Qed.

Lemma dropWhile_app_all (p : N -> bool) (a b : jsstring) :
  forallb p a = true -> dropWhile p (a ++ b) = dropWhile p b.
Proof.
  induction a as [|x a IH]; simpl; [reflexivity|].
  destruct (p x); [exact IH | discriminate].
Qed.

Lemma trimEnd_before_fence (x : jsstring) : trimEnd (x ++ fence) = x ++ fence.
Proof.
  change fence with ([bt; bt] ++ [bt]). rewrite app_assoc.
  apply trimEnd_snoc, isSpace_bt.
Qed.

Lemma Gemini_stripFences_html (body : jsstring) :
  noBacktick body = true ->
  Gemini.stripFences (fence ++ lit "html" ++ body ++ fence) = trim body.
Proof.
  intros Hb. unfold Gemini.stripFences.
  rewrite (app_assoc (lit "html")), trim_fenced.
  unfold OpenRouter.stripLeadingFence.
  rewrite stripPrefix_app by apply N.eqb_refl.
  rewrite <- app_assoc. rewrite stripPrefix_app by (intros c; apply N.eqb_refl).
  rewrite trimStart_before_fence. unfold OpenRouter.stripTrailingFence.
  rewrite stripSuffix_app.
  assert (H : noBacktick (trimStart body) = true)
    by now apply noBacktick_dropWhile.
  rewrite (removeAll_noBacktick _ _ fenceWithTag_starts_with_backtick H).
  rewrite (removeAll_noBacktick _ _ fenceOnly_starts_with_backtick H).
  apply trim_trimStart.
Qed.

Lemma Hardened_stripFences_tagged (tag body : jsstring) :
  forallb Hardened.isTagChar tag = true ->
  noBacktick body = true ->
  match body with c :: _ => Hardened.isTagChar c = false | [] => True end ->
  Hardened.stripFences (fence ++ tag ++ body ++ fence) = trim body.
Proof.
  intros Ht Hb Hhead.
  unfold Hardened.stripFences, Hardened.stripLeadingFence.
  change (fence ++ tag ++ body ++ fence) with (bt :: [bt; bt] ++ tag ++ body ++ fence).
  rewrite dropWhile_head by apply isSpace_bt.
  change (bt :: [bt; bt] ++ tag ++ body ++ fence) with (fence ++ tag ++ body ++ fence).
  rewrite stripPrefix_app by apply N.eqb_refl.
  rewrite dropWhile_app_all by exact Ht.
  assert (E : dropWhile Hardened.isTagChar (body ++ fence) = body ++ fence).
  { destruct body as [|c r]; [reflexivity|]. simpl. now rewrite Hhead. }
  rewrite E, trimStart_before_fence.
  unfold Hardened.stripTrailingFence.
  rewrite trimEnd_before_fence, stripSuffix_app.
  change (trimEnd (trimStart body)) with (trim body).
  rewrite (removeAll_noBacktick _ _ backtickRun_starts_with_backtick
             (noBacktick_trim _ Hb)).
  apply trim_idem.
Qed.



(** ** The document finalizer *)

Lemma eqCi_refl (c : N) : eqCi c c = true.
Proof. apply N.eqb_refl. Qed.

Lemma existsSuffix_here (m : jsstring -> bool) (s : jsstring) :
  m s = true -> existsSuffix m s = true.
Proof. intros H. destruct s; simpl; now rewrite H. Qed.

(** A string that starts with the doctype is recognised as a document. *)
Lemma hasHtml_doctype (x : jsstring) : hasHtml (lit "<!doctype html>" ++ x) = true.
Proof.
  unfold hasHtml. apply orb_true_iff. right. apply existsSuffix_here.
  unfold doctypeHere, startsWith. now rewrite stripPrefix_app by apply eqCi_refl.
Qed.

(** The generated shells contain an [<html] tag the first expression of
    the detection matches. *)
Lemma OpenRouter_shell_has_tag (t h : jsstring) :
  existsSuffix htmlTagHere (OpenRouter.shell t h) = true.
Proof. reflexivity. Qed.

Lemma Gemini_shell_has_tag (t h : jsstring) :
  existsSuffix htmlTagHere (Gemini.shell t h) = true.
Proof. reflexivity. Qed.

Lemma Hardened_shell_has_tag (t d c j h : jsstring) :
  existsSuffix htmlTagHere (Hardened.shell t d c j h) = true.
Proof. reflexivity. Qed.

Lemma OpenRouter_hasHtml_shell (t h : jsstring) : hasHtml (OpenRouter.shell t h) = true.
Proof. unfold hasHtml. now rewrite OpenRouter_shell_has_tag. Qed.

Lemma Gemini_hasHtml_shell (t h : jsstring) : hasHtml (Gemini.shell t h) = true.
Proof. unfold hasHtml. now rewrite Gemini_shell_has_tag. Qed.

Lemma Hardened_hasHtml_shell (t d c j h : jsstring) :
  hasHtml (Hardened.shell t d c j h) = true.
Proof. unfold hasHtml. now rewrite Hardened_shell_has_tag. Qed.

Lemma OpenRouter_ensureFullDoc_idem (h : jsstring) (spec : value) :
  (d <- OpenRouter.ensureFullDoc h spec ;; OpenRouter.ensureFullDoc d spec)
  = OpenRouter.ensureFullDoc h spec.
Proof.
  unfold OpenRouter.ensureFullDoc at 1 3.
  destruct (hasHtml h) eqn:E; simpl.
  - unfold OpenRouter.ensureFullDoc. now rewrite E.
  - destruct (OpenRouter.titleOf (defaultObj spec)) as [t|e]; simpl; [|reflexivity].
    unfold OpenRouter.ensureFullDoc. now rewrite OpenRouter_hasHtml_shell.
Qed.

Lemma Gemini_ensureFullDoc_idem (h : jsstring) (spec : value) :
  (d <- Gemini.ensureFullDoc h spec ;; Gemini.ensureFullDoc d spec)
  = Gemini.ensureFullDoc h spec.
Proof.
  unfold Gemini.ensureFullDoc at 1 3.
  destruct (hasHtml h) eqn:E; simpl.
  - unfold Gemini.ensureFullDoc. now rewrite E.
  - destruct (Gemini.titleOf (defaultObj spec)) as [t|e]; simpl; [|reflexivity].
    unfold Gemini.ensureFullDoc. now rewrite Gemini_hasHtml_shell.
Qed.

Lemma Hardened_ensureFullDoc_idem (h : jsstring) (spec : value) :
  (d <- Hardened.ensureFullDoc h spec ;; Hardened.ensureFullDoc d spec)
  = Hardened.ensureFullDoc h spec.
Proof.
  unfold Hardened.ensureFullDoc at 1 3.
  destruct (hasHtml h) eqn:E; simpl.
  - unfold Hardened.ensureFullDoc. now rewrite E.
  - destruct (Hardened.headOf (defaultObj spec)) as [f|e]; simpl; [|reflexivity].
    unfold Hardened.ensureFullDoc. now rewrite Hardened_hasHtml_shell.
Qed.

(** C5: [ensureFullDoc] is idempotent in the three servers: applied to its
    own output with the same spec it returns that output; the wrapped
    output contains an [<html] tag that the detection matches. *)
Theorem C5_ensureFullDoc_idempotent :
  (forall h spec,
      (d <- OpenRouter.ensureFullDoc h spec ;; OpenRouter.ensureFullDoc d spec)
      = OpenRouter.ensureFullDoc h spec)
  /\ (forall h spec,
      (d <- Hardened.ensureFullDoc h spec ;; Hardened.ensureFullDoc d spec)
      = Hardened.ensureFullDoc h spec)
  /\ (forall h spec,
      (d <- Gemini.ensureFullDoc h spec ;; Gemini.ensureFullDoc d spec)
      = Gemini.ensureFullDoc h spec)
  /\ (forall t h, existsSuffix htmlTagHere (OpenRouter.shell t h) = true)
  /\ (forall t d c j h, existsSuffix htmlTagHere (Hardened.shell t d c j h) = true)
  /\ (forall t h, existsSuffix htmlTagHere (Gemini.shell t h) = true).
Proof.
  split; [exact OpenRouter_ensureFullDoc_idem|].
  split; [exact Hardened_ensureFullDoc_idem|].
  split; [exact Gemini_ensureFullDoc_idem|].
  split; [exact OpenRouter_shell_has_tag|].
  split; [exact Hardened_shell_has_tag | exact Gemini_shell_has_tag].
Qed.


(** ** Escaping *)

(** The cases of [escapeChar]: one of the five characters, or another. *)
Lemma escapeChar_cases (c : N) :
  (c = amp /\ escapeChar c = lit "&amp;")
  \/ (c = langle /\ escapeChar c = lit "&lt;")
  \/ (c = rangle /\ escapeChar c = lit "&gt;")
  \/ (c = dq /\ escapeChar c = lit "&quot;")
  \/ (c = sq /\ escapeChar c = lit "&#39;")
  \/ (c <> amp /\ c <> langle /\ c <> rangle /\ c <> dq /\ c <> sq
      /\ escapeChar c = [c]).
Proof.
  unfold escapeChar.
  destruct (N.eqb_spec c amp) as [->|H1]; [now left|].
  destruct (N.eqb_spec c langle) as [->|H2]; [now right; left|].
  destruct (N.eqb_spec c rangle) as [->|H3]; [now right; right; left|].
  destruct (N.eqb_spec c dq) as [->|H4]; [now right; right; right; left|].
  destruct (N.eqb_spec c sq) as [->|H5]; [now right; right; right; right; left|].
  now repeat right.
Qed.

Lemma escapeHtmlAttr_cons (c : N) (s : jsstring) :
  escapeHtmlAttr (c :: s) = escapeChar c ++ escapeHtmlAttr s.
Proof. reflexivity. Qed.

Lemma escapeHtmlAttr_app (a b : jsstring) :
  escapeHtmlAttr (a ++ b) = escapeHtmlAttr a ++ escapeHtmlAttr b.
Proof. apply flat_map_app. Qed.

Lemma escapeHtmlAttr_Escaped (s : jsstring) : Escaped (escapeHtmlAttr s).
Proof.
  induction s as [|c s IH]; [constructor|].
  rewrite escapeHtmlAttr_cons.
  destruct (escapeChar_cases c)
    as [[_ ->]|[[_ ->]|[[_ ->]|[[_ ->]|[[_ ->]|(?&?&?&?&?&->)]]]]].
  - now apply EscapedAmp.
  - now apply EscapedLt.
  - now apply EscapedGt.
  - now apply EscapedQuot.
  - now apply EscapedApos.
  - now apply EscapedPlain.
Qed.

(** In an escaped string the characters [<], [>], the double quote and
    the single quote do not occur. *)
Lemma Escaped_no_unsafe (s : jsstring) :
  Escaped s -> forallb (fun c => negb (unsafeChar c)) s = true.
Proof.
  intros H.
  induction H as [|c s H1 H2 H3 H4 H5 HE IH|s HE IH|s HE IH|s HE IH|s HE IH|s HE IH];
    try (rewrite forallb_app, IH; reflexivity).
  - reflexivity.
  - simpl. rewrite IH, andb_true_r. apply negb_true_iff.
    unfold unsafeChar.
    apply N.eqb_neq in H2, H3, H4, H5. now rewrite H2, H3, H4, H5.
Qed.

Lemma unescape_escapeHtmlAttr (s : jsstring) : unescape 0 (escapeHtmlAttr s) = s.
Proof.
  induction s as [|c s IH]; [reflexivity|].
  rewrite escapeHtmlAttr_cons.
  destruct (escapeChar_cases c)
    as [[-> ->]|[[-> ->]|[[-> ->]|[[-> ->]|[[-> ->]|(Ha&?&?&?&?&->)]]]]].
  - change (amp :: unescape 0 (escapeHtmlAttr s) = amp :: s). now rewrite IH.
  - change (langle :: unescape 0 (escapeHtmlAttr s) = langle :: s). now rewrite IH.
  - change (rangle :: unescape 0 (escapeHtmlAttr s) = rangle :: s). now rewrite IH.
  - change (dq :: unescape 0 (escapeHtmlAttr s) = dq :: s). now rewrite IH.
  - change (sq :: unescape 0 (escapeHtmlAttr s) = sq :: s). now rewrite IH.
  - simpl. apply N.eqb_neq in Ha. now rewrite Ha, IH.
Qed.

(** *** Wrapping *)

Lemma OpenRouter_ensureFullDoc_wraps (h : jsstring) (spec : value) :
  hasHtml h = false ->
  OpenRouter.ensureFullDoc h spec
  = (t <- OpenRouter.titleOf (defaultObj spec) ;;
     Ok (OpenRouter.shell (escapeHtmlAttr t) h)).
Proof. intros E. unfold OpenRouter.ensureFullDoc. now rewrite E. Qed.

Lemma Gemini_ensureFullDoc_wraps (h : jsstring) (spec : value) :
  hasHtml h = false ->
  Gemini.ensureFullDoc h spec
  = (t <- Gemini.titleOf (defaultObj spec) ;;
     Ok (Gemini.shell (escapeHtmlAttr t) h)).
Proof. intros E. unfold Gemini.ensureFullDoc. now rewrite E. Qed.

Lemma Hardened_ensureFullDoc_wraps (h : jsstring) (spec : value) :
  hasHtml h = false ->
  Hardened.ensureFullDoc h spec
  = (f <- Hardened.headOf (defaultObj spec) ;;
     Ok (Hardened.shell (Hardened.title f) (Hardened.description f)
           (Hardened.canonical f) (Hardened.jsonLd f) h)).
Proof. intros E. unfold Hardened.ensureFullDoc. now rewrite E. Qed.

Lemma escapeHtmlAttrOf_Ok (v : value) (out : jsstring) :
  Hardened.escapeHtmlAttrOf v = Ok out -> exists s, out = escapeHtmlAttr s.
Proof.
  unfold Hardened.escapeHtmlAttrOf.
  destruct (asString _ _ _) as [s|e]; simpl; [|discriminate].
  intros [= <-]. now exists s.
Qed.

(** Inversion of a successful [bind]: its first computation succeeded. *)
Ltac bind_inversion E :=
  match goal with
  | |- Js.bind ?m _ = Ok _ -> _ =>
      destruct m eqn:E; cbn [Js.bind]; [|discriminate]
  end.

(** The fields the hardened shell interpolates are escaped strings. *)
Lemma Hardened_headOf_escaped (spec : value) (f : Hardened.headFields) :
  Hardened.headOf spec = Ok f ->
  exists t d c,
    Hardened.title f = escapeHtmlAttr t
    /\ Hardened.description f = escapeHtmlAttr d
    /\ Hardened.canonical f = escapeHtmlAttr c.
Proof.
  unfold Hardened.headOf.
  bind_inversion Eseo. bind_inversion Et. bind_inversion Et'.
  bind_inversion Ed. bind_inversion Ed'. bind_inversion Ec. bind_inversion Ej.
  intros [= <-]. simpl.
  apply escapeHtmlAttrOf_Ok in Et', Ed', Ec.
  destruct Et' as [t0 ->], Ed' as [d0 ->], Ec as [c0 ->].
  now exists t0, d0, c0.
Qed.

(** *** Specs of the documented shape *)

Lemma isString_or_ (a b : value) :
  absentOrString a = true -> isString b = true -> isString (or_ a b) = true.
Proof.
  intros Ha Hb. unfold or_. destruct a; try discriminate; simpl; [exact Hb|].
  destruct s; [exact Hb | reflexivity].
Qed.

Lemma callToString_string (v : value) :
  isString v = true -> callToString v = Ok v.
Proof. destruct v; try discriminate. reflexivity. Qed.

Lemma asString_string (receiver method : jsstring) (v : value) :
  isString v = true -> exists s, v = VStr s /\ asString receiver method v = Ok s.
Proof. destruct v; try discriminate. intros _. now eexists. Qed.

Lemma escapeHtmlAttrOf_string (v : value) :
  isString v = true ->
  exists s, v = VStr s /\ Hardened.escapeHtmlAttrOf v = Ok (escapeHtmlAttr s).
Proof. destruct v; try discriminate. intros _. now eexists. Qed.

Lemma plainSpec_fields (spec : value) :
  plainSpec spec = true ->
  (exists props, spec = VObj props)
  /\ absentOrString (getOpt spec (lit "projectName")) = true
  /\ absentOrString (getOpt spec (lit "brief")) = true
  /\ absentOrString (getOpt spec (lit "canonical")) = true
  /\ absentOrString (getOpt (getOpt spec (lit "seo")) (lit "title")) = true
  /\ absentOrString (getOpt (getOpt spec (lit "seo")) (lit "description")) = true.
Proof.
  destruct spec as [| | | | | |props|]; try discriminate.
  unfold plainSpec. intros H.
  apply andb_true_iff in H. destruct H as [H Hseo].
  apply andb_true_iff in H. destruct H as [H Hc].
  apply andb_true_iff in H. destruct H as [Hp Hb].
  split; [now exists props|]. repeat (split; [assumption|]).
  destruct (getOpt (VObj props) (lit "seo")); try discriminate.
  - now split.
  - apply andb_true_iff in Hseo. exact Hseo.
Qed.

Lemma OpenRouter_titleOf_plain (spec : value) :
  plainSpec spec = true -> exists t, OpenRouter.titleOf spec = Ok t.
Proof.
  intros H. destruct (plainSpec_fields _ H) as [[props ->] [Hp _]].
  unfold OpenRouter.titleOf. cbn [getProp bind].
  assert (S : isString (or_ (getOpt (VObj props) (lit "projectName"))
                          (VStr (lit "Website"))) = true)
    by now apply isString_or_.
  rewrite (callToString_string _ S). cbn [bind].
  destruct (asString_string (lit "title") (lit "replace") _ S) as [t [_ ->]].
  now exists t.
Qed.

Lemma title_is_string (spec : value) :
  plainSpec spec = true ->
  isString (or_ (or_ (getOpt (getOpt spec (lit "seo")) (lit "title"))
                     (getOpt spec (lit "projectName")))
                (VStr (lit "Website"))) = true.
Proof.
  intros H. destruct (plainSpec_fields _ H) as [_ [Hp [_ [_ [Ht _]]]]].
  apply isString_or_; [|reflexivity].
  destruct (getOpt (getOpt spec (lit "seo")) (lit "title")) as [| | | |s| | |];
    try discriminate; unfold or_ at 1; simpl; [exact Hp|].
  destruct s; [exact Hp | reflexivity].
Qed.

Lemma Gemini_titleOf_plain (spec : value) :
  plainSpec spec = true -> exists t, Gemini.titleOf spec = Ok t.
Proof.
  intros H. pose proof (title_is_string _ H) as S.
  destruct (plainSpec_fields _ H) as [[props ->] _].
  unfold Gemini.titleOf. cbn [getProp bind].
  rewrite (callToString_string _ S). cbn [bind].
  destruct (asString_string (lit "title") (lit "replace") _ S) as [t [_ ->]].
  now exists t.
Qed.

(** The JSON-LD block of a spec whose project name is a string. *)
Lemma stringify_organization (spec : value) :
  absentOrString (getOpt spec (lit "projectName")) = true ->
  exists text, Json.stringify (Hardened.organization spec) = Ok (Some text).
Proof.
  intros Hp.
  assert (S : isString (or_ (getOpt spec (lit "projectName"))
                          (VStr (lit "Website"))) = true)
    by now apply isString_or_.
  unfold Hardened.organization.
  destruct (or_ _ _) as [| | | |name| | |]; try discriminate.
  eexists. reflexivity.
Qed.

Lemma Hardened_headOf_plain (spec : value) :
  plainSpec spec = true -> exists f, Hardened.headOf spec = Ok f.
Proof.
  intros H. pose proof (title_is_string _ H) as St.
  destruct (plainSpec_fields _ H) as [[props Hspec] [Hp [Hb [Hc [_ Hd]]]]].
  assert (Sd : isString (or_ (or_ (getOpt (getOpt spec (lit "seo")) (lit "description"))
                                  (getOpt spec (lit "brief")))
                             (VStr [])) = true).
  { apply isString_or_; [|reflexivity].
    destruct (getOpt (getOpt spec (lit "seo")) (lit "description")) as [| | | |s| | |];
      try discriminate; unfold or_ at 1; simpl; [exact Hb|].
    destruct s; [exact Hb | reflexivity]. }
  assert (Sc : isString (or_ (getOpt spec (lit "canonical")) (VStr [])) = true)
    by now apply isString_or_.
  destruct (stringify_organization _ Hp) as [text Hj].
  unfold Hardened.headOf.
  replace (getProp spec (lit "seo")) with (Ok (getOpt spec (lit "seo")))
    by now rewrite Hspec.
  cbn [bind].
  rewrite (callToString_string _ St). cbn [bind].
  destruct (escapeHtmlAttrOf_string _ St) as [t [_ ->]]. cbn [bind].
  rewrite (callToString_string _ Sd). cbn [bind].
  destruct (escapeHtmlAttrOf_string _ Sd) as [d [_ ->]]. cbn [bind].
  destruct (escapeHtmlAttrOf_string _ Sc) as [c [_ ->]]. cbn [bind].
  rewrite Hj. cbn [bind]. now eexists.
Qed.

Lemma defaultObj_plain (spec : value) :
  plainSpec spec = true -> defaultObj spec = spec.
Proof. destruct spec; try discriminate. reflexivity. Qed.

Lemma OpenRouter_title_string (h : jsstring) (props : list (jsstring * value))
  (name : jsstring) :
  hasHtml h = false ->
  lookupOwn (lit "projectName") props = Some (VStr name) ->
  name <> [] ->
  OpenRouter.ensureFullDoc h (VObj props)
  = Ok (OpenRouter.shell (escapeHtmlAttr name) h).
Proof.
  intros Hh Hp Hn. rewrite OpenRouter_ensureFullDoc_wraps by exact Hh.
  unfold OpenRouter.titleOf. cbn [defaultObj getProp bind getOpt].
  rewrite Hp. destruct name as [|c r]; [contradiction|]. reflexivity.
Qed.

Lemma Hardened_title_string (h : jsstring) (props : list (jsstring * value))
  (name : jsstring) :
  hasHtml h = false ->
  plainSpec (VObj props) = true ->
  lookupOwn (lit "seo") props = None ->
  lookupOwn (lit "projectName") props = Some (VStr name) ->
  name <> [] ->
  exists description canonical jsonLd,
    Hardened.ensureFullDoc h (VObj props)
    = Ok (Hardened.shell (escapeHtmlAttr name) description canonical jsonLd h).
Proof.
  intros Hh Hplain Hseo Hp Hn. rewrite Hardened_ensureFullDoc_wraps by exact Hh.
  destruct (Hardened_headOf_plain _ Hplain) as [f Hf].
  cbn [defaultObj]. rewrite Hf. cbn [bind].
  exists (Hardened.description f), (Hardened.canonical f), (Hardened.jsonLd f).
  do 2 f_equal.
  revert Hf. unfold Hardened.headOf. cbn [getProp bind getOpt].
  rewrite Hseo, Hp. destruct name as [|c r]; [contradiction|].
  cbn [getOpt or_ truthy callToString ToString bind Hardened.escapeHtmlAttrOf asString].
  bind_inversion E1. bind_inversion E2. bind_inversion E3. bind_inversion E4.
  now intros [= <-].
Qed.

(** The JSON-LD block of the hardened shell carries the project name as
    JSON text: its characters are escaped by the rules of JSON, not by
    entities. *)
Example Hardened_jsonLd_is_json :
  Hardened.headOf (VObj [(lit "projectName", VStr (lit "A<B&C"))])
  = Ok {| Hardened.title := lit "A&lt;B&amp;C";
          Hardened.description := [];
          Hardened.canonical := [];
          Hardened.jsonLd :=
            lit "{" ++ Json.quote (lit "@context") ++ lit ":"
            ++ Json.quote (lit "https://schema.org") ++ lit ","
            ++ Json.quote (lit "@type") ++ lit ":"
            ++ Json.quote (lit "Organization") ++ lit ","
            ++ Json.quote (lit "name") ++ lit ":"
            ++ Json.quote (lit "A<B&C") ++ lit "}" |}.
Proof. vm_compute. reflexivity. Qed.

Lemma OpenRouter_shell_lines (t h : jsstring) :
  OpenRouter.shell t h = pageOfServer t h.
Proof.
  unfold OpenRouter.shell, OpenRouter.shellBefore, OpenRouter.shellAfter,
    pageOfServer, unlines.
  cbn [intercalate]. repeat rewrite <- app_assoc. reflexivity.
Qed.

Lemma Hardened_shell_lines (t d c j h : jsstring) :
  Hardened.shell t d c j h = pageOfHardened t d c j h.
Proof.
  unfold Hardened.shell, Hardened.shellBefore, Hardened.shellAfter,
    pageOfHardened, unlines.
  cbn [intercalate]. repeat rewrite <- app_assoc. reflexivity.
Qed.

Lemma or_text (a : value) (d : jsstring) :
  absentOrString a = true -> or_ a (VStr d) = VStr (textOr a d).
Proof. destruct a as [| | | |[|c r]| | |]; try discriminate; reflexivity. Qed.

Lemma or_or_text (a b : value) (d : jsstring) :
  absentOrString a = true -> absentOrString b = true ->
  or_ (or_ a b) (VStr d) = VStr (textOr a (textOr b d)).
Proof.
  destruct a as [| | | |[|c r]| | |]; try discriminate; intros _ Hb;
    try reflexivity; exact (or_text b d Hb).
Qed.

Lemma OpenRouter_title_documented (h : jsstring) (props : list (jsstring * value)) :
  hasHtml h = false ->
  absentOrString (getOpt (VObj props) (lit "projectName")) = true ->
  OpenRouter.ensureFullDoc h (VObj props)
  = Ok (pageOfServer
          (escapeHtmlAttr (textOr (getOpt (VObj props) (lit "projectName"))
                             (lit "Website"))) h).
Proof.
  intros Hh Hp. rewrite OpenRouter_ensureFullDoc_wraps by exact Hh.
  unfold OpenRouter.titleOf. cbn [defaultObj getProp bind].
  rewrite (or_text _ (lit "Website") Hp).
  cbn [callToString ToString bind asString].
  now rewrite OpenRouter_shell_lines.
Qed.

Lemma stringify_organization_documented (spec : value) :
  absentOrString (getOpt spec (lit "projectName")) = true ->
  Json.stringify (Hardened.organization spec)
  = Ok (Some (organizationJson (textOr (getOpt spec (lit "projectName"))
                                  (lit "Website")))).
Proof.
  intros Hp. unfold Hardened.organization.
  rewrite (or_text _ (lit "Website") Hp). reflexivity.
Qed.

Lemma Hardened_head_documented (h : jsstring) (spec : value) :
  hasHtml h = false ->
  plainSpec spec = true ->
  Hardened.ensureFullDoc h spec
  = Ok (pageOfHardened
          (escapeHtmlAttr
             (textOr (getOpt (getOpt spec (lit "seo")) (lit "title"))
                (textOr (getOpt spec (lit "projectName")) (lit "Website"))))
          (escapeHtmlAttr
             (textOr (getOpt (getOpt spec (lit "seo")) (lit "description"))
                (textOr (getOpt spec (lit "brief")) [])))
          (escapeHtmlAttr (textOr (getOpt spec (lit "canonical")) []))
          (organizationJson (textOr (getOpt spec (lit "projectName")) (lit "Website")))
          h).
Proof.
  intros Hh H. destruct (plainSpec_fields _ H) as [[props Hspec] (Hp & Hb & Hc & Ht & Hd)].
  rewrite Hardened_ensureFullDoc_wraps by exact Hh.
  rewrite (defaultObj_plain _ H). unfold Hardened.headOf.
  replace (getProp spec (lit "seo")) with (Ok (getOpt spec (lit "seo")))
    by now rewrite Hspec.
  cbn [bind].
  rewrite (or_or_text _ _ (lit "Website") Ht Hp), (or_or_text _ _ [] Hd Hb),
    (or_text _ [] Hc), (stringify_organization_documented _ Hp).
  cbn [callToString ToString bind Hardened.escapeHtmlAttrOf asString
       Hardened.title Hardened.description Hardened.canonical Hardened.jsonLd].
  now rewrite Hardened_shell_lines.
Qed.

(** C8 (as amended): the escape replaces each of the five characters by
    its entity.  When [ensureFullDoc] wraps a fragment, the document is the
    template of the server with the escaped title between the title tags
    and, in the hardened server, with the escaped title, description and
    canonical address in their attributes.  For a spec of the documented
    shape the title is [spec.projectName] or [Website] in
    [server/server.js]; in the hardened server it is [spec.seo.title]
    before [spec.projectName], the description is [spec.seo.description]
    before [spec.brief], and the JSON-LD block holds [spec.projectName] as
    JSON text, which is not escaped for HTML. *)
Theorem C8_title_escaped :
  (forall s,
      Escaped (escapeHtmlAttr s)
      /\ forallb (fun c => negb (unsafeChar c)) (escapeHtmlAttr s) = true
      /\ unescape 0 (escapeHtmlAttr s) = s)
  /\ (forall h spec doc,
      hasHtml h = false ->
      OpenRouter.ensureFullDoc h spec = Ok doc ->
      exists title,
        OpenRouter.titleOf (defaultObj spec) = Ok title
        /\ doc = pageOfServer (escapeHtmlAttr title) h)
  /\ (forall h props,
      hasHtml h = false ->
      absentOrString (getOpt (VObj props) (lit "projectName")) = true ->
      OpenRouter.ensureFullDoc h (VObj props)
      = Ok (pageOfServer
              (escapeHtmlAttr (textOr (getOpt (VObj props) (lit "projectName"))
                                 (lit "Website"))) h))
  /\ (forall h spec doc,
      hasHtml h = false ->
      Hardened.ensureFullDoc h spec = Ok doc ->
      exists title description canonical jsonLd,
        doc = pageOfHardened (escapeHtmlAttr title) (escapeHtmlAttr description)
                (escapeHtmlAttr canonical) jsonLd h)
  /\ (forall h spec,
      hasHtml h = false ->
      plainSpec spec = true ->
      Hardened.ensureFullDoc h spec
      = Ok (pageOfHardened
              (escapeHtmlAttr
                 (textOr (getOpt (getOpt spec (lit "seo")) (lit "title"))
                    (textOr (getOpt spec (lit "projectName")) (lit "Website"))))
              (escapeHtmlAttr
                 (textOr (getOpt (getOpt spec (lit "seo")) (lit "description"))
                    (textOr (getOpt spec (lit "brief")) [])))
              (escapeHtmlAttr (textOr (getOpt spec (lit "canonical")) []))
              (organizationJson
                 (textOr (getOpt spec (lit "projectName")) (lit "Website")))
              h)).
Proof.
  split.
  { intros s. split; [apply escapeHtmlAttr_Escaped|].
    split; [apply Escaped_no_unsafe, escapeHtmlAttr_Escaped|].
    apply unescape_escapeHtmlAttr. }
  split.
  { intros h spec doc Hh. rewrite OpenRouter_ensureFullDoc_wraps by exact Hh.
    destruct (OpenRouter.titleOf (defaultObj spec)) as [t|e]; cbn [bind];
      [|discriminate].
    intros [= <-]. exists t. split; [reflexivity | apply OpenRouter_shell_lines]. }
  split; [exact OpenRouter_title_documented|].
  split.
  { intros h spec doc Hh. rewrite Hardened_ensureFullDoc_wraps by exact Hh.
    destruct (Hardened.headOf (defaultObj spec)) as [f|e] eqn:Ef; cbn [bind];
      [|discriminate].
    intros [= <-].
    destruct (Hardened_headOf_escaped _ _ Ef) as (t & d & c & -> & -> & ->).
    exists t, d, c, (Hardened.jsonLd f). apply Hardened_shell_lines. }
  exact Hardened_head_documented.
Qed.

(** A project name with [<], [&] and a double quote, in both servers, a
    spec without a project name, and a title given by [seo]. *)
Lemma C8_title_escaped_witness :
  OpenRouter.ensureFullDoc (lit "<p>x</p>")
    (VObj [(lit "projectName", VStr (lit "A<B&" ++ [dq] ++ lit "C"))])
  = Ok (pageOfServer (lit "A&lt;B&amp;&quot;C") (lit "<p>x</p>"))
  /\ OpenRouter.ensureFullDoc (lit "<p>x</p>") (VObj [(lit "brief", VStr (lit "A bakery"))])
     = Ok (pageOfServer (lit "Website") (lit "<p>x</p>"))
  /\ Hardened.ensureFullDoc (lit "<p>x</p>")
       (VObj [(lit "projectName", VStr (lit "A<B&" ++ [dq] ++ lit "C"));
              (lit "brief", VStr (lit "Bread & more"))])
     = Ok (pageOfHardened (lit "A&lt;B&amp;&quot;C") (lit "Bread &amp; more") []
             (organizationJson (lit "A<B&" ++ [dq] ++ lit "C")) (lit "<p>x</p>"))
  /\ Hardened.ensureFullDoc (lit "<p>x</p>")
       (VObj [(lit "projectName", VStr (lit "Shop"));
              (lit "brief", VStr (lit "A bakery"));
              (lit "canonical", VStr (lit "https://shop.example/?a=1&b=2"));
              (lit "seo", VObj [(lit "title", VStr (lit "<Shop>"));
                                (lit "description", VStr (lit "It's ours"))])])
     = Ok (pageOfHardened (lit "&lt;Shop&gt;") (lit "It&#39;s ours")
             (lit "https://shop.example/?a=1&amp;b=2")
             (organizationJson (lit "Shop")) (lit "<p>x</p>")).
Proof.
  destruct C8_title_escaped as (_ & _ & H3 & _ & H5).
  assert (Hh : hasHtml (lit "<p>x</p>") = false) by (vm_compute; reflexivity).
  split.
  { exact (H3 (lit "<p>x</p>")
             [(lit "projectName", VStr (lit "A<B&" ++ [dq] ++ lit "C"))]
             Hh eq_refl). }
  split.
  { exact (H3 (lit "<p>x</p>") [(lit "brief", VStr (lit "A bakery"))] Hh eq_refl). }
  split.
  { exact (H5 (lit "<p>x</p>")
             (VObj [(lit "projectName", VStr (lit "A<B&" ++ [dq] ++ lit "C"));
                    (lit "brief", VStr (lit "Bread & more"))])
             Hh eq_refl). }
  exact (H5 (lit "<p>x</p>")
           (VObj [(lit "projectName", VStr (lit "Shop"));
                  (lit "brief", VStr (lit "A bakery"));
                  (lit "canonical", VStr (lit "https://shop.example/?a=1&b=2"));
                  (lit "seo", VObj [(lit "title", VStr (lit "<Shop>"));
                                    (lit "description", VStr (lit "It's ours"))])])
           Hh eq_refl).
Defined.

(** C8 as stated fails in the hardened server: a title taken from the
    project name does not appear only in escaped form.  The JSON-LD block
    of the generated document holds the project name as JSON text, with
    its [<] and [&] as they are; the document of [server/server.js] for
    the same spec holds the name in escaped form only. *)
Lemma C8_counterexample :
  Hardened.ensureFullDoc (lit "<p>x</p>")
    (VObj [(lit "projectName", VStr (lit "A<B&C"));
           (lit "brief", VStr (lit "A bakery"))])
  = Ok (pageOfHardened (lit "A&lt;B&amp;C") (lit "A bakery") []
          (organizationJson (lit "A<B&C")) (lit "<p>x</p>"))
  /\ organizationJson (lit "A<B&C")
     = lit "{" ++ [dq] ++ lit "@context" ++ [dq] ++ lit ":" ++ [dq]
       ++ lit "https://schema.org" ++ [dq] ++ lit "," ++ [dq] ++ lit "@type" ++ [dq]
       ++ lit ":" ++ [dq] ++ lit "Organization" ++ [dq] ++ lit "," ++ [dq]
       ++ lit "name" ++ [dq] ++ lit ":" ++ [dq] ++ lit "A<B&C" ++ [dq] ++ lit "}"
  /\ occurs (lit "A<B&C")
       (pageOfHardened (lit "A&lt;B&amp;C") (lit "A bakery") []
          (organizationJson (lit "A<B&C")) (lit "<p>x</p>")) = true
  /\ OpenRouter.ensureFullDoc (lit "<p>x</p>")
       (VObj [(lit "projectName", VStr (lit "A<B&C"));
              (lit "brief", VStr (lit "A bakery"))])
     = Ok (pageOfServer (lit "A&lt;B&amp;C") (lit "<p>x</p>"))
  /\ occurs (lit "A<B&C") (pageOfServer (lit "A&lt;B&amp;C") (lit "<p>x</p>")) = false.
Proof. repeat split; vm_compute; reflexivity. Qed.

(** *** The fragment in the shell *)

Lemma OpenRouter_ensureFullDoc_verbatim (spec : value) :
  (exists e, forall h, hasHtml h = false -> OpenRouter.ensureFullDoc h spec = Throw e)
  \/ (exists pre post, forall h,
         hasHtml h = false -> OpenRouter.ensureFullDoc h spec = Ok (pre ++ h ++ post)).
Proof.
  destruct (OpenRouter.titleOf (defaultObj spec)) as [t|e] eqn:E.
  - right. exists (OpenRouter.shellBefore (escapeHtmlAttr t)), OpenRouter.shellAfter.
    intros h Hh. rewrite OpenRouter_ensureFullDoc_wraps by exact Hh. now rewrite E.
  - left. exists e. intros h Hh.
    rewrite OpenRouter_ensureFullDoc_wraps by exact Hh. now rewrite E.
Qed.

Lemma Gemini_ensureFullDoc_verbatim (spec : value) :
  (exists e, forall h, hasHtml h = false -> Gemini.ensureFullDoc h spec = Throw e)
  \/ (exists pre post, forall h,
         hasHtml h = false -> Gemini.ensureFullDoc h spec = Ok (pre ++ h ++ post)).
Proof.
  destruct (Gemini.titleOf (defaultObj spec)) as [t|e] eqn:E.
  - right. exists (Gemini.shellBefore (escapeHtmlAttr t)), Gemini.shellAfter.
    intros h Hh. rewrite Gemini_ensureFullDoc_wraps by exact Hh. now rewrite E.
  - left. exists e. intros h Hh.
    rewrite Gemini_ensureFullDoc_wraps by exact Hh. now rewrite E.
Qed.

Lemma Hardened_ensureFullDoc_verbatim (spec : value) :
  (exists e, forall h, hasHtml h = false -> Hardened.ensureFullDoc h spec = Throw e)
  \/ (exists pre post, forall h,
         hasHtml h = false -> Hardened.ensureFullDoc h spec = Ok (pre ++ h ++ post)).
Proof.
  destruct (Hardened.headOf (defaultObj spec)) as [f|e] eqn:E.
  - right.
    exists (Hardened.shellBefore (Hardened.title f) (Hardened.description f)
              (Hardened.canonical f) (Hardened.jsonLd f)), Hardened.shellAfter.
    intros h Hh. rewrite Hardened_ensureFullDoc_wraps by exact Hh. now rewrite E.
  - left. exists e. intros h Hh.
    rewrite Hardened_ensureFullDoc_wraps by exact Hh. now rewrite E.
Qed.

(** From the uniform form to the single document. *)
Lemma verbatim_contains (f : jsstring -> result jsstring) :
  ((exists e, forall h, hasHtml h = false -> f h = Throw e)
   \/ (exists pre post, forall h, hasHtml h = false -> f h = Ok (pre ++ h ++ post))) ->
  forall h doc, hasHtml h = false -> f h = Ok doc -> contains h doc.
Proof.
  intros [[e H]|[pre [post H]]] h doc Hh Hdoc; rewrite (H h Hh) in Hdoc.
  - discriminate.
  - injection Hdoc as <-. now exists pre, post.
Qed.

Lemma plain_wraps (f : jsstring -> result jsstring) :
  ((exists e, forall h, hasHtml h = false -> f h = Throw e)
   \/ (exists pre post, forall h, hasHtml h = false -> f h = Ok (pre ++ h ++ post))) ->
  (exists doc, f [] = Ok doc) ->
  exists pre post, forall h, hasHtml h = false -> f h = Ok (pre ++ h ++ post).
Proof.
  intros [[e H]|H] [doc Hdoc]; [|exact H].
  rewrite (H [] eq_refl) in Hdoc. discriminate.
Qed.

(** C10: when [ensureFullDoc] wraps a fragment, the fragment stands in the
    document as it is, between a text before it and a text after it that
    depend on the spec only; for a spec of the documented shape the
    wrapping succeeds. *)
Theorem C10_fragment_verbatim :
  (forall h spec doc,
      hasHtml h = false ->
      (OpenRouter.ensureFullDoc h spec = Ok doc -> contains h doc)
      /\ (Hardened.ensureFullDoc h spec = Ok doc -> contains h doc)
      /\ (Gemini.ensureFullDoc h spec = Ok doc -> contains h doc))
  /\ (forall spec,
      (exists e, forall h,
          hasHtml h = false -> OpenRouter.ensureFullDoc h spec = Throw e)
      \/ (exists pre post, forall h,
          hasHtml h = false -> OpenRouter.ensureFullDoc h spec = Ok (pre ++ h ++ post)))
  /\ (forall spec,
      (exists e, forall h,
          hasHtml h = false -> Hardened.ensureFullDoc h spec = Throw e)
      \/ (exists pre post, forall h,
          hasHtml h = false -> Hardened.ensureFullDoc h spec = Ok (pre ++ h ++ post)))
  /\ (forall spec,
      (exists e, forall h,
          hasHtml h = false -> Gemini.ensureFullDoc h spec = Throw e)
      \/ (exists pre post, forall h,
          hasHtml h = false -> Gemini.ensureFullDoc h spec = Ok (pre ++ h ++ post)))
  /\ (forall spec,
      plainSpec spec = true ->
      (exists pre post, forall h,
          hasHtml h = false -> OpenRouter.ensureFullDoc h spec = Ok (pre ++ h ++ post))
      /\ (exists pre post, forall h,
          hasHtml h = false -> Hardened.ensureFullDoc h spec = Ok (pre ++ h ++ post))
      /\ (exists pre post, forall h,
          hasHtml h = false -> Gemini.ensureFullDoc h spec = Ok (pre ++ h ++ post))).
Proof.
  split.
  { intros h spec doc Hh. split; [|split]; intros Hdoc.
    - exact (verbatim_contains _ (OpenRouter_ensureFullDoc_verbatim spec) h doc Hh Hdoc).
    - exact (verbatim_contains _ (Hardened_ensureFullDoc_verbatim spec) h doc Hh Hdoc).
    - exact (verbatim_contains _ (Gemini_ensureFullDoc_verbatim spec) h doc Hh Hdoc). }
  split; [exact OpenRouter_ensureFullDoc_verbatim|].
  split; [exact Hardened_ensureFullDoc_verbatim|].
  split; [exact Gemini_ensureFullDoc_verbatim|].
  intros spec Hplain. split; [|split].
  - apply (plain_wraps _ (OpenRouter_ensureFullDoc_verbatim spec)).
    destruct (OpenRouter_titleOf_plain _ Hplain) as [t Ht].
    rewrite OpenRouter_ensureFullDoc_wraps by reflexivity.
    rewrite (defaultObj_plain _ Hplain), Ht. now eexists.
  - apply (plain_wraps _ (Hardened_ensureFullDoc_verbatim spec)).
    destruct (Hardened_headOf_plain _ Hplain) as [f Hf].
    rewrite Hardened_ensureFullDoc_wraps by reflexivity.
    rewrite (defaultObj_plain _ Hplain), Hf. now eexists.
  - apply (plain_wraps _ (Gemini_ensureFullDoc_verbatim spec)).
    destruct (Gemini_titleOf_plain _ Hplain) as [t Ht].
    rewrite Gemini_ensureFullDoc_wraps by reflexivity.
    rewrite (defaultObj_plain _ Hplain), Ht. now eexists.
Qed.

(** A fragment with markup of its own, wrapped by the three servers. *)
Lemma C10_fragment_verbatim_witness :
  contains (lit "<p>a & b</p>")
    (OpenRouter.shell (lit "Shop") (lit "<p>a & b</p>"))
  /\ contains (lit "<p>a & b</p>")
       (Gemini.shell (lit "Shop") (lit "<p>a & b</p>"))
  /\ (exists pre post, forall h,
        hasHtml h = false ->
        Hardened.ensureFullDoc h
          (VObj [(lit "projectName", VStr (lit "Shop")); (lit "brief", VStr (lit "x"))])
        = Ok (pre ++ h ++ post)).
Proof.
  destruct C10_fragment_verbatim as [H1 [_ [_ [_ H5]]]].
  assert (Hh : hasHtml (lit "<p>a & b</p>") = false) by (vm_compute; reflexivity).
  split.
  { apply (proj1 (H1 (lit "<p>a & b</p>")
                    (VObj [(lit "projectName", VStr (lit "Shop"));
                           (lit "brief", VStr (lit "x"))])
                    (OpenRouter.shell (lit "Shop") (lit "<p>a & b</p>")) Hh)).
    vm_compute; reflexivity. }
  split.
  { apply (proj2 (proj2 (H1 (lit "<p>a & b</p>")
                    (VObj [(lit "projectName", VStr (lit "Shop"));
                           (lit "brief", VStr (lit "x"))])
                    (Gemini.shell (lit "Shop") (lit "<p>a & b</p>")) Hh))).
    vm_compute; reflexivity. }
  apply (H5 (VObj [(lit "projectName", VStr (lit "Shop"));
                   (lit "brief", VStr (lit "x"))])).
  vm_compute; reflexivity.
Defined.


(** ** The fallback loop *)

Lemma longEnough_spec (h : jsstring) :
  longEnough h = true <-> (50 < List.length h)%nat.
Proof.
  unfold longEnough. destruct h as [|c r].
  - simpl. split; [discriminate | lia].
  - apply Nat.ltb_lt.
Qed.

Lemma unusable_short (h : jsstring) :
  Nat.ltb (List.length h) 20 = true -> unusable h = true.
Proof. unfold unusable. destruct h; [reflexivity | trivial]. Qed.

Lemma usable_long (h : jsstring) : longEnough h = true -> unusable h = false.
Proof.
  intros H. apply longEnough_spec in H. unfold unusable.
  destruct h as [|c r]; [simpl in H; lia|]. apply Nat.ltb_ge. lia.
Qed.

Section Loop.

(** An iteration described by what an attempt with a model contributes:
    the document it finalizes, if any, and the error it records, if any. *)
Variable body : jsstring -> loopState -> loopState * bool.
Variable prompt : jsstring.
Variable newHtml : jsstring -> option jsstring.
Variable newErr : jsstring -> option exn.

Hypothesis body_spec : forall m st,
  body m st
  = ({| html := laterHtml (html st) (newHtml m);
        lastErr := laterError (lastErr st) (newErr m);
        tried := tried st ++ [m];
        calls := calls st ++ [(m, prompt)] |},
     match newHtml m with Some h => longEnough h | None => false end).

Lemma forOf_continues (models : list jsstring) (st : loopState) :
  forallb (continues newHtml) models = true ->
  forOf body models st
  = {| html := fold_left laterHtml (map newHtml models) (html st);
       lastErr := fold_left laterError (map newErr models) (lastErr st);
       tried := tried st ++ models;
       calls := calls st ++ callsFor prompt models |}.
Proof.
  revert st. induction models as [|m rest IH]; intros st H.
  - simpl. rewrite !app_nil_r. now destruct st.
  - simpl in H. apply andb_true_iff in H. destruct H as [Hm Hrest].
    simpl forOf. rewrite body_spec.
    unfold continues in Hm.
    destruct (newHtml m) as [h|] eqn:E.
    + apply negb_true_iff in Hm. rewrite Hm, (IH _ Hrest). simpl.
      rewrite E. simpl. now rewrite <- !app_assoc.
    + rewrite (IH _ Hrest). simpl. rewrite E. simpl. now rewrite <- !app_assoc.
Qed.

Lemma forOf_breaks (before after : list jsstring) (m : jsstring) (h : jsstring)
  (st : loopState) :
  forallb (continues newHtml) before = true ->
  newHtml m = Some h ->
  longEnough h = true ->
  forOf body (before ++ m :: after) st
  = {| html := h;
       lastErr := laterError (fold_left laterError (map newErr before) (lastErr st))
                    (newErr m);
       tried := tried st ++ before ++ [m];
       calls := calls st ++ callsFor prompt (before ++ [m]) |}.
Proof.
  revert st. induction before as [|k rest IH]; intros st Hb Hm Hlong.
  - simpl. rewrite body_spec, Hm, Hlong. reflexivity.
  - simpl in Hb. apply andb_true_iff in Hb. destruct Hb as [Hk Hrest].
    simpl forOf. rewrite body_spec. unfold continues in Hk.
    destruct (newHtml k) as [h'|] eqn:E.
    + apply negb_true_iff in Hk. rewrite Hk, (IH _ Hrest Hm Hlong). simpl.
      now rewrite <- !app_assoc.
    + rewrite (IH _ Hrest Hm Hlong). simpl. now rewrite <- !app_assoc.
Qed.

(** Documents shorter than 20 characters leave the html unusable. *)
Lemma laterHtml_unusable (models : list jsstring) (h0 : jsstring) :
  unusable h0 = true ->
  forallb (fun m => match newHtml m with
                    | Some h => Nat.ltb (List.length h) 20
                    | None => true
                    end) models = true ->
  unusable (fold_left laterHtml (map newHtml models) h0) = true.
Proof.
  revert h0. induction models as [|m rest IH]; intros h0 H0 H; [exact H0|].
  simpl in H. apply andb_true_iff in H. destruct H as [Hm Hrest].
  simpl. apply IH; [|exact Hrest].
  destruct (newHtml m) as [h|]; simpl; [now apply unusable_short | exact H0].
Qed.

End Loop.

(** *** The loop of the OpenRouter server *)

Lemma OpenRouter_iteration_spec (fetch : OpenRouter.provider) (spec : value)
  (prompt m : jsstring) (st : loopState) :
  OpenRouter.iteration fetch spec prompt m st
  = ({| html := laterHtml (html st)
                  (documentOf (OpenRouter.attempt fetch spec prompt m));
        lastErr := laterError (lastErr st)
                     (errorOf (OpenRouter.attempt fetch spec prompt m));
        tried := tried st ++ [m];
        calls := calls st ++ [(m, prompt)] |},
     match documentOf (OpenRouter.attempt fetch spec prompt m) with
     | Some h => longEnough h
     | None => false
     end).
Proof.
  unfold OpenRouter.iteration.
  destruct (OpenRouter.attempt fetch spec prompt m); reflexivity.
Qed.

Lemma short_not_long (h : jsstring) :
  Nat.ltb (List.length h) 20 = true -> longEnough h = false.
Proof.
  intros H. apply Nat.ltb_lt in H. apply not_true_is_false. intros L.
  apply longEnough_spec in L. lia.
Qed.

Lemma OpenRouter_exhausted (fetch : OpenRouter.provider) (spec : value)
  (prompt : jsstring) (models : list jsstring) :
  forallb (fun m => failsOrShort (OpenRouter.attempt fetch spec prompt m)) models
  = true ->
  OpenRouter.respond (OpenRouter.fallback fetch spec prompt models)
  = exhausted
      (messageOf (lastThrown
         (map (fun m => errorOf (OpenRouter.attempt fetch spec prompt m)) models)))
      models
  /\ calls (OpenRouter.fallback fetch spec prompt models) = callsFor prompt models.
Proof.
  intros H. unfold OpenRouter.fallback.
  rewrite (forOf_continues _ prompt
             (fun m => documentOf (OpenRouter.attempt fetch spec prompt m))
             (fun m => errorOf (OpenRouter.attempt fetch spec prompt m))
             (OpenRouter_iteration_spec fetch spec prompt)).
  - split; [|reflexivity]. unfold OpenRouter.respond. cbn [html].
    rewrite laterHtml_unusable; [reflexivity | reflexivity |].
    rewrite forallb_forall in *. intros m Hm. specialize (H m Hm).
    destruct (OpenRouter.attempt fetch spec prompt m); [exact H | reflexivity].
  - rewrite forallb_forall in *. intros m Hm. specialize (H m Hm).
    unfold continues. destruct (OpenRouter.attempt fetch spec prompt m); simpl in *;
      [|reflexivity].
    now rewrite short_not_long.
Qed.

Lemma OpenRouter_first_success (fetch : OpenRouter.provider) (spec : value)
  (prompt : jsstring) (before after : list jsstring) (m h : jsstring) :
  forallb (fun k => negb (endsLoop (OpenRouter.attempt fetch spec prompt k))) before
  = true ->
  OpenRouter.attempt fetch spec prompt m = Ok h ->
  (50 < List.length h)%nat ->
  html (OpenRouter.fallback fetch spec prompt (before ++ m :: after)) = h
  /\ tried (OpenRouter.fallback fetch spec prompt (before ++ m :: after))
     = before ++ [m]
  /\ calls (OpenRouter.fallback fetch spec prompt (before ++ m :: after))
     = callsFor prompt (before ++ [m])
  /\ OpenRouter.respond (OpenRouter.fallback fetch spec prompt (before ++ m :: after))
     = success h.
Proof.
  intros Hb Hm Hlen. apply longEnough_spec in Hlen.
  unfold OpenRouter.fallback.
  rewrite (forOf_breaks _ prompt
             (fun m => documentOf (OpenRouter.attempt fetch spec prompt m))
             (fun m => errorOf (OpenRouter.attempt fetch spec prompt m))
             (OpenRouter_iteration_spec fetch spec prompt) before after m h).
  - cbn [html tried calls initialState app]. repeat split.
    unfold OpenRouter.respond. cbn [html]. now rewrite usable_long.
  - rewrite forallb_forall in *. intros k Hk. specialize (Hb k Hk).
    unfold continues. destruct (OpenRouter.attempt fetch spec prompt k); exact Hb.
  - now rewrite Hm.
  - exact Hlen.
Qed.

Lemma OpenRouter_generate_valid (fetch : OpenRouter.provider) (reqBody : value)
  (prompt : jsstring) :
  truthy (briefOf reqBody) = true ->
  OpenRouter.buildPrompt (OpenRouter.normalize (specOf reqBody)) = Ok prompt ->
  OpenRouter.generate fetch reqBody
  = (OpenRouter.respond
       (OpenRouter.fallback fetch (specOf reqBody) prompt OpenRouter.modelIds),
     calls (OpenRouter.fallback fetch (specOf reqBody) prompt OpenRouter.modelIds)).
Proof.
  intros Hb Hp. unfold OpenRouter.generate.
  change (getOpt (or_ reqBody (VObj [])) (lit "spec")) with (specOf reqBody).
  change (getOpt (specOf reqBody) (lit "brief")) with (briefOf reqBody).
  now rewrite Hb, Hp.
Qed.

(** *** The loop of the hardened server *)

Lemma Hardened_iteration_spec (sdk : Hardened.provider) (spec : value)
  (prompt m : jsstring) (st : loopState) :
  Hardened.iteration sdk spec prompt m st
  = ({| html := laterHtml (html st)
                  (documentOfH (Hardened.attempt sdk spec prompt m));
        lastErr := laterError (lastErr st)
                     (errorOfH (Hardened.attempt sdk spec prompt m));
        tried := tried st ++ [m];
        calls := calls st ++ [(m, prompt)] |},
     match documentOfH (Hardened.attempt sdk spec prompt m) with
     | Some h => longEnough h
     | None => false
     end).
Proof.
  unfold Hardened.iteration.
  destruct (Hardened.attempt sdk spec prompt m) as [[|h]|e]; reflexivity.
Qed.

Lemma Hardened_exhausted (sdk : Hardened.provider) (spec : value)
  (prompt : jsstring) (models : list jsstring) :
  forallb (fun m => failsOrShortH (Hardened.attempt sdk spec prompt m)) models
  = true ->
  Hardened.respond (Hardened.fallback sdk spec prompt models)
  = exhausted
      (messageOf (lastThrown
         (map (fun m => errorOfH (Hardened.attempt sdk spec prompt m)) models)))
      models
  /\ calls (Hardened.fallback sdk spec prompt models) = callsFor prompt models.
Proof.
  intros H. unfold Hardened.fallback.
  rewrite (forOf_continues _ prompt
             (fun m => documentOfH (Hardened.attempt sdk spec prompt m))
             (fun m => errorOfH (Hardened.attempt sdk spec prompt m))
             (Hardened_iteration_spec sdk spec prompt)).
  - split; [|reflexivity]. unfold Hardened.respond. cbn [html].
    rewrite laterHtml_unusable; [reflexivity | reflexivity |].
    rewrite forallb_forall in *. intros m Hm. specialize (H m Hm).
    destruct (Hardened.attempt sdk spec prompt m) as [[|h]|e];
      [reflexivity | exact H | reflexivity].
  - rewrite forallb_forall in *. intros m Hm. specialize (H m Hm).
    unfold continues.
    destruct (Hardened.attempt sdk spec prompt m) as [[|h]|e]; simpl in *;
      [reflexivity | | reflexivity].
    now rewrite short_not_long.
Qed.

Lemma Hardened_first_success (sdk : Hardened.provider) (spec : value)
  (prompt : jsstring) (before after : list jsstring) (m h : jsstring) :
  forallb (fun k => negb (endsLoopH (Hardened.attempt sdk spec prompt k))) before
  = true ->
  Hardened.attempt sdk spec prompt m = Ok (Hardened.Finalized h) ->
  (50 < List.length h)%nat ->
  html (Hardened.fallback sdk spec prompt (before ++ m :: after)) = h
  /\ tried (Hardened.fallback sdk spec prompt (before ++ m :: after))
     = before ++ [m]
  /\ calls (Hardened.fallback sdk spec prompt (before ++ m :: after))
     = callsFor prompt (before ++ [m])
  /\ Hardened.respond (Hardened.fallback sdk spec prompt (before ++ m :: after))
     = success h.
Proof.
  intros Hb Hm Hlen. apply longEnough_spec in Hlen.
  unfold Hardened.fallback.
  rewrite (forOf_breaks _ prompt
             (fun m => documentOfH (Hardened.attempt sdk spec prompt m))
             (fun m => errorOfH (Hardened.attempt sdk spec prompt m))
             (Hardened_iteration_spec sdk spec prompt) before after m h).
  - cbn [html tried calls initialState app]. repeat split.
    unfold Hardened.respond. cbn [html]. now rewrite usable_long.
  - rewrite forallb_forall in *. intros k Hk. specialize (Hb k Hk).
    unfold continues.
    destruct (Hardened.attempt sdk spec prompt k) as [[|h']|e]; exact Hb.
  - now rewrite Hm.
  - exact Hlen.
Qed.

Lemma Hardened_generate_valid (sdk : Hardened.provider) (reqBody : value)
  (safe : Hardened.safeSpec) :
  truthy (briefOf reqBody) = true ->
  Hardened.normalize (specOf reqBody) = Ok safe ->
  Hardened.generate sdk reqBody
  = (Hardened.respond
       (Hardened.fallback sdk (specOf reqBody) (Hardened.buildPrompt safe)
          Hardened.modelIds),
     calls (Hardened.fallback sdk (specOf reqBody) (Hardened.buildPrompt safe)
              Hardened.modelIds)).
Proof.
  intros Hb Hp. unfold Hardened.generate.
  change (getOpt (or_ reqBody (VObj [])) (lit "spec")) with (specOf reqBody).
  change (getOpt (specOf reqBody) (lit "brief")) with (briefOf reqBody).
  now rewrite Hb, Hp.
Qed.

(** *** The answers of the handler *)

Lemma nth_error_decompose (models : list jsstring) (i : nat) (m : jsstring) :
  nth_error models i = Some m ->
  models = firstn i models ++ m :: skipn (S i) models
  /\ firstn (S i) models = firstn i models ++ [m].
Proof.
  revert models. induction i as [|i IH]; intros [|x r] H; try discriminate.
  - injection H as ->. now split.
  - destruct (IH r H) as [H1 H2]. split.
    + change (firstn (S i) (x :: r) ++ m :: skipn (S (S i)) (x :: r))
        with (x :: (firstn i r ++ m :: skipn (S i) r)).
      now rewrite <- H1.
    + change (firstn (S (S i)) (x :: r)) with (x :: firstn (S i) r).
      now rewrite H2.
Qed.

(** C1: when the attempts before the one with the model at position [i]
    do not end the loop (in particular when each of them raises an error)
    and the attempt with that model gives a document of more than 50
    characters, the loop ends with that document and with the models up to
    that one as the list of those tried, and the handler answers with
    status 200 and a body whose [html] is that document (and whose
    [downloadUrl] is the data URI of it), after calling the models up to
    that one and no other. *)
Theorem C1_first_success :
  (forall fetch spec prompt models i m h,
      nth_error models i = Some m ->
      forallb (fun k => negb (endsLoop (OpenRouter.attempt fetch spec prompt k)))
        (firstn i models) = true ->
      OpenRouter.attempt fetch spec prompt m = Ok h ->
      (50 < List.length h)%nat ->
      html (OpenRouter.fallback fetch spec prompt models) = h
      /\ tried (OpenRouter.fallback fetch spec prompt models) = firstn (S i) models)
  /\ (forall fetch reqBody prompt i m h,
      truthy (briefOf reqBody) = true ->
      OpenRouter.buildPrompt (OpenRouter.normalize (specOf reqBody)) = Ok prompt ->
      nth_error OpenRouter.modelIds i = Some m ->
      forallb (fun k => negb (endsLoop
                 (OpenRouter.attempt fetch (specOf reqBody) prompt k)))
        (firstn i OpenRouter.modelIds) = true ->
      OpenRouter.attempt fetch (specOf reqBody) prompt m = Ok h ->
      (50 < List.length h)%nat ->
      OpenRouter.generate fetch reqBody
      = (Response 200
           (VObj [(lit "html", VStr h);
                  (lit "downloadUrl",
                   VStr (lit "data:text/html;base64,"
                         ++ Buffer.base64Encode (Buffer.utf8Encode h)))]),
         callsFor prompt (firstn (S i) OpenRouter.modelIds)))
  /\ (forall sdk spec prompt models i m h,
      nth_error models i = Some m ->
      forallb (fun k => negb (endsLoopH (Hardened.attempt sdk spec prompt k)))
        (firstn i models) = true ->
      Hardened.attempt sdk spec prompt m = Ok (Hardened.Finalized h) ->
      (50 < List.length h)%nat ->
      html (Hardened.fallback sdk spec prompt models) = h
      /\ tried (Hardened.fallback sdk spec prompt models) = firstn (S i) models)
  /\ (forall sdk reqBody safe i m h,
      truthy (briefOf reqBody) = true ->
      Hardened.normalize (specOf reqBody) = Ok safe ->
      nth_error Hardened.modelIds i = Some m ->
      forallb (fun k => negb (endsLoopH
                 (Hardened.attempt sdk (specOf reqBody) (Hardened.buildPrompt safe) k)))
        (firstn i Hardened.modelIds) = true ->
      Hardened.attempt sdk (specOf reqBody) (Hardened.buildPrompt safe) m
      = Ok (Hardened.Finalized h) ->
      (50 < List.length h)%nat ->
      Hardened.generate sdk reqBody
      = (Response 200
           (VObj [(lit "html", VStr h);
                  (lit "downloadUrl",
                   VStr (lit "data:text/html;base64,"
                         ++ Buffer.base64Encode (Buffer.utf8Encode h)))]),
         callsFor (Hardened.buildPrompt safe) (firstn (S i) Hardened.modelIds))).
Proof.
  split.
  { intros fetch spec prompt models i m h Hi Hb Hm Hlen.
    destruct (nth_error_decompose _ _ _ Hi) as [D1 D2].
    rewrite D2. rewrite D1 at 1 2.
    destruct (OpenRouter_first_success fetch spec prompt (firstn i models)
                (skipn (S i) models) m h Hb Hm Hlen) as [H1 [H2 _]]. now split. }
  split.
  { intros fetch reqBody prompt i m h Hbrief Hp Hi Hb Hm Hlen.
    destruct (nth_error_decompose _ _ _ Hi) as [D1 D2].
    rewrite (OpenRouter_generate_valid _ _ _ Hbrief Hp), D2. rewrite D1 at 1 2.
    destruct (OpenRouter_first_success fetch (specOf reqBody) prompt
                (firstn i OpenRouter.modelIds) (skipn (S i) OpenRouter.modelIds)
                m h Hb Hm Hlen) as [_ [_ [H3 H4]]].
    now rewrite H3, H4. }
  split.
  { intros sdk spec prompt models i m h Hi Hb Hm Hlen.
    destruct (nth_error_decompose _ _ _ Hi) as [D1 D2].
    rewrite D2. rewrite D1 at 1 2.
    destruct (Hardened_first_success sdk spec prompt (firstn i models)
                (skipn (S i) models) m h Hb Hm Hlen) as [H1 [H2 _]]. now split. }
  intros sdk reqBody safe i m h Hbrief Hp Hi Hb Hm Hlen.
  destruct (nth_error_decompose _ _ _ Hi) as [D1 D2].
  rewrite (Hardened_generate_valid _ _ _ Hbrief Hp), D2. rewrite D1 at 1 2.
  destruct (Hardened_first_success sdk (specOf reqBody) (Hardened.buildPrompt safe)
              (firstn i Hardened.modelIds) (skipn (S i) Hardened.modelIds)
              m h Hb Hm Hlen) as [_ [_ [H3 H4]]].
  now rewrite H3, H4.
Qed.

(** Two failures and then a success, in both servers: the third answer is
    returned and the three identifiers are those tried, in order. *)
Lemma C1_first_success_witness :
  (exists prompt,
      OpenRouter.buildPrompt
        (OpenRouter.normalize (specOf (Examples.request (VStr (lit "A bakery")))))
      = Ok prompt
      /\ tried (OpenRouter.fallback Examples.thirdAnswers
                  (specOf (Examples.request (VStr (lit "A bakery")))) prompt
                  OpenRouter.modelIds)
         = [lit "x-ai/grok-code-fast-1"; lit "openai/gpt-4o";
            lit "anthropic/claude-3.5-sonnet"]
      /\ OpenRouter.generate Examples.thirdAnswers
           (Examples.request (VStr (lit "A bakery")))
         = (Response 200
              (VObj [(lit "html", VStr Examples.page);
                     (lit "downloadUrl",
                      VStr (lit "data:text/html;base64,"
                            ++ Buffer.base64Encode (Buffer.utf8Encode Examples.page)))]),
            callsFor prompt
              [lit "x-ai/grok-code-fast-1"; lit "openai/gpt-4o";
               lit "anthropic/claude-3.5-sonnet"]))
  /\ (exists safe,
      Hardened.normalize (specOf (Examples.request (VStr (lit "A bakery")))) = Ok safe
      /\ tried (Hardened.fallback Examples.sdkThirdAnswers
                  (specOf (Examples.request (VStr (lit "A bakery"))))
                  (Hardened.buildPrompt safe) Hardened.modelIds)
         = [lit "gemini-2.0-flash-exp"; lit "gemini-2.0-flash"; lit "gemini-1.5-flash"]
      /\ Hardened.generate Examples.sdkThirdAnswers
           (Examples.request (VStr (lit "A bakery")))
         = (Response 200
              (VObj [(lit "html", VStr Examples.page);
                     (lit "downloadUrl",
                      VStr (lit "data:text/html;base64,"
                            ++ Buffer.base64Encode (Buffer.utf8Encode Examples.page)))]),
            callsFor (Hardened.buildPrompt safe)
              [lit "gemini-2.0-flash-exp"; lit "gemini-2.0-flash";
               lit "gemini-1.5-flash"])).
Proof.
  destruct C1_first_success as [H1 [H2 [H3 H4]]].
  split.
  - destruct (OpenRouter.buildPrompt
                (OpenRouter.normalize (specOf (Examples.request (VStr (lit "A bakery"))))))
      as [prompt|e] eqn:E; [|vm_compute in E; discriminate].
    exists prompt. split; [reflexivity|]. split.
    + apply (H1 Examples.thirdAnswers
               (specOf (Examples.request (VStr (lit "A bakery")))) prompt
               OpenRouter.modelIds 2%nat
               (lit "anthropic/claude-3.5-sonnet") Examples.page);
        [reflexivity | reflexivity | reflexivity | vm_compute; lia].
    + apply (H2 Examples.thirdAnswers (Examples.request (VStr (lit "A bakery")))
               prompt 2%nat (lit "anthropic/claude-3.5-sonnet") Examples.page);
        [reflexivity | exact E | reflexivity | reflexivity | reflexivity
        | vm_compute; lia].
  - destruct (Hardened.normalize (specOf (Examples.request (VStr (lit "A bakery")))))
      as [safe|e] eqn:E; [|vm_compute in E; discriminate].
    exists safe. split; [reflexivity|]. split.
    + apply (H3 Examples.sdkThirdAnswers
               (specOf (Examples.request (VStr (lit "A bakery"))))
               (Hardened.buildPrompt safe) Hardened.modelIds 2%nat
               (lit "gemini-1.5-flash") Examples.page);
        [reflexivity | reflexivity | reflexivity | vm_compute; lia].
    + apply (H4 Examples.sdkThirdAnswers (Examples.request (VStr (lit "A bakery")))
               safe 2%nat (lit "gemini-1.5-flash") Examples.page);
        [reflexivity | exact E | reflexivity | reflexivity | reflexivity
        | vm_compute; lia].
Defined.

(** C2: when every attempt either raises an error or gives a document
    shorter than 20 characters (or, in the hardened server, a text that is
    rejected as too short), the handler answers 502 with the fixed error,
    the candidate models in order as [tried], and the message of the last
    error as [details] ([undefined], which the JSON body omits, when there
    was none). *)
Theorem C2_exhaustion :
  (forall fetch reqBody prompt,
      truthy (briefOf reqBody) = true ->
      OpenRouter.buildPrompt (OpenRouter.normalize (specOf reqBody)) = Ok prompt ->
      forallb (fun m => failsOrShort
                 (OpenRouter.attempt fetch (specOf reqBody) prompt m))
        OpenRouter.modelIds = true ->
      OpenRouter.generate fetch reqBody
      = (exhausted
           (messageOf (lastThrown
              (map (fun m => errorOf
                      (OpenRouter.attempt fetch (specOf reqBody) prompt m))
                 OpenRouter.modelIds)))
           OpenRouter.modelIds,
         callsFor prompt OpenRouter.modelIds))
  /\ (forall sdk reqBody safe,
      truthy (briefOf reqBody) = true ->
      Hardened.normalize (specOf reqBody) = Ok safe ->
      forallb (fun m => failsOrShortH
                 (Hardened.attempt sdk (specOf reqBody) (Hardened.buildPrompt safe) m))
        Hardened.modelIds = true ->
      Hardened.generate sdk reqBody
      = (exhausted
           (messageOf (lastThrown
              (map (fun m => errorOfH
                      (Hardened.attempt sdk (specOf reqBody)
                         (Hardened.buildPrompt safe) m))
                 Hardened.modelIds)))
           Hardened.modelIds,
         callsFor (Hardened.buildPrompt safe) Hardened.modelIds))
  /\ (forall fetch spec prompt models,
      forallb (fun m => failsOrShort (OpenRouter.attempt fetch spec prompt m)) models
      = true ->
      OpenRouter.respond (OpenRouter.fallback fetch spec prompt models)
      = exhausted
          (messageOf (lastThrown
             (map (fun m => errorOf (OpenRouter.attempt fetch spec prompt m)) models)))
          models)
  /\ (forall sdk spec prompt models,
      forallb (fun m => failsOrShortH (Hardened.attempt sdk spec prompt m)) models
      = true ->
      Hardened.respond (Hardened.fallback sdk spec prompt models)
      = exhausted
          (messageOf (lastThrown
             (map (fun m => errorOfH (Hardened.attempt sdk spec prompt m)) models)))
          models).
Proof.
  split.
  { intros fetch reqBody prompt Hbrief Hp H.
    rewrite (OpenRouter_generate_valid _ _ _ Hbrief Hp).
    destruct (OpenRouter_exhausted _ _ _ _ H) as [H1 H2]. now rewrite H1, H2. }
  split.
  { intros sdk reqBody safe Hbrief Hp H.
    rewrite (Hardened_generate_valid _ _ _ Hbrief Hp).
    destruct (Hardened_exhausted _ _ _ _ H) as [H1 H2]. now rewrite H1, H2. }
  split.
  { intros fetch spec prompt models H. apply (OpenRouter_exhausted _ _ _ _ H). }
  intros sdk spec prompt models H. apply (Hardened_exhausted _ _ _ _ H).
Qed.

(** Every provider fails, or every provider answers with a document of
    six characters: 502 in both cases, with and without [details]. *)
Lemma C2_exhaustion_witness :
  (exists prompt,
      OpenRouter.generate Examples.down (Examples.request (VStr (lit "A bakery")))
      = (exhausted (VStr (lit "fetch failed")) OpenRouter.modelIds,
         callsFor prompt OpenRouter.modelIds))
  /\ (exists prompt,
      OpenRouter.generate (Examples.answers (lit "<html>"))
        (Examples.request (VStr (lit "A bakery")))
      = (exhausted VUndefined OpenRouter.modelIds,
         callsFor prompt OpenRouter.modelIds))
  /\ (exists prompt,
      Hardened.generate Examples.sdkDown (Examples.request (VStr (lit "A bakery")))
      = (exhausted (VStr (lit "fetch failed")) Hardened.modelIds,
         callsFor prompt Hardened.modelIds))
  /\ (exists prompt,
      Hardened.generate (Examples.sdkAnswers (lit "<html>"))
        (Examples.request (VStr (lit "A bakery")))
      = (exhausted (VStr (lit "Empty or too short model output")) Hardened.modelIds,
         callsFor prompt Hardened.modelIds)).
Proof.
  destruct C2_exhaustion as [H1 [H2 _]].
  assert (Hb : truthy (briefOf (Examples.request (VStr (lit "A bakery")))) = true)
    by reflexivity.
  destruct (OpenRouter.buildPrompt
              (OpenRouter.normalize (specOf (Examples.request (VStr (lit "A bakery"))))))
    as [prompt|e] eqn:E; [|vm_compute in E; discriminate].
  destruct (Hardened.normalize (specOf (Examples.request (VStr (lit "A bakery")))))
    as [safe|e] eqn:E'; [|vm_compute in E'; discriminate].
  split; [|split; [|split]].
  - exists prompt. exact (H1 Examples.down _ prompt Hb E eq_refl).
  - exists prompt. exact (H1 (Examples.answers (lit "<html>")) _ prompt Hb E eq_refl).
  - exists (Hardened.buildPrompt safe). exact (H2 Examples.sdkDown _ safe Hb E' eq_refl).
  - exists (Hardened.buildPrompt safe).
    exact (H2 (Examples.sdkAnswers (lit "<html>")) _ safe Hb E' eq_refl).
Defined.

(** *** Validation *)

Lemma status_respond_OpenRouter (st : loopState) :
  status (OpenRouter.respond st) <> 400.
Proof. unfold OpenRouter.respond. destruct (unusable (html st)); discriminate. Qed.

Lemma status_respond_Hardened (st : loopState) :
  status (Hardened.respond st) <> 400.
Proof. unfold Hardened.respond. destruct (unusable (html st)); discriminate. Qed.

Lemma OpenRouter_validation (fetch : OpenRouter.provider) (reqBody : value) :
  (truthy (briefOf reqBody) = false ->
   OpenRouter.generate fetch reqBody = (badRequest, []))
  /\ (status (fst (OpenRouter.generate fetch reqBody)) = 400
      <-> truthy (briefOf reqBody) = false).
Proof.
  unfold OpenRouter.generate.
  change (getOpt (or_ reqBody (VObj [])) (lit "spec")) with (specOf reqBody).
  change (getOpt (specOf reqBody) (lit "brief")) with (briefOf reqBody).
  destruct (truthy (briefOf reqBody)); simpl negb; cbv iota.
  - split; [discriminate|]. split; [|discriminate].
    destruct (OpenRouter.buildPrompt _); simpl fst.
    + intros H. now apply status_respond_OpenRouter in H.
    + discriminate.
  - split; [reflexivity|]. split; reflexivity.
Qed.

Lemma Hardened_validation (sdk : Hardened.provider) (reqBody : value) :
  (truthy (briefOf reqBody) = false ->
   Hardened.generate sdk reqBody = (badRequest, []))
  /\ (status (fst (Hardened.generate sdk reqBody)) = 400
      <-> truthy (briefOf reqBody) = false).
Proof.
  unfold Hardened.generate.
  change (getOpt (or_ reqBody (VObj [])) (lit "spec")) with (specOf reqBody).
  change (getOpt (specOf reqBody) (lit "brief")) with (briefOf reqBody).
  destruct (truthy (briefOf reqBody)); simpl negb; cbv iota.
  - split; [discriminate|]. split; [|discriminate].
    destruct (Hardened.normalize _); simpl fst.
    + intros H. now apply status_respond_Hardened in H.
    + discriminate.
  - split; [reflexivity|]. split; reflexivity.
Qed.

(** The values on which the validation fails. *)
Lemma falsy_cases (v : value) :
  truthy v = false
  <-> v = VUndefined \/ v = VNull \/ v = VBool false \/ v = VStr []
      \/ (exists n, v = VNum n /\ numberTruthy n = false).
Proof.
  split.
  - destruct v as [| |b|n|s| | |]; simpl; intros H; try discriminate; auto.
    + destruct b; [discriminate | auto].
    + right; right; right; right. now exists n.
    + destruct s; [auto | discriminate].
  - intros [->|[->|[->|[->|[n [-> H]]]]]]; auto.
Qed.

(** C3 (as amended): a request whose [spec?.brief] is falsy (absent,
    [null], the empty string, [false], zero or NaN) is answered 400 with
    the fixed body and no provider is called; these are the only requests
    answered 400. *)
Theorem C3_validation :
  (forall fetch reqBody,
      truthy (briefOf reqBody) = false ->
      OpenRouter.generate fetch reqBody = (badRequest, []))
  /\ (forall sdk reqBody,
      truthy (briefOf reqBody) = false ->
      Hardened.generate sdk reqBody = (badRequest, []))
  /\ (forall fetch reqBody,
      status (fst (OpenRouter.generate fetch reqBody)) = 400
      <-> truthy (briefOf reqBody) = false)
  /\ (forall sdk reqBody,
      status (fst (Hardened.generate sdk reqBody)) = 400
      <-> truthy (briefOf reqBody) = false)
  /\ (forall v,
      truthy v = false
      <-> v = VUndefined \/ v = VNull \/ v = VBool false \/ v = VStr []
          \/ (exists n, v = VNum n /\ numberTruthy n = false)).
Proof.
  split; [intros; now apply OpenRouter_validation|].
  split; [intros; now apply Hardened_validation|].
  split; [intros; apply OpenRouter_validation|].
  split; [intros; apply Hardened_validation | exact falsy_cases].
Qed.

(** Requests without a body, without a spec, without a brief and with an
    empty brief. *)
Lemma C3_validation_witness :
  OpenRouter.generate (Examples.answers Examples.page) VUndefined = (badRequest, [])
  /\ OpenRouter.generate (Examples.answers Examples.page) (VObj []) = (badRequest, [])
  /\ OpenRouter.generate (Examples.answers Examples.page)
       (VObj [(lit "spec", VObj [(lit "projectName", VStr (lit "Shop"))])])
     = (badRequest, [])
  /\ OpenRouter.generate (Examples.answers Examples.page) (Examples.request (VStr []))
     = (badRequest, [])
  /\ Hardened.generate (Examples.sdkAnswers Examples.page) (Examples.request VNull)
     = (badRequest, []).
Proof.
  destruct C3_validation as [H1 [H2 _]].
  split; [apply H1; reflexivity|].
  split; [apply H1; reflexivity|].
  split; [apply H1; reflexivity|].
  split; [apply H1; reflexivity | apply H2; reflexivity].
Defined.

(** C3 as stated fails: a brief that is not a string but is truthy (the
    number 42, [true], an array) passes the validation, and the providers
    are called. *)
Lemma C3_counterexample :
  isString (VNum (Finite false (lit "42"))) = false
  /\ status (fst (OpenRouter.generate Examples.down
                    (Examples.request (VNum (Finite false (lit "42")))))) = 502
  /\ List.length (snd (OpenRouter.generate Examples.down
                    (Examples.request (VNum (Finite false (lit "42")))))) = 4%nat
  /\ status (fst (Hardened.generate Examples.sdkDown
                    (Examples.request (VBool true)))) = 502
  /\ List.length (snd (Hardened.generate Examples.sdkDown
                    (Examples.request (VBool true)))) = 3%nat
  /\ status (fst (OpenRouter.generate (Examples.answers Examples.page)
                    (Examples.request (VArr [])))) = 200.
Proof. repeat split; vm_compute; reflexivity. Qed.

(** *** The adapter of the OpenRouter server *)

Lemma callOpenRouter_not_ok (fetch : OpenRouter.provider) (model prompt : jsstring)
  (status : N) (text : jsstring) (json : result value) :
  fetch model prompt = OpenRouter.FetchResolves status text json ->
  OpenRouter.ok status = false ->
  OpenRouter.callOpenRouter fetch model prompt
  = Throw (Exn Error (lit "OpenRouter error: " ++ text)).
Proof. intros H Hs. unfold OpenRouter.callOpenRouter. now rewrite H, Hs. Qed.

Lemma callOpenRouter_no_content (fetch : OpenRouter.provider) (model prompt : jsstring)
  (status : N) (text : jsstring) (data : value) :
  fetch model prompt = OpenRouter.FetchResolves status text (Ok data) ->
  OpenRouter.ok status = true ->
  truthy (getOpt (getOpt (getOpt0 (getOpt data (lit "choices"))) (lit "message"))
            (lit "content")) = false ->
  OpenRouter.callOpenRouter fetch model prompt = Ok (VStr []).
Proof.
  intros H Hs Hc. unfold OpenRouter.callOpenRouter. rewrite H, Hs.
  cbn [negb bind]. unfold or_. now rewrite Hc.
Qed.

(** In the hardened server an empty text is never finalized. *)
Lemma Hardened_empty_text_rejected (sdk : Hardened.provider) (spec : value)
  (prompt id : jsstring) (result text : value) :
  sdk id prompt = Hardened.Resolves result ->
  Hardened.extractTextFromModelResult result = Ok text ->
  truthy text = false ->
  Hardened.attempt sdk spec prompt id = Ok Hardened.TooShort.
Proof.
  intros H Ht Hf. unfold Hardened.attempt. rewrite H. cbn [Hardened.withTimeout bind].
  rewrite Ht. cbn [bind]. now rewrite Hf.
Qed.

(** *** The adapter of the hardened server *)

(** The accessor paths of [extractTextFromModelResult], in the order in
    which they are tried: the method [response.text()], the string
    [response.output_text], the string [output_text]; a result that is
    itself a string is returned, and an object that offers none of the
    paths is serialized. *)
Lemma extractTextFromModelResult_order :
  (forall result, truthy result = false ->
      Hardened.extractTextFromModelResult result = Ok (VStr []))
  /\ (forall result source r,
      truthy result = true ->
      truthy (getOpt result (lit "response")) = true ->
      getOpt (getOpt result (lit "response")) (lit "text") = VFun source (Ok r) ->
      Hardened.extractTextFromModelResult result = Ok r)
  /\ (forall result,
      truthy result = true ->
      isFunctionValue (getOpt (getOpt result (lit "response")) (lit "text")) = false ->
      isString (getOpt (getOpt result (lit "response")) (lit "output_text")) = true ->
      Hardened.extractTextFromModelResult result
      = Ok (getOpt (getOpt result (lit "response")) (lit "output_text")))
  /\ (forall result,
      truthy result = true ->
      isFunctionValue (getOpt (getOpt result (lit "response")) (lit "text")) = false ->
      isString (getOpt (getOpt result (lit "response")) (lit "output_text")) = false ->
      isString (getOpt result (lit "output_text")) = true ->
      Hardened.extractTextFromModelResult result
      = Ok (getOpt result (lit "output_text")))
  /\ (forall c s,
      Hardened.extractTextFromModelResult (VStr (c :: s)) = Ok (VStr (c :: s)))
  /\ (forall props,
      lookupOwn (lit "response") props = None ->
      lookupOwn (lit "output_text") props = None ->
      lookupOwn (lit "output") props = None ->
      Hardened.extractTextFromModelResult (VObj props)
      = (json <- Json.stringify (VObj props) ;;
         match json with
         | Some text => Ok (VStr (slice0 10000 text))
         | None =>
             Throw (Exn TypeError
                      (lit "Cannot read properties of undefined (reading 'slice')"))
         end)).
Proof.
  split.
  { intros result H. unfold Hardened.extractTextFromModelResult. now rewrite H. }
  split.
  { intros result source r H Hr Ht. unfold Hardened.extractTextFromModelResult.
    now rewrite H, Hr, Ht. }
  split.
  { intros result H Hf Hs. unfold Hardened.extractTextFromModelResult.
    rewrite H, Hs. cbn [negb].
    destruct (truthy (getOpt result (lit "response"))); [|reflexivity].
    destruct (getOpt (getOpt result (lit "response")) (lit "text"));
      try reflexivity; discriminate. }
  split.
  { intros result H Hf Hs Ho. unfold Hardened.extractTextFromModelResult.
    rewrite H, Hs, Ho. cbn [negb].
    destruct (truthy (getOpt result (lit "response"))); [|reflexivity].
    destruct (getOpt (getOpt result (lit "response")) (lit "text"));
      try reflexivity; discriminate. }
  split; [reflexivity|].
  intros props Hr Ho Hout. unfold Hardened.extractTextFromModelResult.
  cbn [truthy negb getOpt]. now rewrite Hr, Ho, Hout.
Qed.

(** C4, at the failing input: a provider that answers every call with
    status 200 and an empty content.  The adapter of the OpenRouter server
    returns the empty string instead of raising an error, the loop wraps
    it into the shell, which is longer than 50 characters, and the handler
    answers 200 with a document whose body is empty. *)
Theorem C4_empty_content_accepted :
  OpenRouter.callOpenRouter (Examples.answers []) (lit "x-ai/grok-code-fast-1") []
  = Ok (VStr [])
  /\ OpenRouter.attempt (Examples.answers [])
       (specOf (Examples.request (VStr (lit "A bakery")))) []
       (lit "x-ai/grok-code-fast-1")
     = Ok (OpenRouter.shell (lit "Website") [])
  /\ fst (OpenRouter.generate (Examples.answers [])
            (Examples.request (VStr (lit "A bakery"))))
     = success (OpenRouter.shell (lit "Website") [])
  /\ List.length (snd (OpenRouter.generate (Examples.answers [])
                         (Examples.request (VStr (lit "A bakery"))))) = 1%nat.
Proof. repeat split; vm_compute; reflexivity. Qed.


(** ** Page slugs *)

Lemma forallb_filter_self (p : N -> bool) (s : jsstring) :
  forallb p (filter p s) = true.
Proof.
  induction s as [|c r IH]; [reflexivity|]. simpl.
  destruct (p c) eqn:E; [simpl; now rewrite E | exact IH].
Qed.

(** Collapsing runs of hyphens keeps slug characters, and leaves no two
    hyphens in a row; after a hyphen the output does not start with one. *)
Lemma collapse_slug_chars (inRun : bool) (s : jsstring) :
  forallb Hardened.isSlugChar s = true ->
  forallb Hardened.isSlugChar (replaceRuns (N.eqb hyphen) [hyphen] inRun s) = true.
Proof.
  revert inRun. induction s as [|c r IH]; intros inRun H; [reflexivity|].
  simpl in H. apply andb_true_iff in H. destruct H as [Hc Hr].
  simpl. destruct (hyphen =? c).
  - rewrite forallb_app, (IH true Hr), andb_true_r. now destruct inRun.
  - simpl. now rewrite Hc, (IH false Hr).
Qed.

Lemma collapse_head (s : jsstring) :
  match replaceRuns (N.eqb hyphen) [hyphen] true s with
  | c :: _ => c <> hyphen
  | [] => True
  end.
Proof.
  induction s as [|c r IH]; [exact I|]. simpl.
  destruct (N.eqb_spec hyphen c) as [E|E]; [exact IH|]. simpl. congruence.
Qed.

Lemma noDoubleHyphen_step (a b : N) (r : jsstring) :
  noDoubleHyphen (a :: b :: r)
  = negb ((a =? hyphen) && (b =? hyphen)) && noDoubleHyphen (b :: r).
Proof. reflexivity. Qed.

Lemma noDoubleHyphen_cons (a : N) (s : jsstring) :
  noDoubleHyphen s = true ->
  match s with b :: _ => a <> hyphen \/ b <> hyphen | [] => True end ->
  noDoubleHyphen (a :: s) = true.
Proof.
  intros Hs Hab. destruct s as [|b r]; [reflexivity|].
  rewrite noDoubleHyphen_step, Hs, andb_true_r. apply negb_true_iff.
  apply andb_false_iff.
  destruct Hab as [H|H]; [left | right]; now apply N.eqb_neq.
Qed.

Lemma collapse_no_double (inRun : bool) (s : jsstring) :
  noDoubleHyphen (replaceRuns (N.eqb hyphen) [hyphen] inRun s) = true.
Proof.
  revert inRun. induction s as [|c r IH]; intros inRun; [reflexivity|].
  simpl. destruct (N.eqb_spec hyphen c) as [E|E].
  - destruct inRun; simpl app; [apply IH|].
    apply noDoubleHyphen_cons; [apply IH|].
    pose proof (collapse_head r) as Hh.
    destruct (replaceRuns (N.eqb hyphen) [hyphen] true r); [exact I | now right].
  - apply noDoubleHyphen_cons; [apply IH|].
    destruct (replaceRuns (N.eqb hyphen) [hyphen] false r); [exact I|].
    left. congruence.
Qed.

Lemma noDoubleHyphen_tail (a : N) (s : jsstring) :
  noDoubleHyphen (a :: s) = true -> noDoubleHyphen s = true.
Proof.
  destruct s as [|b r]; [reflexivity|]. rewrite noDoubleHyphen_step.
  intros H. apply andb_true_iff in H. tauto.
Qed.

Lemma noDoubleHyphen_removelast (s : jsstring) (c : N) :
  noDoubleHyphen (s ++ [c]) = true -> noDoubleHyphen s = true.
Proof.
  induction s as [|a r IH]; [reflexivity|]. intros H.
  destruct r as [|b r']; [reflexivity|].
  change ((a :: b :: r') ++ [c]) with (a :: b :: (r' ++ [c])) in H.
  rewrite noDoubleHyphen_step in *. apply andb_true_iff in H.
  destruct H as [H1 H2]. rewrite H1. simpl. apply IH. exact H2.
Qed.

Lemma stripSuffix_Some (p s r : jsstring) :
  stripSuffix p s = Some r -> s = r ++ p.
Proof.
  unfold stripSuffix.
  assert (G : forall a b t, stripPrefix N.eqb a b = Some t -> b = a ++ t).
  { induction a as [|x a IH]; intros b t; simpl.
    - now intros [= ->].
    - destruct b as [|y b]; [discriminate|].
      destruct (N.eqb_spec x y) as [->|]; [|discriminate].
      intros H. now rewrite (IH _ _ H). }
  destruct (stripPrefix N.eqb (rev p) (rev s)) as [t|] eqn:E; [|discriminate].
  intros [= <-]. apply G in E.
  rewrite <- (rev_involutive s), E, rev_app_distr, rev_involutive. reflexivity.
Qed.

Lemma stripEdgeHyphens_slug (s : jsstring) :
  isSlug s = true -> isSlug (Hardened.stripEdgeHyphens s) = true.
Proof.
  unfold isSlug, Hardened.stripEdgeHyphens. intros H.
  apply andb_true_iff in H. destruct H as [Hc Hd].
  set (s1 := match s with
             | [] => s
             | c :: r => if c =? hyphen then r else s
             end).
  assert (H1 : forallb Hardened.isSlugChar s1 = true /\ noDoubleHyphen s1 = true).
  { subst s1. destruct s as [|c r]; [now split|].
    destruct (c =? hyphen); [|now split].
    simpl in Hc. apply andb_true_iff in Hc. split; [tauto|].
    now apply noDoubleHyphen_tail in Hd. }
  destruct H1 as [Hc1 Hd1].
  destruct (stripSuffix [hyphen] s1) as [r|] eqn:E.
  - apply stripSuffix_Some in E. rewrite E in Hc1, Hd1.
    rewrite forallb_app in Hc1. apply andb_true_iff in Hc1.
    apply andb_true_iff. split; [tauto|].
    now apply noDoubleHyphen_removelast in Hd1.
  - now apply andb_true_iff.
Qed.

Lemma toKebab_slug (s : jsstring) : isSlug (Hardened.toKebab s) = true.
Proof.
  unfold Hardened.toKebab. apply stripEdgeHyphens_slug.
  unfold isSlug. apply andb_true_iff. split.
  - apply collapse_slug_chars, forallb_filter_self.
  - apply collapse_no_double.
Qed.

Lemma kebabAll_slugs (items : list value) (slugs : list jsstring) :
  Hardened.kebabAll items = Ok slugs -> forallb isSlug slugs = true.
Proof.
  revert slugs. induction items as [|p r IH]; intros slugs; simpl.
  - now intros [= <-].
  - destruct (ToString p) as [s|e]; cbn [bind]; [|discriminate].
    destruct (Hardened.kebabAll r) as [rest|e]; cbn [bind]; [|discriminate].
    intros [= <-]. simpl. now rewrite toKebab_slug, (IH rest eq_refl).
Qed.

Lemma kebabAll_strings (names : list jsstring) :
  Hardened.kebabAll (map VStr names) = Ok (map Hardened.toKebab names).
Proof.
  induction names as [|n r IH]; [reflexivity|]. simpl. now rewrite IH.
Qed.

Lemma forallb_filter (p q : jsstring -> bool) (l : list jsstring) :
  forallb p l = true -> forallb p (filter q l) = true.
Proof.
  induction l as [|x r IH]; [reflexivity|]. simpl. intros H.
  apply andb_true_iff in H. destruct H as [Hx Hr].
  destruct (q x); simpl; [now rewrite Hx, IH | now apply IH].
Qed.

Lemma forallb_filter_self_list (l : list jsstring) :
  forallb Hardened.nonEmpty (filter Hardened.nonEmpty l) = true.
Proof.
  induction l as [|x r IH]; [reflexivity|]. simpl.
  destruct (Hardened.nonEmpty x) eqn:E; [simpl; now rewrite E | exact IH].
Qed.

Lemma jsstring_eqb_eq (a b : jsstring) : jsstring_eqb a b = true <-> a = b.
Proof.
  revert b. induction a as [|x a IH]; intros [|y b]; simpl; split;
    try discriminate; try reflexivity.
  - intros H. apply andb_true_iff in H. destruct H as [H1 H2].
    apply N.eqb_eq in H1. apply IH in H2. now subst.
  - intros [= -> ->]. rewrite N.eqb_refl. now apply IH.
Qed.

Lemma ensureHome_spec (entries : list jsstring) :
  In (lit "home") (Hardened.ensureHome entries)
  /\ (existsb (jsstring_eqb (lit "home")) entries = false ->
      Hardened.ensureHome entries = lit "home" :: entries)
  /\ (existsb (jsstring_eqb (lit "home")) entries = true ->
      Hardened.ensureHome entries = entries).
Proof.
  unfold Hardened.ensureHome.
  destruct (existsb (jsstring_eqb (lit "home")) entries) eqn:E.
  - split; [|split; [discriminate | reflexivity]].
    apply existsb_exists in E. destruct E as [x [Hx Hx']].
    apply jsstring_eqb_eq in Hx'. now subst.
  - split; [now left | split; [reflexivity | discriminate]].
Qed.

(** The pages of a normalized spec, from the entries of the request. *)
Lemma Hardened_normalize_pages (spec : value) (safe : Hardened.safeSpec) :
  Hardened.normalize spec = Ok safe ->
  exists slugs,
    match getOpt spec (lit "pages") with
    | VArr items => Hardened.kebabAll items = Ok slugs
    | _ => slugs = []
    end
    /\ Hardened.pages safe = Hardened.ensureHome (filter Hardened.nonEmpty slugs).
Proof.
  unfold Hardened.normalize.
  destruct (ToString (or_ (getOpt spec (lit "projectName")) _)); cbn [bind];
    [|discriminate].
  destruct (ToString (or_ (getOpt spec (lit "brief")) _)); cbn [bind];
    [|discriminate].
  destruct (ToString (or_ (getOpt spec (lit "primaryColor")) _)); cbn [bind];
    [|discriminate].
  destruct (ToString (or_ (getOpt spec (lit "style")) _)); cbn [bind];
    [|discriminate].
  destruct (ToString (or_ (getOpt spec (lit "tone")) _)); cbn [bind];
    [|discriminate].
  destruct (getOpt spec (lit "pages")) as [| | | | |items| |]; cbn [bind];
    try (intros [= <-]; exists []; now split).
  destruct (Hardened.kebabAll items) as [slugs|e]; cbn [bind]; [|discriminate].
  intros [= <-]. exists slugs. now split.
Qed.

(** C7 (as amended): in the hardened server every page of the normalized
    spec is a slug, no page is empty and "home" is among the pages; it is
    put first when no entry normalizes to it, and stays where it is
    otherwise.  The pages of the example normalize as stated.  The
    OpenRouter server passes the entries on as they are. *)
Theorem C7_pages_normalized :
  (forall s, isSlug (Hardened.toKebab s) = true)
  /\ (forall spec safe,
      Hardened.normalize spec = Ok safe ->
      forallb isSlug (Hardened.pages safe) = true
      /\ forallb Hardened.nonEmpty (Hardened.pages safe) = true
      /\ In (lit "home") (Hardened.pages safe))
  /\ (forall spec safe items slugs,
      Hardened.normalize spec = Ok safe ->
      getOpt spec (lit "pages") = VArr items ->
      Hardened.kebabAll items = Ok slugs ->
      (existsb (jsstring_eqb (lit "home")) slugs = false ->
       Hardened.pages safe = lit "home" :: filter Hardened.nonEmpty slugs)
      /\ (existsb (jsstring_eqb (lit "home")) slugs = true ->
          Hardened.pages safe = filter Hardened.nonEmpty slugs))
  /\ (forall names, Hardened.kebabAll (map VStr names) = Ok (map Hardened.toKebab names))
  /\ (exists safe,
      Hardened.normalize
        (VObj [(lit "brief", VStr (lit "A bakery"));
               (lit "pages", VArr [VStr (lit "About Us"); VStr (lit "Contact")])])
      = Ok safe
      /\ Hardened.pages safe = [lit "home"; lit "about-us"; lit "contact"])
  /\ (forall spec items,
      getOpt spec (lit "pages") = VArr items ->
      OpenRouter.pages (OpenRouter.normalize spec) = items).
Proof.
  split; [exact toKebab_slug|].
  split.
  { intros spec safe H.
    destruct (Hardened_normalize_pages _ _ H) as [slugs [Hs ->]].
    assert (Hslugs : forallb isSlug slugs = true).
    { destruct (getOpt spec (lit "pages")); try (now subst).
      now apply kebabAll_slugs in Hs. }
    destruct (ensureHome_spec (filter Hardened.nonEmpty slugs)) as [Hin _].
    split; [|split; [|exact Hin]].
    - unfold Hardened.ensureHome. destruct (existsb _ _).
      + now apply forallb_filter.
      + simpl. now apply forallb_filter.
    - unfold Hardened.ensureHome. destruct (existsb _ _).
      + apply forallb_filter_self_list.
      + simpl. apply forallb_filter_self_list. }
  split.
  { intros spec safe items slugs H Hp Hk.
    destruct (Hardened_normalize_pages _ _ H) as [slugs' [Hs ->]].
    rewrite Hp, Hk in Hs. injection Hs as <-.
    destruct (ensureHome_spec (filter Hardened.nonEmpty slugs)) as [_ [H1 H2]].
    assert (E : existsb (jsstring_eqb (lit "home")) (filter Hardened.nonEmpty slugs)
                = existsb (jsstring_eqb (lit "home")) slugs).
    { clear. induction slugs as [|x r IH]; [reflexivity|].
      destruct x as [|c x']; cbn [filter existsb Hardened.nonEmpty];
        [exact IH | now rewrite IH]. }
    rewrite E in H1, H2. now split. }
  split; [exact kebabAll_strings|].
  split.
  { eexists. split; vm_compute; reflexivity. }
  intros spec items H. unfold OpenRouter.normalize. cbn [OpenRouter.pages].
  now rewrite H.
Qed.

(** Entries with capitals, blanks, an underscore, a symbol and a number. *)
Lemma C7_pages_normalized_witness :
  exists safe,
    Hardened.normalize
      (VObj [(lit "brief", VStr (lit "A bakery"));
             (lit "pages",
              VArr [VStr (lit "Our  Team"); VStr (lit "FAQ_items!");
                    VNum (Finite false (lit "2024")); VStr (lit "--")])])
    = Ok safe
    /\ Hardened.pages safe = [lit "home"; lit "our-team"; lit "faq-items"; lit "2024"]
    /\ forallb isSlug (Hardened.pages safe) = true
    /\ forallb Hardened.nonEmpty (Hardened.pages safe) = true
    /\ In (lit "home") (Hardened.pages safe).
Proof.
  destruct C7_pages_normalized as [_ [H2 [H3 _]]].
  destruct (Hardened.normalize
              (VObj [(lit "brief", VStr (lit "A bakery"));
                     (lit "pages",
                      VArr [VStr (lit "Our  Team"); VStr (lit "FAQ_items!");
                            VNum (Finite false (lit "2024")); VStr (lit "--")])]))
    as [safe|e] eqn:E; [|vm_compute in E; discriminate].
  exists safe. split; [reflexivity|]. split.
  - apply (proj1 (H3 _ safe
                    [VStr (lit "Our  Team"); VStr (lit "FAQ_items!");
                     VNum (Finite false (lit "2024")); VStr (lit "--")]
                    [lit "our-team"; lit "faq-items"; lit "2024"; []]
                    E eq_refl eq_refl)).
    reflexivity.
  - exact (H2 _ safe E).
Defined.

(** C7 as stated fails: when an entry already normalizes to "home", the
    hardened server leaves the pages in their order, so "home" need not be
    first; and the OpenRouter server does not normalize the pages. *)
Lemma C7_counterexample :
  (exists safe,
      Hardened.normalize
        (VObj [(lit "brief", VStr (lit "A bakery"));
               (lit "pages", VArr [VStr (lit "About"); VStr (lit "Home")])])
      = Ok safe
      /\ Hardened.pages safe = [lit "about"; lit "home"]
      /\ hd_error (Hardened.pages safe) <> Some (lit "home"))
  /\ OpenRouter.pages
       (OpenRouter.normalize
          (VObj [(lit "brief", VStr (lit "A bakery"));
                 (lit "pages", VArr [VStr (lit "About Us"); VStr (lit "Contact")])]))
     = [VStr (lit "About Us"); VStr (lit "Contact")].
Proof.
  split; [|reflexivity].
  eexists. split; [vm_compute; reflexivity|].
  split; [reflexivity | discriminate].
Qed.


(** ** The data URI *)

#[local] Arguments N.div : simpl never.
#[local] Arguments N.modulo : simpl never.
#[local] Arguments N.mul : simpl never.
#[local] Arguments N.add : simpl never.
#[local] Arguments N.sub : simpl never.

(** Decides the comparisons of the goal and leaves linear arithmetic with
    division by constants. *)
Ltac decide_comparisons :=
  repeat match goal with
         | |- context [?a <=? ?b] => destruct (N.leb_spec a b)
         | |- context [?a <? ?b] => destruct (N.ltb_spec a b)
         | |- context [?a =? ?b] => destruct (N.eqb_spec a b)
         end.

Ltac arith :=
  zify; Z.to_euclidean_division_equations; lia.

Lemma b64index_b64char (i : N) :
  i < 64 -> Reading.b64index (Buffer.b64char i) = Some i.
Proof.
  intros H. unfold Buffer.b64char, Reading.b64index.
  decide_comparisons; cbn [andb]; try (f_equal; lia); try lia.
Qed.

Lemma b64char_not_pad (i : N) : i < 64 -> (Buffer.b64char i =? Buffer.pad) = false.
Proof.
  intros H. apply N.eqb_neq. unfold Buffer.b64char, Buffer.pad.
  decide_comparisons; lia.
Qed.

Lemma list_ind3 (P : list N -> Prop) :
  P [] -> (forall a, P [a]) -> (forall a b, P [a; b]) ->
  (forall a b c r, P r -> P (a :: b :: c :: r)) ->
  forall l, P l.
Proof.
  intros H0 H1 H2 H3. fix IH 1. intros [|a [|b [|c r]]].
  - exact H0.
  - apply H1.
  - apply H2.
  - apply H3, IH.
Qed.

Lemma base64_round_trip (bs : list N) :
  Forall (fun b => b < 256) bs ->
  Reading.base64Decode (Buffer.base64Encode bs) = Some bs.
Proof.
  induction bs as [|a|a b|a b c r IH] using list_ind3; intros H.
  - reflexivity.
  - inversion_clear H as [|? ? Ha _].
    cbn [Buffer.base64Encode Reading.base64Decode].
    rewrite !b64index_b64char by arith.
    rewrite !N.eqb_refl. do 2 f_equal. arith.
  - inversion_clear H as [|? ? Ha H']. inversion_clear H' as [|? ? Hb _].
    cbn [Buffer.base64Encode Reading.base64Decode].
    rewrite !b64index_b64char by arith.
    rewrite b64char_not_pad by arith. rewrite N.eqb_refl.
    f_equal. f_equal; [arith|]. f_equal. arith.
  - inversion_clear H as [|? ? Ha H']. inversion_clear H' as [|? ? Hb H''].
    inversion_clear H'' as [|? ? Hc Hr].
    cbn [Buffer.base64Encode Reading.base64Decode].
    rewrite !b64index_b64char by arith.
    rewrite !b64char_not_pad by arith.
    rewrite (IH Hr). f_equal. f_equal; [arith|]. f_equal; [arith|]. f_equal. arith.
Qed.

(** Decoding the bytes of one code point, by the length of its encoding. *)
Lemma utf8Decode_codePoint (cp : N) (rest : list N) :
  cp < 1114112 ->
  Reading.utf8Decode (Buffer.utf8OfCodePoint cp ++ rest)
  = option_map (app (Reading.utf16OfCodePoint cp)) (Reading.utf8Decode rest).
Proof.
  intros H. unfold Buffer.utf8OfCodePoint.
  destruct (N.ltb_spec cp 128) as [H1|H1].
  { cbn [app Reading.utf8Decode].
    destruct (N.ltb_spec cp 128); [|lia].
    unfold Reading.utf16OfCodePoint.
    destruct (N.ltb_spec cp 65536); [|lia]. reflexivity. }
  destruct (N.ltb_spec cp 2048) as [H2|H2].
  { cbn [app Reading.utf8Decode]. unfold Reading.isContinuation.
    destruct (N.ltb_spec (192 + cp / 64) 128); [arith|].
    destruct (N.ltb_spec (192 + cp / 64) 192); [arith|].
    destruct (N.ltb_spec (192 + cp / 64) 224); [|arith].
    destruct (N.leb_spec 128 (128 + cp mod 64)); [|arith].
    destruct (N.ltb_spec (128 + cp mod 64) 192); [|arith].
    cbn [andb].
    replace ((192 + cp / 64 - 192) * 64 + (128 + cp mod 64 - 128)) with cp by arith.
    reflexivity. }
  destruct (N.ltb_spec cp 65536) as [H3|H3].
  { cbn [app Reading.utf8Decode]. unfold Reading.isContinuation.
    destruct (N.ltb_spec (224 + cp / 4096) 128); [arith|].
    destruct (N.ltb_spec (224 + cp / 4096) 192); [arith|].
    destruct (N.ltb_spec (224 + cp / 4096) 224); [arith|].
    destruct (N.ltb_spec (224 + cp / 4096) 240); [|arith].
    destruct (N.leb_spec 128 (128 + (cp / 64) mod 64)); [|arith].
    destruct (N.ltb_spec (128 + (cp / 64) mod 64) 192); [|arith].
    destruct (N.leb_spec 128 (128 + cp mod 64)); [|arith].
    destruct (N.ltb_spec (128 + cp mod 64) 192); [|arith].
    cbn [andb].
    replace ((224 + cp / 4096 - 224) * 4096 + (128 + (cp / 64) mod 64 - 128) * 64
             + (128 + cp mod 64 - 128)) with cp by arith.
    reflexivity. }
  cbn [app Reading.utf8Decode]. unfold Reading.isContinuation.
  destruct (N.ltb_spec (240 + cp / 262144) 128); [arith|].
  destruct (N.ltb_spec (240 + cp / 262144) 192); [arith|].
  destruct (N.ltb_spec (240 + cp / 262144) 224); [arith|].
  destruct (N.ltb_spec (240 + cp / 262144) 240); [arith|].
  destruct (N.ltb_spec (240 + cp / 262144) 248); [|arith].
  destruct (N.leb_spec 128 (128 + (cp / 4096) mod 64)); [|arith].
  destruct (N.ltb_spec (128 + (cp / 4096) mod 64) 192); [|arith].
  destruct (N.leb_spec 128 (128 + (cp / 64) mod 64)); [|arith].
  destruct (N.ltb_spec (128 + (cp / 64) mod 64) 192); [|arith].
  destruct (N.leb_spec 128 (128 + cp mod 64)); [|arith].
  destruct (N.ltb_spec (128 + cp mod 64) 192); [|arith].
  cbn [andb].
  replace ((240 + cp / 262144 - 240) * 262144
           + (128 + (cp / 4096) mod 64 - 128) * 4096
           + (128 + (cp / 64) mod 64 - 128) * 64 + (128 + cp mod 64 - 128))
    with cp by arith.
  reflexivity.
Qed.

Lemma utf8OfCodePoint_bytes (cp : N) :
  cp < 1114112 -> Forall (fun b => b < 256) (Buffer.utf8OfCodePoint cp).
Proof.
  intros H. unfold Buffer.utf8OfCodePoint.
  decide_comparisons; repeat constructor; arith.
Qed.

Lemma surrogate_ranges (c : N) :
  (Buffer.isHighSurrogate c = true <-> 55296 <= c <= 56319)
  /\ (Buffer.isLowSurrogate c = true <-> 56320 <= c <= 57343).
Proof.
  unfold Buffer.isHighSurrogate, Buffer.isLowSurrogate.
  rewrite !andb_true_iff, !N.leb_le. tauto.
Qed.

Lemma pairCodePoint_round_trip (hi lo : N) :
  Buffer.isHighSurrogate hi = true -> Buffer.isLowSurrogate lo = true ->
  Buffer.pairCodePoint hi lo < 1114112
  /\ Reading.utf16OfCodePoint (Buffer.pairCodePoint hi lo) = [hi; lo].
Proof.
  intros Hh Hl. apply surrogate_ranges in Hh, Hl.
  unfold Buffer.pairCodePoint, Reading.utf16OfCodePoint. split; [lia|].
  destruct (N.ltb_spec (65536 + (hi - 55296) * 1024 + (lo - 56320)) 65536); [lia|].
  f_equal; [arith|]. f_equal. arith.
Qed.

Lemma list_ind2 (P : list N -> Prop) :
  P [] -> (forall a, P [a]) -> (forall a b r, P r -> P (b :: r) -> P (a :: b :: r)) ->
  forall l, P l.
Proof.
  intros H0 H1 H2 l.
  enough (G : P l /\ forall a, P (a :: l)) by apply G.
  induction l as [|b r [IH1 IH2]]; split; auto.
Qed.

Lemma wellFormed_cons (c : N) (r : jsstring) :
  Reading.wellFormed (c :: r)
  = if Buffer.isHighSurrogate c then
      match r with
      | d :: r' => Buffer.isLowSurrogate d && Reading.wellFormed r'
      | [] => false
      end
    else negb (Buffer.isLowSurrogate c) && (c <? 65536) && Reading.wellFormed r.
Proof. reflexivity. Qed.

Lemma utf8Encode_cons (c : N) (r : jsstring) :
  Buffer.utf8Encode (c :: r)
  = if Buffer.isHighSurrogate c then
      match r with
      | d :: r' =>
          if Buffer.isLowSurrogate d
          then Buffer.utf8OfCodePoint (Buffer.pairCodePoint c d) ++ Buffer.utf8Encode r'
          else Buffer.replacement ++ Buffer.utf8Encode r
      | [] => Buffer.replacement
      end
    else if Buffer.isLowSurrogate c then Buffer.replacement ++ Buffer.utf8Encode r
    else Buffer.utf8OfCodePoint c ++ Buffer.utf8Encode r.
Proof. reflexivity. Qed.

Lemma utf8_round_trip (s : jsstring) :
  Reading.wellFormed s = true ->
  Reading.utf8Decode (Buffer.utf8Encode s) = Some s
  /\ Forall (fun b => b < 256) (Buffer.utf8Encode s).
Proof.
  assert (Single : forall c rest,
             Buffer.isHighSurrogate c = false ->
             negb (Buffer.isLowSurrogate c) && (c <? 65536) && Reading.wellFormed rest
             = true ->
             (Reading.wellFormed rest = true ->
              Reading.utf8Decode (Buffer.utf8Encode rest) = Some rest
              /\ Forall (fun b => b < 256) (Buffer.utf8Encode rest)) ->
             Reading.utf8Decode (Buffer.utf8OfCodePoint c ++ Buffer.utf8Encode rest)
             = Some (c :: rest)
             /\ Forall (fun b => b < 256)
                  (Buffer.utf8OfCodePoint c ++ Buffer.utf8Encode rest)).
  { intros c rest Hh H IH.
    apply andb_true_iff in H. destruct H as [H Hr].
    apply andb_true_iff in H. destruct H as [Hl Hc].
    apply N.ltb_lt in Hc. destruct (IH Hr) as [IH1 IH2].
    split.
    - rewrite utf8Decode_codePoint by lia. rewrite IH1.
      unfold Reading.utf16OfCodePoint.
      destruct (N.ltb_spec c 65536); [reflexivity | lia].
    - apply Forall_app. split; [apply utf8OfCodePoint_bytes; lia | exact IH2]. }
  induction s as [|a|a b r IHr IHbr] using list_ind2; intros H.
  - split; [reflexivity | constructor].
  - rewrite wellFormed_cons in H. rewrite utf8Encode_cons.
    destruct (Buffer.isHighSurrogate a) eqn:Ea; [discriminate|].
    apply andb_true_iff in H. destruct H as [H _].
    apply andb_true_iff in H. destruct H as [Hl Hc].
    apply negb_true_iff in Hl. rewrite Hl.
    apply (Single a []);
      [exact Ea | | intros _; split; [reflexivity | constructor]].
    now rewrite Hl, Hc.
  - rewrite wellFormed_cons in H. rewrite utf8Encode_cons.
    destruct (Buffer.isHighSurrogate a) eqn:Ea.
    + apply andb_true_iff in H. destruct H as [Hb Hr].
      rewrite Hb. destruct (pairCodePoint_round_trip a b Ea Hb) as [Hcp Hu].
      destruct (IHr Hr) as [IH1 IH2]. split.
      * rewrite utf8Decode_codePoint by exact Hcp. now rewrite IH1, Hu.
      * apply Forall_app. split; [now apply utf8OfCodePoint_bytes | exact IH2].
    + assert (Hl : Buffer.isLowSurrogate a = false).
      { apply andb_true_iff in H. destruct H as [H _].
        apply andb_true_iff in H. destruct H as [H _]. now apply negb_true_iff. }
      rewrite Hl. apply Single; [exact Ea | exact H | exact IHbr].
Qed.

Lemma data_uri_round_trip (h : jsstring) :
  Reading.wellFormed h = true -> decodeDataUri (downloadUrlOf h) = Some h.
Proof.
  intros H. destruct (utf8_round_trip h H) as [H1 H2].
  unfold decodeDataUri, downloadUrlOf.
  rewrite stripPrefix_app by apply N.eqb_refl.
  now rewrite (base64_round_trip _ H2).
Qed.

Lemma OpenRouter_status_200 (fetch : OpenRouter.provider) (reqBody : value) :
  status (fst (OpenRouter.generate fetch reqBody)) = 200 ->
  exists h, fst (OpenRouter.generate fetch reqBody) = success h.
Proof.
  unfold OpenRouter.generate.
  destruct (negb (truthy _)); [discriminate|].
  destruct (OpenRouter.buildPrompt _) as [prompt|e]; [|discriminate].
  cbn [fst]. unfold OpenRouter.respond.
  destruct (unusable _); [discriminate|]. intros _. now eexists.
Qed.

Lemma Hardened_status_200 (sdk : Hardened.provider) (reqBody : value) :
  status (fst (Hardened.generate sdk reqBody)) = 200 ->
  exists h, fst (Hardened.generate sdk reqBody) = success h.
Proof.
  unfold Hardened.generate.
  destruct (negb (truthy _)); [discriminate|].
  destruct (Hardened.normalize _) as [safe|e]; [|discriminate].
  cbn [fst]. unfold Hardened.respond.
  destruct (unusable _); [discriminate|]. intros _. now eexists.
Qed.

(** C9 (as amended): a 200 answer carries a document [html] and, as
    [downloadUrl], the prefix of the data URI followed by the base64 text
    of the UTF-8 bytes of [html]; decoding that text from base64 and from
    UTF-8 gives [html] back when [html] is well-formed UTF-16. *)
Theorem C9_download_url :
  (forall fetch reqBody,
      status (fst (OpenRouter.generate fetch reqBody)) = 200 ->
      exists h, fst (OpenRouter.generate fetch reqBody) = success h)
  /\ (forall sdk reqBody,
      status (fst (Hardened.generate sdk reqBody)) = 200 ->
      exists h, fst (Hardened.generate sdk reqBody) = success h)
  /\ (forall h,
      body (success h)
      = VObj [(lit "html", VStr h);
              (lit "downloadUrl",
               VStr (lit "data:text/html;base64,"
                     ++ Buffer.base64Encode (Buffer.utf8Encode h)))])
  /\ (forall h,
      wellFormed h = true ->
      decodeDataUri
        (lit "data:text/html;base64," ++ Buffer.base64Encode (Buffer.utf8Encode h))
      = Some h).
Proof.
  split; [exact OpenRouter_status_200|].
  split; [exact Hardened_status_200|].
  split; [reflexivity | exact data_uri_round_trip].
Qed.

(** A 200 answer of each server, and the data URI of the page decoded. *)
Lemma C9_download_url_witness :
  (exists h,
      fst (OpenRouter.generate (Examples.answers Examples.page)
             (Examples.request (VStr (lit "A bakery"))))
      = success h)
  /\ (exists h,
      fst (Hardened.generate (Examples.sdkAnswers Examples.page)
             (Examples.request (VStr (lit "A bakery"))))
      = success h)
  /\ decodeDataUri
       (lit "data:text/html;base64,"
        ++ Buffer.base64Encode (Buffer.utf8Encode Examples.page))
     = Some Examples.page
  /\ decodeDataUri
       (lit "data:text/html;base64,"
        ++ Buffer.base64Encode (Buffer.utf8Encode [233; 8364; 55357; 56832]))
     = Some [233; 8364; 55357; 56832].
Proof.
  destruct C9_download_url as [H1 [H2 [_ H4]]].
  split; [apply H1; vm_compute; reflexivity|].
  split; [apply H2; vm_compute; reflexivity|].
  split; apply H4; vm_compute; reflexivity.
Defined.

(** C9 as stated fails: a model may answer with a document that holds an
    unpaired surrogate (JSON can carry one as an escape).  The handler
    answers 200 with that document, but the bytes of the data URI hold
    U+FFFD in its place, so decoding does not give the document back. *)
Lemma C9_counterexample :
  fst (OpenRouter.generate (Examples.answers Examples.pageWithLoneSurrogate)
         (Examples.request (VStr (lit "A bakery"))))
  = success Examples.pageWithLoneSurrogate
  /\ decodeDataUri (downloadUrlOf Examples.pageWithLoneSurrogate)
     = Some (lit "<html><head><title>t</title></head><body>" ++ [65533]
             ++ lit "</body></html>")
  /\ decodeDataUri (downloadUrlOf Examples.pageWithLoneSurrogate)
     <> Some Examples.pageWithLoneSurrogate
  /\ fst (Hardened.generate (Examples.sdkAnswers Examples.pageWithLoneSurrogate)
            (Examples.request (VStr (lit "A bakery"))))
     = success Examples.pageWithLoneSurrogate.
Proof.
  split; [vm_compute; reflexivity|].
  split; [vm_compute; reflexivity|].
  split; [vm_compute; discriminate | vm_compute; reflexivity].
Qed.

(** * Further properties of the code *)

(** ** What [stripFences] returns *)

Lemma trimEnd_prefix (s : jsstring) : exists w, s = trimEnd s ++ w.
Proof.
  unfold trimEnd.
  assert (G : forall t, exists w, t = w ++ dropWhile isSpace t).
  { induction t as [|c r [w IH]]; [now exists []|]. simpl.
    destruct (isSpace c); [|now exists []].
    exists (c :: w). simpl. now rewrite <- IH. }
  destruct (G (rev s)) as [w Hw]. exists (rev w).
  rewrite <- rev_app_distr, <- Hw. now rewrite rev_involutive.
Qed.

Lemma dropWhile_suffix (p : N -> bool) (s : jsstring) :
  exists w, s = w ++ dropWhile p s.
Proof.
  induction s as [|c r [w IH]]; [now exists []|]. simpl.
  destruct (p c); [|now exists []].
  exists (c :: w). simpl. now rewrite <- IH.
Qed.

Lemma trim_trimmed (s : jsstring) : trimmed (trim s) = true.
Proof.
  unfold trimmed, trim. apply andb_true_iff. split.
  - pose proof (dropWhile_stops isSpace s) as H. unfold trimStart.
    destruct (dropWhile isSpace s) as [|c r]; [reflexivity|].
    rewrite trimEnd_cons by exact H. simpl. now rewrite H.
  - unfold trimEnd. rewrite rev_involutive.
    pose proof (dropWhile_stops isSpace (rev (trimStart s))) as H.
    destruct (dropWhile isSpace (rev (trimStart s))); [reflexivity|].
    simpl. now rewrite H.
Qed.

Lemma trim_of_trimmed (s : jsstring) : trimmed s = true -> trim s = s.
Proof.
  unfold trimmed. intros H. apply andb_true_iff in H. destruct H as [H1 H2].
  assert (E1 : trimStart s = s).
  { unfold trimStart. destruct s as [|c r]; [reflexivity|]. simpl in *.
    apply negb_true_iff in H1. now rewrite H1. }
  unfold trim. rewrite E1. unfold trimEnd.
  destruct (rev s) as [|c r] eqn:E.
  - simpl. now rewrite <- (rev_involutive s), E.
  - simpl in *. apply negb_true_iff in H2. rewrite H2.
    now rewrite <- E, rev_involutive.
Qed.

Lemma existsSuffix_context (m : jsstring -> bool) (pre x post : jsstring) :
  prefixStable m ->
  existsSuffix m x = true -> existsSuffix m (pre ++ x ++ post) = true.
Proof.
  intros Hm H.
  assert (G : existsSuffix m (x ++ post) = true).
  { clear pre. induction x as [|c r IH].
    - simpl in H. rewrite orb_false_r in H.
      apply existsSuffix_here. exact (Hm [] post H).
    - simpl in H. apply orb_true_iff in H. destruct H as [H|H].
      + apply existsSuffix_here. exact (Hm (c :: r) post H).
      + simpl. rewrite (IH H). apply orb_true_r. }
  induction pre as [|c r IH]; [exact G|].
  simpl. rewrite IH. apply orb_true_r.
Qed.

Lemma stripPrefix_continued (eq : N -> N -> bool) (p x y r : jsstring) :
  stripPrefix eq p x = Some r -> stripPrefix eq p (x ++ y) = Some (r ++ y).
Proof.
  revert x. induction p as [|a p IH]; intros x; simpl.
  - now intros [= ->].
  - destruct x as [|c x']; [discriminate|]. simpl.
    destruct (eq a c); [apply IH | discriminate].
Qed.

Lemma startsWith_stable (eq : N -> N -> bool) (p : jsstring) :
  prefixStable (startsWith eq p).
Proof.
  intros x y. unfold startsWith.
  destruct (stripPrefix eq p x) as [r|] eqn:E; [|discriminate].
  now rewrite (stripPrefix_continued _ _ _ y _ E).
Qed.

Lemma leadingBackticks_bt (r : jsstring) :
  leadingBackticks (bt :: r) = S (leadingBackticks r).
Proof.
  unfold leadingBackticks. cbn [takeWhile]. now rewrite (N.eqb_refl bt).
Qed.

Lemma leadingBackticks_other (c : N) (r : jsstring) :
  c <> bt -> leadingBackticks (c :: r) = 0%nat.
Proof.
  intros H. unfold leadingBackticks. cbn [takeWhile].
  now rewrite (eqb_bt_false c H).
Qed.

Lemma leadingBackticks_cases (c : N) (r : jsstring) :
  (c = bt /\ leadingBackticks (c :: r) = S (leadingBackticks r))
  \/ (c <> bt /\ leadingBackticks (c :: r) = 0%nat).
Proof.
  destruct (N.eq_dec c bt) as [->|H].
  - left. split; [reflexivity | apply leadingBackticks_bt].
  - right. split; [exact H | now apply leadingBackticks_other].
Qed.

Lemma startsWith_fence_leading (s : jsstring) :
  startsWith N.eqb fence s = Nat.leb 3 (leadingBackticks s).
Proof.
  unfold startsWith, fence, leadingBackticks.
  destruct s as [|a [|b [|c r]]]; simpl; try reflexivity;
    repeat (match goal with
            | |- context [bt =? ?x] => destruct (bt =? x); simpl; try reflexivity
            end).
Qed.

Lemma noFence_cons (c : N) (r : jsstring) :
  noFence (c :: r) = negb (startsWith N.eqb fence (c :: r)) && noFence r.
Proof. unfold noFence. cbn [existsSuffix]. apply negb_orb. Qed.

Lemma noFence_head (s : jsstring) :
  noFence s = true -> startsWith N.eqb fence s = false.
Proof.
  destruct s as [|c r]; [reflexivity|]. rewrite noFence_cons.
  intros H. apply andb_true_iff in H. now apply negb_true_iff.
Qed.

Lemma noFence_middle (a b c : jsstring) :
  noFence (a ++ b ++ c) = true -> noFence b = true.
Proof.
  unfold noFence. intros H.
  destruct (existsSuffix (startsWith N.eqb fence) b) eqn:E; [|reflexivity].
  rewrite (existsSuffix_context _ a b c (startsWith_stable _ _) E) in H.
  discriminate.
Qed.

Lemma noFence_trim (s : jsstring) : noFence s = true -> noFence (trim s) = true.
Proof.
  intros H. destruct (dropWhile_suffix isSpace s) as [w1 E1].
  destruct (trimEnd_prefix (trimStart s)) as [w2 E2].
  apply (noFence_middle w1 (trim s) w2).
  unfold trim at 1. fold (trimStart s) in E1. now rewrite <- E2, <- E1.
Qed.

Lemma removeAll_skip (m : jsstring -> option nat) (k : nat) (s : jsstring) :
  removeAll m k s = removeAll m 0 (skipn k s).
Proof.
  revert k. induction s as [|c r IH]; intros [|k]; try reflexivity.
  cbn [removeAll skipn]. apply IH.
Qed.

Lemma leadingBackticks_skipn (k : nat) (s : jsstring) :
  (k <= leadingBackticks s)%nat ->
  leadingBackticks (skipn k s) = (leadingBackticks s - k)%nat.
Proof.
  revert s. induction k as [|k IH]; intros s H.
  - simpl. lia.
  - destruct s as [|c r]; [reflexivity|].
    destruct (leadingBackticks_cases c r) as [[-> E]|[_ E]]; rewrite E in *.
    + cbn [skipn]. rewrite IH by lia. lia.
    + lia.
Qed.

Section RemoveFences.

(** A global expression whose matches are runs of backticks and which
    matches wherever three backticks start. *)
Variable m : jsstring -> option nat.
Hypothesis m_within : forall s k,
  m s = Some k -> (1 <= k <= leadingBackticks s)%nat.
Hypothesis m_complete : forall s, m s = None -> (leadingBackticks s < 3)%nat.

Lemma removeAll_no_fence_bounded (n : nat) (s : jsstring) :
  (List.length s <= n)%nat ->
  noFence (removeAll m 0 s) = true
  /\ (leadingBackticks (removeAll m 0 s) <= leadingBackticks s)%nat.
Proof.
  revert s. induction n as [|n IH]; intros s Hn.
  - destruct s; [|simpl in Hn; lia]. split; [reflexivity | apply le_n].
  - destruct s as [|c r]; [split; [reflexivity | apply le_n]|].
    simpl in Hn.
    assert (Keep : (leadingBackticks (c :: r) < 3)%nat ->
      noFence (c :: removeAll m 0 r) = true
      /\ (leadingBackticks (c :: removeAll m 0 r) <= leadingBackticks (c :: r))%nat).
    { intros Hlt. destruct (IH r ltac:(lia)) as [F L].
      rewrite noFence_cons, F, andb_true_r, startsWith_fence_leading.
      destruct (leadingBackticks_cases c r) as [[-> E]|[Hc E]].
      - rewrite (leadingBackticks_bt (removeAll m 0 r)).
        rewrite (leadingBackticks_bt r) in Hlt |- *.
        split; [|lia]. apply negb_true_iff, Nat.leb_gt. lia.
      - rewrite (leadingBackticks_other c _ Hc), E. split; [reflexivity | lia]. }
    cbn [removeAll]. destruct (m (c :: r)) as [[|k]|] eqn:E.
    + apply m_within in E. lia.
    + pose proof (m_within _ _ E) as [_ Hk].
      rewrite removeAll_skip.
      change (skipn k r) with (skipn (S k) (c :: r)).
      assert (Hlen : (List.length (skipn (S k) (c :: r)) <= n)%nat).
      { rewrite length_skipn. simpl. lia. }
      destruct (IH _ Hlen) as [F L]. split; [exact F|].
      rewrite leadingBackticks_skipn in L by exact Hk. lia.
    + apply Keep. now apply m_complete.
Qed.

Lemma removeAll_no_fence (s : jsstring) : noFence (removeAll m 0 s) = true.
Proof. exact (proj1 (removeAll_no_fence_bounded (List.length s) s (le_n _))). Qed.

End RemoveFences.

Lemma backtickRun_within (s : jsstring) (k : nat) :
  Hardened.backtickRun s = Some k -> (1 <= k <= leadingBackticks s)%nat.
Proof.
  unfold Hardened.backtickRun. fold (leadingBackticks s).
  destruct (Nat.leb 3 (leadingBackticks s)) eqn:E; [|discriminate].
  intros [= <-]. apply Nat.leb_le in E. lia.
Qed.

Lemma backtickRun_complete (s : jsstring) :
  Hardened.backtickRun s = None -> (leadingBackticks s < 3)%nat.
Proof.
  unfold Hardened.backtickRun. fold (leadingBackticks s).
  destruct (Nat.leb 3 (leadingBackticks s)) eqn:E; [discriminate|].
  intros _. now apply Nat.leb_gt.
Qed.

Lemma fenceOnly_within (s : jsstring) (k : nat) :
  Gemini.fenceOnly s = Some k -> (1 <= k <= leadingBackticks s)%nat.
Proof.
  unfold Gemini.fenceOnly. rewrite startsWith_fence_leading.
  destruct (Nat.leb 3 (leadingBackticks s)) eqn:E; [|discriminate].
  intros [= <-]. apply Nat.leb_le in E. lia.
Qed.

Lemma fenceOnly_complete (s : jsstring) :
  Gemini.fenceOnly s = None -> (leadingBackticks s < 3)%nat.
Proof.
  unfold Gemini.fenceOnly. rewrite startsWith_fence_leading.
  destruct (Nat.leb 3 (leadingBackticks s)) eqn:E; [discriminate|].
  intros _. now apply Nat.leb_gt.
Qed.

Lemma Gemini_stripFences_no_fence (s : jsstring) :
  noFence (Gemini.stripFences s) = true.
Proof.
  unfold Gemini.stripFences. apply noFence_trim.
  apply removeAll_no_fence; [apply fenceOnly_within | apply fenceOnly_complete].
Qed.

Lemma Hardened_stripFences_no_fence (s : jsstring) :
  noFence (Hardened.stripFences s) = true.
Proof.
  unfold Hardened.stripFences. apply noFence_trim.
  apply removeAll_no_fence; [apply backtickRun_within | apply backtickRun_complete].
Qed.

(** X1.  The two Gemini servers return no fence: whatever the text of the
    model, the result of their [stripFences] holds no run of three
    backticks, at its ends or inside. *)
Theorem X1_stripFences_no_fence (s : jsstring) :
  noFence (Gemini.stripFences s) = true
  /\ noFence (Hardened.stripFences s) = true.
Proof.
  split; [apply Gemini_stripFences_no_fence | apply Hardened_stripFences_no_fence].
Qed.

(** X3.  The three servers return the text without white space at either
    end. *)
Theorem X3_stripFences_trimmed (s : jsstring) :
  trimmed (OpenRouter.stripFences s) = true
  /\ trimmed (Gemini.stripFences s) = true
  /\ trimmed (Hardened.stripFences s) = true.
Proof. repeat split; apply trim_trimmed. Qed.

Lemma startsClean_dropWhile (s : jsstring) :
  startsClean s = true -> dropWhile isSpace s = s.
Proof.
  destruct s as [|c r]; [reflexivity|]. simpl. intros H.
  apply negb_true_iff in H. now rewrite H.
Qed.

Lemma trimmed_trimEnd (s : jsstring) : trimmed s = true -> trimEnd s = s.
Proof.
  intros H. pose proof (trim_of_trimmed s H) as E. unfold trim, trimStart in E.
  unfold trimmed in H. apply andb_true_iff in H. destruct H as [H _].
  now rewrite (startsClean_dropWhile s H) in E.
Qed.

Lemma noFence_no_prefix (s : jsstring) :
  noFence s = true -> stripPrefix N.eqb fence s = None.
Proof.
  intros H. apply noFence_head in H. unfold startsWith in H.
  now destruct (stripPrefix N.eqb fence s).
Qed.

Lemma noFence_no_suffix (s : jsstring) :
  noFence s = true -> stripSuffix fence s = None.
Proof.
  intros H. destruct (stripSuffix fence s) as [r|] eqn:E; [|reflexivity].
  apply stripSuffix_Some in E. subst s.
  assert (F : noFence fence = true).
  { apply (noFence_middle r fence []). now rewrite app_nil_r. }
  discriminate F.
Qed.

Lemma removeAll_fixed (m : jsstring -> option nat) (s : jsstring) :
  (forall t, startsWith N.eqb fence t = false -> m t = None) ->
  noFence s = true -> removeAll m 0 s = s.
Proof.
  intros Hm. induction s as [|c r IH]; [reflexivity|].
  rewrite noFence_cons. intros H. apply andb_true_iff in H. destruct H as [H1 H2].
  apply negb_true_iff in H1. cbn [removeAll]. rewrite (Hm _ H1).
  now rewrite (IH H2).
Qed.

Lemma backtickRun_none (t : jsstring) :
  startsWith N.eqb fence t = false -> Hardened.backtickRun t = None.
Proof.
  rewrite startsWith_fence_leading. unfold Hardened.backtickRun.
  fold (leadingBackticks t). now intros ->.
Qed.

Lemma fenceOnly_none (t : jsstring) :
  startsWith N.eqb fence t = false -> Gemini.fenceOnly t = None.
Proof. unfold Gemini.fenceOnly. now intros ->. Qed.

Lemma fenceWithTag_none (t : jsstring) :
  startsWith N.eqb fence t = false -> Gemini.fenceWithTag t = None.
Proof.
  unfold Gemini.fenceWithTag, startsWith.
  now destruct (stripPrefix N.eqb fence t).
Qed.

Lemma Gemini_stripFences_fixed (t : jsstring) :
  noFence t = true -> trimmed t = true -> Gemini.stripFences t = t.
Proof.
  intros F T. unfold Gemini.stripFences.
  rewrite (trim_of_trimmed t T).
  unfold OpenRouter.stripLeadingFence. rewrite (noFence_no_prefix t F).
  unfold OpenRouter.stripTrailingFence. rewrite (noFence_no_suffix t F).
  rewrite (removeAll_fixed _ t fenceWithTag_none F).
  rewrite (removeAll_fixed _ t fenceOnly_none F).
  exact (trim_of_trimmed t T).
Qed.

Lemma Hardened_stripFences_fixed (t : jsstring) :
  noFence t = true -> trimmed t = true -> Hardened.stripFences t = t.
Proof.
  intros F T. unfold Hardened.stripFences.
  assert (C : startsClean t = true).
  { unfold trimmed in T. apply andb_true_iff in T. tauto. }
  unfold Hardened.stripLeadingFence.
  rewrite (startsClean_dropWhile t C), (noFence_no_prefix t F).
  unfold Hardened.stripTrailingFence.
  rewrite (trimmed_trimEnd t T), (noFence_no_suffix t F).
  rewrite (removeAll_fixed _ t backtickRun_none F).
  exact (trim_of_trimmed t T).
Qed.

(** X2.  On the two Gemini servers [stripFences] is idempotent: applied to
    its own result it changes nothing. *)
Theorem X2_stripFences_idempotent (s : jsstring) :
  Gemini.stripFences (Gemini.stripFences s) = Gemini.stripFences s
  /\ Hardened.stripFences (Hardened.stripFences s) = Hardened.stripFences s.
Proof.
  split.
  - apply Gemini_stripFences_fixed;
      [apply Gemini_stripFences_no_fence | apply trim_trimmed].
  - apply Hardened_stripFences_fixed;
      [apply Hardened_stripFences_no_fence | apply trim_trimmed].
Qed.

(** *** Fenced bodies *)

Lemma noFence_trimStart (s : jsstring) :
  noFence s = true -> noFence (trimStart s) = true.
Proof.
  intros H. destruct (dropWhile_suffix isSpace s) as [w E].
  apply (noFence_middle w (trimStart s) []). rewrite app_nil_r.
  unfold trimStart. now rewrite <- E.
Qed.

Lemma noFence_trimEnd (s : jsstring) :
  noFence s = true -> noFence (trimEnd s) = true.
Proof.
  intros H. destruct (trimEnd_prefix s) as [w E].
  apply (noFence_middle [] (trimEnd s) w). cbn [app]. now rewrite <- E.
Qed.

Lemma Gemini_stripFences_fenced (body : jsstring) :
  noFence body = true ->
  Gemini.stripFences (fence ++ lit "html" ++ body ++ fence) = trim body.
Proof.
  intros Hb. unfold Gemini.stripFences.
  rewrite (app_assoc (lit "html")), trim_fenced.
  unfold OpenRouter.stripLeadingFence.
  rewrite stripPrefix_app by apply N.eqb_refl.
  rewrite <- app_assoc. rewrite stripPrefix_app by (intros c; apply N.eqb_refl).
  rewrite trimStart_before_fence. unfold OpenRouter.stripTrailingFence.
  rewrite stripSuffix_app.
  pose proof (noFence_trimStart body Hb) as H.
  rewrite (removeAll_fixed _ _ fenceWithTag_none H).
  rewrite (removeAll_fixed _ _ fenceOnly_none H).
  apply trim_trimStart.
Qed.

Lemma stripPrefix_html_bare (body : jsstring) :
  startsWith eqCi (lit "html") body = false ->
  stripPrefix eqCi (lit "html") (body ++ fence) = None.
Proof.
  intros Hb. unfold startsWith in Hb.
  destruct body as [|c1 [|c2 [|c3 [|c4 r]]]]; simpl in *;
    repeat match goal with
           | |- context [eqCi ?a ?b] => destruct (eqCi a b) eqn:?
           end; try reflexivity; try discriminate.
Qed.

Lemma Gemini_stripFences_bare (body : jsstring) :
  noFence body = true ->
  startsWith eqCi (lit "html") body = false ->
  Gemini.stripFences (fence ++ body ++ fence) = trim body.
Proof.
  intros Hb Hh. unfold Gemini.stripFences. rewrite trim_fenced.
  unfold OpenRouter.stripLeadingFence.
  rewrite stripPrefix_app by apply N.eqb_refl.
  rewrite (stripPrefix_html_bare body Hh).
  rewrite trimStart_before_fence. unfold OpenRouter.stripTrailingFence.
  rewrite stripSuffix_app.
  pose proof (noFence_trimStart body Hb) as H.
  rewrite (removeAll_fixed _ _ fenceWithTag_none H).
  rewrite (removeAll_fixed _ _ fenceOnly_none H).
  apply trim_trimStart.
Qed.

Lemma Hardened_stripFences_fenced (tag body : jsstring) :
  forallb Hardened.isTagChar tag = true ->
  noFence body = true ->
  match body with c :: _ => Hardened.isTagChar c = false | [] => True end ->
  Hardened.stripFences (fence ++ tag ++ body ++ fence) = trim body.
Proof.
  intros Ht Hb Hhead.
  unfold Hardened.stripFences, Hardened.stripLeadingFence.
  change (fence ++ tag ++ body ++ fence) with (bt :: [bt; bt] ++ tag ++ body ++ fence).
  rewrite dropWhile_head by apply isSpace_bt.
  change (bt :: [bt; bt] ++ tag ++ body ++ fence) with (fence ++ tag ++ body ++ fence).
  rewrite stripPrefix_app by apply N.eqb_refl.
  rewrite dropWhile_app_all by exact Ht.
  assert (E : dropWhile Hardened.isTagChar (body ++ fence) = body ++ fence).
  { destruct body as [|c r]; [reflexivity|]. simpl. now rewrite Hhead. }
  rewrite E, trimStart_before_fence.
  unfold Hardened.stripTrailingFence.
  rewrite trimEnd_before_fence, stripSuffix_app.
  change (trimEnd (trimStart body)) with (trim body).
  rewrite (removeAll_fixed _ _ backtickRun_none (noFence_trim _ Hb)).
  apply trim_idem.
Qed.

Lemma OpenRouter_stripFences_unfenced (s : jsstring) :
  noFence s = true -> OpenRouter.stripFences s = trim s.
Proof.
  intros H. pose proof (noFence_trim s H) as Ht.
  unfold OpenRouter.stripFences, OpenRouter.stripLeadingFence.
  rewrite (noFence_no_prefix _ Ht). unfold OpenRouter.stripTrailingFence.
  rewrite (noFence_no_suffix _ Ht). apply trim_idem.
Qed.

Lemma Gemini_stripFences_unfenced (s : jsstring) :
  noFence s = true -> Gemini.stripFences s = trim s.
Proof.
  intros H. pose proof (noFence_trim s H) as Ht.
  unfold Gemini.stripFences, OpenRouter.stripLeadingFence.
  rewrite (noFence_no_prefix _ Ht). unfold OpenRouter.stripTrailingFence.
  rewrite (noFence_no_suffix _ Ht).
  rewrite (removeAll_fixed _ _ fenceWithTag_none Ht).
  rewrite (removeAll_fixed _ _ fenceOnly_none Ht). apply trim_idem.
Qed.

Lemma Hardened_stripFences_unfenced (s : jsstring) :
  noFence s = true -> Hardened.stripFences s = trim s.
Proof.
  intros H. unfold Hardened.stripFences, Hardened.stripLeadingFence.
  pose proof (noFence_trimStart s H) as H1. unfold trimStart in H1.
  rewrite (noFence_no_prefix _ H1). unfold Hardened.stripTrailingFence.
  rewrite (noFence_no_suffix _ (noFence_trimEnd s H)).
  now rewrite (removeAll_fixed _ _ backtickRun_none H).
Qed.

Lemma noBacktick_noFence (s : jsstring) : noBacktick s = true -> noFence s = true.
Proof.
  induction s as [|c r IH]; [reflexivity|]. cbn [noBacktick forallb].
  intros H. apply andb_true_iff in H. destruct H as [Hc Hr].
  rewrite noFence_cons, (IH Hr), andb_true_r. apply negb_true_iff.
  rewrite startsWith_fence_leading. apply negb_true_iff in Hc.
  apply N.eqb_neq in Hc. now rewrite (leadingBackticks_other c r Hc).
Qed.

Lemma trim_fixed_iff (s : jsstring) : trim s = s <-> trimmed s = true.
Proof.
  split; [|apply trim_of_trimmed]. intros E. rewrite <- E. apply trim_trimmed.
Qed.

(** C6 (as amended): on an opening fence with its language tag, a body and
    a closing fence, [stripFences] returns the body trimmed: in
    [server/server.js] for every body after the tag [html], and after a
    bare fence when the body does not start with [html]; in the first
    Gemini server under the same conditions when the body holds no run of
    three backticks; in the hardened server, after any tag of letters,
    digits, [_] and [-], when the body holds no run of three backticks
    and does not start with such a character.  On input that holds no run
    of three backticks (in particular no backtick) the three servers
    return the input trimmed, which is the input exactly when it has no
    white space at either end. *)
Theorem C6_stripFences :
  (forall body,
      OpenRouter.stripFences (fence ++ lit "html" ++ body ++ fence) = trim body)
  /\ (forall body,
      startsWith eqCi (lit "html") body = false ->
      OpenRouter.stripFences (fence ++ body ++ fence) = trim body)
  /\ (forall body,
      noFence body = true ->
      Gemini.stripFences (fence ++ lit "html" ++ body ++ fence) = trim body)
  /\ (forall body,
      noFence body = true ->
      startsWith eqCi (lit "html") body = false ->
      Gemini.stripFences (fence ++ body ++ fence) = trim body)
  /\ (forall tag body,
      forallb Hardened.isTagChar tag = true ->
      noFence body = true ->
      match body with c :: _ => Hardened.isTagChar c = false | [] => True end ->
      Hardened.stripFences (fence ++ tag ++ body ++ fence) = trim body)
  /\ (forall s,
      noFence s = true ->
      OpenRouter.stripFences s = trim s
      /\ Gemini.stripFences s = trim s
      /\ Hardened.stripFences s = trim s)
  /\ (forall s, noBacktick s = true -> noFence s = true)
  /\ (forall s, trim s = s <-> trimmed s = true).
Proof.
  split; [exact OpenRouter_stripFences_html|].
  split; [exact OpenRouter_stripFences_bare|].
  split; [exact Gemini_stripFences_fenced|].
  split; [exact Gemini_stripFences_bare|].
  split; [exact Hardened_stripFences_fenced|].
  split.
  { intros s H. split; [|split].
    - now apply OpenRouter_stripFences_unfenced.
    - now apply Gemini_stripFences_unfenced.
    - now apply Hardened_stripFences_unfenced. }
  split; [exact noBacktick_noFence | exact trim_fixed_iff].
Qed.

(** A fenced answer of a model whose script uses single backticks, and a
    text without fences, in the three servers. *)
Lemma C6_stripFences_witness :
  OpenRouter.stripFences
    (fence ++ lit "html" ++ (nl :: lit "<script>t = `Hello`</script>") ++ fence)
    = lit "<script>t = `Hello`</script>"
  /\ OpenRouter.stripFences (fence ++ (nl :: lit "<p>Hello</p>") ++ fence)
    = lit "<p>Hello</p>"
  /\ Gemini.stripFences
       (fence ++ lit "html" ++ (nl :: lit "<script>t = `Hello`</script>") ++ fence)
    = lit "<script>t = `Hello`</script>"
  /\ Gemini.stripFences (fence ++ (nl :: lit "<p>Hello</p>") ++ fence)
    = lit "<p>Hello</p>"
  /\ Hardened.stripFences
       (fence ++ lit "html" ++ (nl :: lit "<script>t = `Hello`</script>") ++ fence)
    = lit "<script>t = `Hello`</script>"
  /\ OpenRouter.stripFences (lit "<p>`Hello`</p>") = lit "<p>`Hello`</p>"
  /\ Gemini.stripFences (lit "<p>`Hello`</p>") = lit "<p>`Hello`</p>"
  /\ Hardened.stripFences (lit "<p>`Hello`</p>") = lit "<p>`Hello`</p>".
Proof.
  destruct C6_stripFences as (H1 & H2 & H3 & H4 & H5 & H6 & _ & _).
  split; [rewrite H1; reflexivity|].
  split; [rewrite H2; reflexivity|].
  split; [rewrite H3; reflexivity|].
  split; [rewrite H4; reflexivity|].
  split; [rewrite (H5 (lit "html")); reflexivity|].
  destruct (H6 (lit "<p>`Hello`</p>")) as [K1 [K2 K3]]; [reflexivity|].
  rewrite K1, K2, K3. repeat split; reflexivity.
Defined.

(** C6 as stated fails: input without any backtick is not returned
    unchanged when it carries white space at either end.  And the two
    Gemini servers remove more than the two markers: a run of three
    backticks inside the body is deleted as well, while
    [server/server.js] keeps it. *)
Lemma C6_counterexample :
  noBacktick (lit " <p>Hello</p>") = true
  /\ OpenRouter.stripFences (lit " <p>Hello</p>") <> lit " <p>Hello</p>"
  /\ Gemini.stripFences (lit " <p>Hello</p>") <> lit " <p>Hello</p>"
  /\ Hardened.stripFences (lit " <p>Hello</p>") <> lit " <p>Hello</p>"
  /\ Gemini.stripFences
       (fence ++ lit "html" ++ (lit "<pre>a" ++ fence ++ lit "b</pre>") ++ fence)
     = lit "<pre>ab</pre>"
  /\ Hardened.stripFences
       (fence ++ lit "html" ++ (lit "<pre>a" ++ fence ++ lit "b</pre>") ++ fence)
     = lit "<pre>ab</pre>"
  /\ OpenRouter.stripFences
       (fence ++ lit "html" ++ (lit "<pre>a" ++ fence ++ lit "b</pre>") ++ fence)
     = lit "<pre>a" ++ fence ++ lit "b</pre>".
Proof.
  split; [reflexivity|].
  split; [vm_compute; discriminate|].
  split; [vm_compute; discriminate|].
  split; [vm_compute; discriminate|].
  repeat split; vm_compute; reflexivity.
Qed.

(** ** Documents inside other text *)

Lemma dropWhile_app_nonempty (p : N -> bool) (r y : jsstring) :
  dropWhile p r <> [] -> dropWhile p (r ++ y) = dropWhile p r ++ y.
Proof.
  induction r as [|c r IH]; simpl; [congruence|].
  destruct (p c); [exact IH | reflexivity].
Qed.

Lemma htmlTagHere_stable : prefixStable htmlTagHere.
Proof.
  intros x y. destruct x as [|c r]; [discriminate|].
  cbn [htmlTagHere app]. intros H. apply andb_true_iff in H. destruct H as [Hc H].
  rewrite Hc. cbn [andb].
  destruct (stripPrefix eqCi (lit "html") (dropWhile isSpace r)) as [[|d t]|] eqn:E;
    try discriminate.
  assert (N0 : dropWhile isSpace r <> []).
  { intros Z. rewrite Z in E. discriminate. }
  rewrite (dropWhile_app_nonempty _ _ y N0).
  now rewrite (stripPrefix_continued _ _ _ y _ E).
Qed.

Lemma doctypeHere_stable : prefixStable doctypeHere.
Proof. apply startsWith_stable. Qed.

Lemma hasHtml_context (pre doc post : jsstring) :
  hasHtml doc = true -> hasHtml (pre ++ doc ++ post) = true.
Proof.
  unfold hasHtml. intros H. apply orb_true_iff in H. apply orb_true_iff.
  destruct H as [H|H]; [left | right].
  - now apply existsSuffix_context; [apply htmlTagHere_stable|].
  - now apply existsSuffix_context; [apply doctypeHere_stable|].
Qed.

(** X4.  A text that holds a complete document anywhere, with any text
    before and after it, is returned as it is by [ensureFullDoc] of the
    three servers, for every spec: the spec is not read. *)
Theorem X4_document_in_context (pre doc post : jsstring) (spec : value) :
  hasHtml doc = true ->
  OpenRouter.ensureFullDoc (pre ++ doc ++ post) spec = Ok (pre ++ doc ++ post)
  /\ Gemini.ensureFullDoc (pre ++ doc ++ post) spec = Ok (pre ++ doc ++ post)
  /\ Hardened.ensureFullDoc (pre ++ doc ++ post) spec = Ok (pre ++ doc ++ post).
Proof.
  intros H. pose proof (hasHtml_context pre doc post H) as E.
  unfold OpenRouter.ensureFullDoc, Gemini.ensureFullDoc, Hardened.ensureFullDoc.
  rewrite E. repeat split.
Qed.

Lemma X4_document_in_context_witness :
  hasHtml Examples.page = true
  /\ OpenRouter.ensureFullDoc (lit "Here it is: " ++ Examples.page ++ lit " Enjoy!") VNull
     = Ok (lit "Here it is: " ++ Examples.page ++ lit " Enjoy!").
Proof.
  split; [vm_compute; reflexivity|].
  exact (proj1 (X4_document_in_context (lit "Here it is: ") Examples.page
                  (lit " Enjoy!") VNull eq_refl)).
Defined.

(** X5.  A complete document sent between fences comes back as the
    document alone: [stripFences] followed by [ensureFullDoc] gives the
    trimmed body, for every spec.  The two Gemini servers need the body to
    hold no backtick; the hardened one accepts any tag of letters, digits,
    [_] and [-] after the opening fence. *)
Theorem X5_fenced_document (body : jsstring) (spec : value) :
  hasHtml (trim body) = true ->
  OpenRouter.ensureFullDoc
    (OpenRouter.stripFences (fence ++ lit "html" ++ body ++ fence)) spec
  = Ok (trim body)
  /\ (noBacktick body = true ->
      Gemini.ensureFullDoc
        (Gemini.stripFences (fence ++ lit "html" ++ body ++ fence)) spec
      = Ok (trim body))
  /\ (forall tag,
      noBacktick body = true ->
      forallb Hardened.isTagChar tag = true ->
      match body with c :: _ => Hardened.isTagChar c = false | [] => True end ->
      Hardened.ensureFullDoc
        (Hardened.stripFences (fence ++ tag ++ body ++ fence)) spec
      = Ok (trim body)).
Proof.
  intros H. split; [|split].
  - rewrite OpenRouter_stripFences_html. unfold OpenRouter.ensureFullDoc.
    now rewrite H.
  - intros Hb. rewrite (Gemini_stripFences_html body Hb).
    unfold Gemini.ensureFullDoc. now rewrite H.
  - intros tag Hb Ht Hhead.
    rewrite (Hardened_stripFences_tagged tag body Ht Hb Hhead).
    unfold Hardened.ensureFullDoc. now rewrite H.
Qed.

Lemma X5_fenced_document_witness :
  hasHtml (trim ([nl] ++ Examples.page ++ [nl])) = true
  /\ OpenRouter.ensureFullDoc
       (OpenRouter.stripFences
          (fence ++ lit "html" ++ ([nl] ++ Examples.page ++ [nl]) ++ fence)) VNull
     = Ok (trim ([nl] ++ Examples.page ++ [nl]))
  /\ Gemini.ensureFullDoc
       (Gemini.stripFences
          (fence ++ lit "html" ++ ([nl] ++ Examples.page ++ [nl]) ++ fence)) VNull
     = Ok (trim ([nl] ++ Examples.page ++ [nl]))
  /\ Hardened.ensureFullDoc
       (Hardened.stripFences
          (fence ++ lit "xml-1" ++ ([nl] ++ Examples.page ++ [nl]) ++ fence)) VNull
     = Ok (trim ([nl] ++ Examples.page ++ [nl])).
Proof.
  destruct (X5_fenced_document ([nl] ++ Examples.page ++ [nl]) VNull
              ltac:(vm_compute; reflexivity)) as (A & B & C).
  split; [vm_compute; reflexivity|]. split; [exact A|].
  split; [apply B; vm_compute; reflexivity|].
  apply (C (lit "xml-1")); vm_compute; reflexivity.
Defined.

(** ** Escaping *)

Lemma escapeChar_plain (c : N) : isSpecial c = false -> escapeChar c = [c].
Proof.
  unfold isSpecial, escapeChar. intros H.
  repeat (apply orb_false_iff in H; destruct H as [H ?]).
  now repeat match goal with E : (_ =? _) = false |- _ => rewrite E; clear E end.
Qed.

Lemma escapeChar_special (c : N) :
  isSpecial c = true -> (4 <= List.length (escapeChar c) <= 6)%nat.
Proof.
  unfold isSpecial. intros H.
  destruct (escapeChar_cases c) as [[-> ->]|[[-> ->]|[[-> ->]|[[-> ->]|[[-> ->]|N0]]]]];
    try (simpl; lia).
  destruct N0 as (H1 & H2 & H3 & H4 & H5 & _).
  apply N.eqb_neq in H1, H2, H3, H4, H5.
  rewrite H1, H2, H3, H4, H5 in H. discriminate.
Qed.

Lemma escapeHtmlAttr_length (s : jsstring) :
  (List.length s <= List.length (escapeHtmlAttr s) <= 6 * List.length s)%nat.
Proof.
  induction s as [|c r IH]; [simpl; lia|].
  rewrite escapeHtmlAttr_cons, length_app. cbn [List.length].
  destruct (isSpecial c) eqn:E.
  - pose proof (escapeChar_special c E). lia.
  - rewrite (escapeChar_plain c E). simpl. lia.
Qed.

(** X6.  [escapeHtmlAttr] never shortens a string and at most multiplies
    its length by six; it returns the string unchanged exactly when none
    of the five characters occurs in it. *)
Theorem X6_escapeHtmlAttr_fixed_points (s : jsstring) :
  (List.length s <= List.length (escapeHtmlAttr s) <= 6 * List.length s)%nat
  /\ (escapeHtmlAttr s = s <-> existsb isSpecial s = false).
Proof.
  split; [apply escapeHtmlAttr_length|]. split.
  - intros E. apply (f_equal (@List.length N)) in E.
    induction s as [|c r IH]; [reflexivity|].
    rewrite escapeHtmlAttr_cons, length_app in E. cbn [List.length] in E.
    pose proof (escapeHtmlAttr_length r) as Hr.
    cbn [existsb]. destruct (isSpecial c) eqn:Ec.
    + pose proof (escapeChar_special c Ec). lia.
    + rewrite (escapeChar_plain c Ec) in E. simpl in E. apply IH. lia.
  - induction s as [|c r IH]; [reflexivity|]. cbn [existsb]. intros H.
    apply orb_false_iff in H. destruct H as [Hc Hr].
    rewrite escapeHtmlAttr_cons, (escapeChar_plain c Hc), (IH Hr). reflexivity.
Qed.

(** ** Slugs *)

Lemma noDoubleHyphen_after_hyphen (r : jsstring) :
  noDoubleHyphen (hyphen :: r) = true -> startsWithUnit hyphen r = false.
Proof.
  destruct r as [|b r]; [reflexivity|]. rewrite noDoubleHyphen_step.
  intros H. apply andb_true_iff in H. destruct H as [H _].
  apply negb_true_iff in H. rewrite (N.eqb_refl hyphen) in H. exact H.
Qed.

Lemma noDoubleHyphen_before_hyphen (r : jsstring) :
  noDoubleHyphen (r ++ [hyphen]) = true -> endsWithUnit hyphen r = false.
Proof.
  unfold endsWithUnit. induction r as [|x r IH]; [reflexivity|].
  intros H. change ((x :: r) ++ [hyphen]) with (x :: (r ++ [hyphen])) in H.
  pose proof (noDoubleHyphen_tail _ _ H) as Ht. specialize (IH Ht).
  destruct r as [|y r'].
  - simpl in H |- *. rewrite andb_true_r in H. apply negb_true_iff in H.
    rewrite (N.eqb_refl hyphen), andb_true_r in H. exact H.
  - cbn [rev] in IH |- *.
    destruct (rev r' ++ [y]) as [|b t] eqn:E.
    + now destruct (rev r').
    + exact IH.
Qed.

Lemma stripSuffix_unit_None (c : N) (s : jsstring) :
  stripSuffix [c] s = None -> endsWithUnit c s = false.
Proof.
  unfold stripSuffix, endsWithUnit. cbn [rev app stripPrefix].
  destruct (rev s) as [|x t]; [reflexivity|]. cbn [startsWithUnit].
  rewrite (N.eqb_sym x c). now destruct (c =? x).
Qed.

Lemma stripSuffix_unit_absent (c : N) (s : jsstring) :
  endsWithUnit c s = false -> stripSuffix [c] s = None.
Proof.
  unfold stripSuffix, endsWithUnit. cbn [rev app stripPrefix].
  destruct (rev s) as [|x t]; [reflexivity|]. cbn [startsWithUnit].
  rewrite (N.eqb_sym x c). now intros ->.
Qed.

Lemma startsWithUnit_app (c : N) (r t : jsstring) :
  r <> [] -> startsWithUnit c (r ++ t) = startsWithUnit c r.
Proof. destruct r; [congruence | reflexivity]. Qed.

Lemma stripEdgeHyphens_edges (t : jsstring) :
  noDoubleHyphen t = true ->
  startsWithUnit hyphen (Hardened.stripEdgeHyphens t) = false
  /\ endsWithUnit hyphen (Hardened.stripEdgeHyphens t) = false.
Proof.
  intros Hd. unfold Hardened.stripEdgeHyphens.
  set (s1 := match t with
             | [] => t
             | c :: r => if c =? hyphen then r else t
             end).
  assert (H1 : noDoubleHyphen s1 = true /\ startsWithUnit hyphen s1 = false).
  { subst s1. destruct t as [|c r]; [now split|].
    destruct (N.eqb_spec c hyphen) as [->|Hc].
    - split; [now apply noDoubleHyphen_tail in Hd|].
      now apply noDoubleHyphen_after_hyphen.
    - split; [exact Hd|]. cbn [startsWithUnit]. now apply N.eqb_neq. }
  destruct H1 as [Hd1 Hs1].
  destruct (stripSuffix [hyphen] s1) as [r|] eqn:E.
  - apply stripSuffix_Some in E. rewrite E in Hd1, Hs1. split.
    + destruct r as [|x r']; [reflexivity | exact Hs1].
    + now apply noDoubleHyphen_before_hyphen.
  - split; [exact Hs1 | now apply stripSuffix_unit_None].
Qed.

Lemma toKebab_edges (s : jsstring) :
  startsWithUnit hyphen (Hardened.toKebab s) = false
  /\ endsWithUnit hyphen (Hardened.toKebab s) = false.
Proof.
  unfold Hardened.toKebab. apply stripEdgeHyphens_edges, collapse_no_double.
Qed.

(** X7.  A page name made by [toKebab] never starts and never ends with a
    hyphen. *)
Theorem X7_toKebab_no_edge_hyphen (s : jsstring) :
  startsWithUnit hyphen (Hardened.toKebab s) = false
  /\ endsWithUnit hyphen (Hardened.toKebab s) = false.
Proof. apply toKebab_edges. Qed.

Lemma isSlugChar_facts (c : N) :
  Hardened.isSlugChar c = true ->
  isSpace c = false /\ Hardened.lowerUnit c = [c]
  /\ ((c =? underscore) || isSpace c) = false.
Proof.
  unfold Hardened.isSlugChar, isLowerAscii, isDigit, hyphen. intros H.
  assert (R : 97 <= c <= 122 \/ 48 <= c <= 57 \/ c = 45).
  { apply orb_true_iff in H. destruct H as [H|H].
    - apply orb_true_iff in H. destruct H as [H|H];
        apply andb_true_iff in H; destruct H as [A B];
        apply N.leb_le in A, B; lia.
    - apply N.eqb_eq in H. lia. }
  clear H.
  assert (S0 : isSpace c = false).
  { unfold isSpace.
    repeat match goal with
           | |- context [?a =? ?b] =>
               destruct (N.eqb_spec a b); [lia|]
           | |- context [?a <=? ?b] =>
               destruct (N.leb_spec a b)
           end; try reflexivity; lia. }
  split; [exact S0|]. split.
  - unfold Hardened.lowerUnit, isUpperAscii.
    destruct (N.leb_spec 65 c); destruct (N.leb_spec c 90); cbn [andb];
      try lia;
      (destruct (N.eqb_spec c 304); [lia|]);
      (destruct (N.eqb_spec c 8490); [lia|]); reflexivity.
  - rewrite S0, orb_false_r. unfold underscore. apply N.eqb_neq. lia.
Qed.

Lemma dropWhile_head_stops (p : N -> bool) (s : jsstring) :
  match s with c :: _ => p c = false | [] => True end -> dropWhile p s = s.
Proof. destruct s as [|c r]; [reflexivity|]. simpl. now intros ->. Qed.

Lemma slug_trim (s : jsstring) :
  forallb Hardened.isSlugChar s = true -> trim s = s.
Proof.
  intros H. unfold trim, trimStart, trimEnd.
  assert (G : forall t, forallb Hardened.isSlugChar t = true ->
                        dropWhile isSpace t = t).
  { intros t Ht. apply dropWhile_head_stops. destruct t as [|c r]; [exact I|].
    simpl in Ht. apply andb_true_iff in Ht. destruct Ht as [Hc _].
    now apply isSlugChar_facts in Hc. }
  rewrite (G s H). rewrite G; [apply rev_involutive|].
  rewrite forallb_forall in *. intros x Hx. apply H. now apply in_rev.
Qed.

Lemma slug_toLowerCase (s : jsstring) :
  forallb Hardened.isSlugChar s = true -> Hardened.toLowerCase s = s.
Proof.
  unfold Hardened.toLowerCase. induction s as [|c r IH]; [reflexivity|].
  cbn [forallb flat_map]. intros H. apply andb_true_iff in H.
  destruct H as [Hc Hr]. apply isSlugChar_facts in Hc.
  destruct Hc as (_ & -> & _). now rewrite (IH Hr).
Qed.

Lemma replaceRuns_none (p : N -> bool) (rep : jsstring) (b : bool) (s : jsstring) :
  existsb p s = false -> replaceRuns p rep b s = s.
Proof.
  revert b. induction s as [|c r IH]; intros b; [reflexivity|].
  cbn [existsb replaceRuns]. intros H. apply orb_false_iff in H.
  destruct H as [-> Hr]. now rewrite (IH _ Hr).
Qed.

Lemma slug_no_separator (s : jsstring) :
  forallb Hardened.isSlugChar s = true ->
  existsb (fun c => (c =? underscore) || isSpace c) s = false.
Proof.
  induction s as [|c r IH]; [reflexivity|]. cbn [forallb existsb].
  intros H. apply andb_true_iff in H. destruct H as [Hc Hr].
  apply isSlugChar_facts in Hc. destruct Hc as (_ & _ & ->). now apply IH.
Qed.

Lemma filter_all (p : N -> bool) (s : jsstring) :
  forallb p s = true -> filter p s = s.
Proof.
  induction s as [|c r IH]; [reflexivity|]. cbn [forallb filter].
  intros H. apply andb_true_iff in H. destruct H as [-> Hr]. now rewrite (IH Hr).
Qed.

Lemma collapse_fixed (b : bool) (s : jsstring) :
  noDoubleHyphen s = true ->
  (b = true -> startsWithUnit hyphen s = false) ->
  replaceRuns (N.eqb hyphen) [hyphen] b s = s.
Proof.
  revert b. induction s as [|c r IH]; intros b Hd Hb; [reflexivity|].
  cbn [replaceRuns]. destruct (N.eqb_spec hyphen c) as [<-|Hc].
  - destruct b.
    + specialize (Hb eq_refl). cbn [startsWithUnit] in Hb.
      rewrite (N.eqb_refl hyphen) in Hb. discriminate.
    + cbn [app]. rewrite IH; [reflexivity | now apply noDoubleHyphen_tail in Hd |].
      intros _. now apply noDoubleHyphen_after_hyphen.
  - rewrite IH; [reflexivity | now apply noDoubleHyphen_tail in Hd | discriminate].
Qed.

Lemma stripEdgeHyphens_fixed (s : jsstring) :
  startsWithUnit hyphen s = false -> endsWithUnit hyphen s = false ->
  Hardened.stripEdgeHyphens s = s.
Proof.
  intros Hs He. unfold Hardened.stripEdgeHyphens.
  assert (E : match s with
              | [] => s
              | c :: r => if c =? hyphen then r else s
              end = s).
  { destruct s as [|c r]; [reflexivity|]. cbn [startsWithUnit] in Hs. now rewrite Hs. }
  rewrite E. now rewrite (stripSuffix_unit_absent _ _ He).
Qed.

Lemma toKebab_fixed (s : jsstring) :
  isSlug s = true ->
  startsWithUnit hyphen s = false -> endsWithUnit hyphen s = false ->
  Hardened.toKebab s = s.
Proof.
  unfold isSlug. intros H Hs He. apply andb_true_iff in H. destruct H as [Hc Hd].
  unfold Hardened.toKebab.
  rewrite (slug_trim s Hc), (slug_toLowerCase s Hc).
  rewrite (replaceRuns_none _ _ _ _ (slug_no_separator s Hc)).
  rewrite (filter_all _ _ Hc).
  rewrite (collapse_fixed false s Hd) by discriminate.
  now apply stripEdgeHyphens_fixed.
Qed.

(** X8.  [toKebab] is idempotent, and the strings it leaves unchanged are
    exactly the slugs without a hyphen at either end. *)
Theorem X8_toKebab_idempotent (s : jsstring) :
  Hardened.toKebab (Hardened.toKebab s) = Hardened.toKebab s
  /\ (Hardened.toKebab s = s <->
      isSlug s = true /\ startsWithUnit hyphen s = false
      /\ endsWithUnit hyphen s = false).
Proof.
  split.
  - apply toKebab_fixed; [apply toKebab_slug | apply toKebab_edges..].
  - split.
    + intros E. rewrite <- E. split; [apply toKebab_slug | apply toKebab_edges].
    + intros (A & B & C). now apply toKebab_fixed.
Qed.

(** ** What the fallback loop guarantees *)

Lemma forallb_first_failure (p : jsstring -> bool) (l : list jsstring) :
  forallb p l = false ->
  exists before m after,
    l = before ++ m :: after /\ forallb p before = true /\ p m = false.
Proof.
  induction l as [|x r IH]; [discriminate|]. cbn [forallb].
  destruct (p x) eqn:E.
  - cbn [andb]. intros H. destruct (IH H) as (b & m & a & -> & Hb & Hm).
    exists (x :: b), m, a. cbn [forallb app]. now rewrite E, Hb.
  - intros _. now exists [], x, r.
Qed.

Section LoopOutcome.

Variable body : jsstring -> loopState -> loopState * bool.
Variable prompt : jsstring.
Variable newHtml : jsstring -> option jsstring.
Variable newErr : jsstring -> option exn.

Hypothesis body_spec : forall m st,
  body m st
  = ({| html := laterHtml (html st) (newHtml m);
        lastErr := laterError (lastErr st) (newErr m);
        tried := tried st ++ [m];
        calls := calls st ++ [(m, prompt)] |},
     match newHtml m with Some h => longEnough h | None => false end).

(** The loop ends in one of two ways: no attempt stops it and every model
    is tried, or the first long document stops it. *)
Lemma forOf_cases (models : list jsstring) :
  (forallb (continues newHtml) models = true
   /\ forOf body models initialState
      = {| html := fold_left laterHtml (map newHtml models) [];
           lastErr := lastThrown (map newErr models);
           tried := models;
           calls := callsFor prompt models |})
  \/ (exists before m after h,
        models = before ++ m :: after
        /\ forallb (continues newHtml) before = true
        /\ newHtml m = Some h
        /\ longEnough h = true
        /\ forOf body models initialState
           = {| html := h;
                lastErr := laterError (lastThrown (map newErr before)) (newErr m);
                tried := before ++ [m];
                calls := callsFor prompt (before ++ [m]) |}).
Proof.
  destruct (forallb (continues newHtml) models) eqn:E.
  - left. split; [reflexivity|].
    now rewrite (forOf_continues body prompt newHtml newErr body_spec models _ E).
  - right. destruct (forallb_first_failure _ _ E) as (b & m & a & -> & Hb & Hm).
    unfold continues in Hm. destruct (newHtml m) as [h|] eqn:Eh; [|discriminate].
    apply negb_false_iff in Hm. exists b, m, a, h.
    repeat (split; [assumption || reflexivity|]).
    now rewrite (forOf_breaks body prompt newHtml newErr body_spec b a m h _ Hb Eh Hm).
Qed.

Lemma laterHtml_origin (l : list jsstring) (h0 : jsstring) :
  fold_left laterHtml (map newHtml l) h0 = h0
  \/ exists m, In m l /\ newHtml m = Some (fold_left laterHtml (map newHtml l) h0).
Proof.
  revert h0. induction l as [|x r IH]; intros h0; [now left|].
  cbn [map fold_left]. destruct (IH (laterHtml h0 (newHtml x))) as [E|(m & Hm & E)].
  - rewrite E. destruct (newHtml x) as [h|] eqn:Ex; cbn [laterHtml].
    + right. exists x. split; [now left | exact Ex].
    + now left.
  - right. exists m. split; [now right | exact E].
Qed.

(** The models called are a prefix of the list, each called once, in
    order and with the same prompt. *)
Lemma forOf_prefix (models : list jsstring) :
  exists done rest,
    models = done ++ rest
    /\ tried (forOf body models initialState) = done
    /\ calls (forOf body models initialState) = callsFor prompt done.
Proof.
  destruct (forOf_cases models) as [[_ E]|(b & m & a & h & -> & _ & _ & _ & E)];
    rewrite E; cbn [tried calls].
  - exists models, []. now rewrite app_nil_r.
  - exists (b ++ [m]), a. now rewrite <- app_assoc.
Qed.

Lemma answerOf_502 (models : list jsstring) :
  status (answerOf (forOf body models initialState)) = 502 ->
  forallb (continues newHtml) models = true
  /\ calls (forOf body models initialState) = callsFor prompt models
  /\ answerOf (forOf body models initialState)
     = exhausted (messageOf (lastThrown (map newErr models))) models.
Proof.
  unfold answerOf.
  destruct (forOf_cases models) as [[H E]|(b & m & a & h & _ & _ & _ & Hl & E)];
    rewrite E; cbn [html tried calls lastErr].
  - destruct (unusable _); [|discriminate]. intros _. now repeat split.
  - now rewrite (usable_long h Hl).
Qed.

Lemma answerOf_200 (models : list jsstring) :
  status (answerOf (forOf body models initialState)) = 200 ->
  exists h m,
    answerOf (forOf body models initialState) = success h
    /\ In m models /\ newHtml m = Some h
    /\ (20 <= List.length h)%nat
    /\ In (m, prompt) (calls (forOf body models initialState)).
Proof.
  unfold answerOf.
  destruct (forOf_cases models) as [[H E]|(b & m & a & h & -> & _ & Hm & Hl & E)];
    rewrite E; cbn [html tried calls lastErr].
  - destruct (unusable _) eqn:U; [discriminate|]. intros _.
    destruct (laterHtml_origin models []) as [Z|(m & Hin & Hm)].
    + rewrite Z in U. discriminate.
    + exists (fold_left laterHtml (map newHtml models) []), m.
      split; [reflexivity|]. split; [exact Hin|]. split; [exact Hm|]. split.
      * unfold unusable in U.
        destruct (fold_left laterHtml (map newHtml models) []); [discriminate|].
        now apply Nat.ltb_ge in U.
      * unfold callsFor. now apply (in_map (fun k => (k, prompt))).
  - rewrite (usable_long h Hl). intros _. exists h, m.
    split; [reflexivity|]. split; [apply in_or_app; right; now left|].
    split; [exact Hm|]. split; [apply longEnough_spec in Hl; lia|].
    unfold callsFor. apply (in_map (fun k => (k, prompt))).
    apply in_or_app. right. now left.
Qed.

End LoopOutcome.

(** *** The four loops *)

Lemma Gemini_iteration_spec (generateContent : Gemini.provider) (spec : value)
  (prompt m : jsstring) (st : loopState) :
  Gemini.iteration generateContent spec prompt m st
  = ({| html := laterHtml (html st)
                  (documentOf (Gemini.attempt generateContent spec prompt m));
        lastErr := laterError (lastErr st)
                     (errorOf (Gemini.attempt generateContent spec prompt m));
        tried := tried st ++ [m];
        calls := calls st ++ [(m, prompt)] |},
     match documentOf (Gemini.attempt generateContent spec prompt m) with
     | Some h => longEnough h
     | None => false
     end).
Proof.
  unfold Gemini.iteration.
  destruct (Gemini.attempt generateContent spec prompt m); reflexivity.
Qed.

Lemma Render_iteration_spec (fetch : OpenRouter.provider) (spec : value)
  (m : jsstring) (st : loopState) :
  Render.iteration fetch spec m st
  = ({| html := laterHtml (html st) (documentOf (Render.attempt fetch spec m));
        lastErr := laterError (lastErr st) (errorOf (Render.attempt fetch spec m));
        tried := tried st ++ [m];
        calls := calls st ++ [(m, Render.prompt)] |},
     match documentOf (Render.attempt fetch spec m) with
     | Some h => longEnough h
     | None => false
     end).
Proof.
  unfold Render.iteration. destruct (Render.attempt fetch spec m); reflexivity.
Qed.

(** The handlers, by the way they leave the validation. *)
Lemma OpenRouter_generate_cases (fetch : OpenRouter.provider) (reqBody : value) :
  (truthy (briefOf reqBody) = false
   /\ OpenRouter.generate fetch reqBody = (badRequest, []))
  \/ (exists e,
        OpenRouter.buildPrompt (OpenRouter.normalize (specOf reqBody)) = Throw e
        /\ OpenRouter.generate fetch reqBody = (internalError e, []))
  \/ (exists prompt,
        OpenRouter.buildPrompt (OpenRouter.normalize (specOf reqBody)) = Ok prompt
        /\ OpenRouter.generate fetch reqBody
           = (answerOf (OpenRouter.fallback fetch (specOf reqBody) prompt
                          OpenRouter.modelIds),
              calls (OpenRouter.fallback fetch (specOf reqBody) prompt
                       OpenRouter.modelIds))).
Proof.
  unfold OpenRouter.generate.
  change (getOpt (or_ reqBody (VObj [])) (lit "spec")) with (specOf reqBody).
  change (getOpt (specOf reqBody) (lit "brief")) with (briefOf reqBody).
  destruct (truthy (briefOf reqBody)); cbn [negb]; [|now left].
  right. destruct (OpenRouter.buildPrompt _) as [prompt|e].
  - right. now exists prompt.
  - left. now exists e.
Qed.

Lemma Gemini_generate_cases (generateContent : Gemini.provider) (reqBody : value) :
  (truthy (briefOf reqBody) = false
   /\ Gemini.generate generateContent reqBody = (badRequest, []))
  \/ (exists e,
        Gemini.buildPrompt (OpenRouter.normalize (specOf reqBody)) = Throw e
        /\ Gemini.generate generateContent reqBody = (internalError e, []))
  \/ (exists prompt,
        Gemini.buildPrompt (OpenRouter.normalize (specOf reqBody)) = Ok prompt
        /\ Gemini.generate generateContent reqBody
           = (answerOf (Gemini.fallback generateContent (specOf reqBody) prompt
                          Gemini.modelIds),
              calls (Gemini.fallback generateContent (specOf reqBody) prompt
                       Gemini.modelIds))).
Proof.
  unfold Gemini.generate.
  change (getOpt (or_ reqBody (VObj [])) (lit "spec")) with (specOf reqBody).
  change (getOpt (specOf reqBody) (lit "brief")) with (briefOf reqBody).
  destruct (truthy (briefOf reqBody)); cbn [negb]; [|now left].
  right. destruct (Gemini.buildPrompt _) as [prompt|e].
  - right. now exists prompt.
  - left. now exists e.
Qed.

Lemma Render_generate_cases (fetch : OpenRouter.provider) (reqBody : value) :
  (truthy (briefOf reqBody) = false
   /\ Render.generate fetch reqBody = (badRequest, []))
  \/ (truthy (briefOf reqBody) = true
      /\ Render.generate fetch reqBody
         = (answerOf (Render.fallback fetch (specOf reqBody) Render.modelIds),
            calls (Render.fallback fetch (specOf reqBody) Render.modelIds))).
Proof.
  unfold Render.generate.
  change (getOpt (or_ reqBody (VObj [])) (lit "spec")) with (specOf reqBody).
  change (getOpt (specOf reqBody) (lit "brief")) with (briefOf reqBody).
  destruct (truthy (briefOf reqBody)); cbn [negb]; [now right | now left].
Qed.

Lemma Hardened_generate_cases (sdk : Hardened.provider) (reqBody : value) :
  (truthy (briefOf reqBody) = false
   /\ Hardened.generate sdk reqBody = (badRequest, []))
  \/ (exists e,
        Hardened.normalize (specOf reqBody) = Throw e
        /\ Hardened.generate sdk reqBody = (internalError e, []))
  \/ (exists safe,
        Hardened.normalize (specOf reqBody) = Ok safe
        /\ Hardened.generate sdk reqBody
           = (answerOf (Hardened.fallback sdk (specOf reqBody)
                          (Hardened.buildPrompt safe) Hardened.modelIds),
              calls (Hardened.fallback sdk (specOf reqBody)
                       (Hardened.buildPrompt safe) Hardened.modelIds))).
Proof.
  unfold Hardened.generate.
  change (getOpt (or_ reqBody (VObj [])) (lit "spec")) with (specOf reqBody).
  change (getOpt (specOf reqBody) (lit "brief")) with (briefOf reqBody).
  destruct (truthy (briefOf reqBody)); cbn [negb]; [|now left].
  right. destruct (Hardened.normalize _) as [safe|e].
  - right. now exists safe.
  - left. now exists e.
Qed.

(** X9.  Whatever the provider does, each of the four handlers calls the
    models of its list in order, each at most once and all with one
    prompt: the calls of a request are those of a prefix of the list. *)
Theorem X9_calls_are_a_prefix (fetch : OpenRouter.provider)
  (generateContent : Gemini.provider) (sdk : Hardened.provider) (reqBody : value) :
  (exists prompt done rest,
     OpenRouter.modelIds = done ++ rest
     /\ snd (OpenRouter.generate fetch reqBody) = callsFor prompt done)
  /\ (exists prompt done rest,
        Gemini.modelIds = done ++ rest
        /\ snd (Gemini.generate generateContent reqBody) = callsFor prompt done)
  /\ (exists done rest,
        Render.modelIds = done ++ rest
        /\ snd (Render.generate fetch reqBody) = callsFor Render.prompt done)
  /\ (exists prompt done rest,
        Hardened.modelIds = done ++ rest
        /\ snd (Hardened.generate sdk reqBody) = callsFor prompt done).
Proof.
  split; [|split; [|split]].
  - destruct (OpenRouter_generate_cases fetch reqBody)
      as [[_ E]|[(e & _ & E)|(prompt & _ & E)]]; rewrite E; cbn [snd].
    + now exists [], [], OpenRouter.modelIds.
    + now exists [], [], OpenRouter.modelIds.
    + destruct (forOf_prefix _ prompt _ _
                  (OpenRouter_iteration_spec fetch (specOf reqBody) prompt)
                  OpenRouter.modelIds) as (d & r & E1 & _ & E2).
      exists prompt, d, r. split; [exact E1 | exact E2].
  - destruct (Gemini_generate_cases generateContent reqBody)
      as [[_ E]|[(e & _ & E)|(prompt & _ & E)]]; rewrite E; cbn [snd].
    + now exists [], [], Gemini.modelIds.
    + now exists [], [], Gemini.modelIds.
    + destruct (forOf_prefix _ prompt _ _
                  (Gemini_iteration_spec generateContent (specOf reqBody) prompt)
                  Gemini.modelIds) as (d & r & E1 & _ & E2).
      exists prompt, d, r. split; [exact E1 | exact E2].
  - destruct (Render_generate_cases fetch reqBody) as [[_ E]|[_ E]];
      rewrite E; cbn [snd].
    + now exists [], Render.modelIds.
    + destruct (forOf_prefix _ Render.prompt _ _
                  (Render_iteration_spec fetch (specOf reqBody))
                  Render.modelIds) as (d & r & E1 & _ & E2).
      exists d, r. split; [exact E1 | exact E2].
  - destruct (Hardened_generate_cases sdk reqBody)
      as [[_ E]|[(e & _ & E)|(safe & _ & E)]]; rewrite E; cbn [snd].
    + now exists [], [], Hardened.modelIds.
    + now exists [], [], Hardened.modelIds.
    + destruct (forOf_prefix _ (Hardened.buildPrompt safe) _ _
                  (Hardened_iteration_spec sdk (specOf reqBody)
                     (Hardened.buildPrompt safe))
                  Hardened.modelIds) as (d & r & E1 & _ & E2).
      exists (Hardened.buildPrompt safe), d, r. split; [exact E1 | exact E2].
Qed.

(** *** What an attempt finalizes *)

Lemma OpenRouter_shell_long (t x : jsstring) :
  longEnough (OpenRouter.shell t x) = true.
Proof.
  apply longEnough_spec.
  unfold OpenRouter.shell, OpenRouter.shellBefore, OpenRouter.shellAfter.
  repeat rewrite length_app. simpl. lia.
Qed.

Lemma Gemini_shell_long (t x : jsstring) : longEnough (Gemini.shell t x) = true.
Proof.
  apply longEnough_spec.
  unfold Gemini.shell, Gemini.shellBefore, Gemini.shellAfter.
  repeat rewrite length_app. simpl. lia.
Qed.

Lemma Hardened_shell_long (t d c j x : jsstring) :
  longEnough (Hardened.shell t d c j x) = true.
Proof.
  apply longEnough_spec.
  unfold Hardened.shell, Hardened.shellBefore, Hardened.shellAfter.
  repeat rewrite length_app. simpl. lia.
Qed.

(** The result of [ensureFullDoc] is a document: the text itself, or a
    shell, which is longer than 50 characters. *)
Lemma OpenRouter_ensureFullDoc_result (x : jsstring) (spec : value) (h : jsstring) :
  OpenRouter.ensureFullDoc x spec = Ok h ->
  hasHtml h = true /\ (h = x \/ hasHtml x = false /\ longEnough h = true).
Proof.
  unfold OpenRouter.ensureFullDoc. destruct (hasHtml x) eqn:E.
  - intros [= <-]. split; [exact E | now left].
  - bind_inversion Et. intros [= <-].
    split; [apply OpenRouter_hasHtml_shell|]. right.
    split; [reflexivity | apply OpenRouter_shell_long].
Qed.

Lemma Gemini_ensureFullDoc_result (x : jsstring) (spec : value) (h : jsstring) :
  Gemini.ensureFullDoc x spec = Ok h ->
  hasHtml h = true /\ (h = x \/ hasHtml x = false /\ longEnough h = true).
Proof.
  unfold Gemini.ensureFullDoc. destruct (hasHtml x) eqn:E.
  - intros [= <-]. split; [exact E | now left].
  - bind_inversion Et. intros [= <-].
    split; [apply Gemini_hasHtml_shell|]. right.
    split; [reflexivity | apply Gemini_shell_long].
Qed.

Lemma Hardened_ensureFullDoc_result (x : jsstring) (spec : value) (h : jsstring) :
  Hardened.ensureFullDoc x spec = Ok h ->
  hasHtml h = true /\ (h = x \/ hasHtml x = false /\ longEnough h = true).
Proof.
  unfold Hardened.ensureFullDoc. destruct (hasHtml x) eqn:E.
  - intros [= <-]. split; [exact E | now left].
  - bind_inversion Et. intros [= <-].
    split; [apply Hardened_hasHtml_shell|]. right.
    split; [reflexivity | apply Hardened_shell_long].
Qed.

Lemma OpenRouter_attempt_result (fetch : OpenRouter.provider) (spec : value)
  (prompt m h : jsstring) :
  OpenRouter.attempt fetch spec prompt m = Ok h ->
  exists text x,
    OpenRouter.callOpenRouter fetch m prompt = Ok text
    /\ OpenRouter.stripFencesOf text = Ok x
    /\ OpenRouter.ensureFullDoc x spec = Ok h.
Proof.
  unfold OpenRouter.attempt. bind_inversion Et. bind_inversion Ex.
  intros E. eexists; eexists.
  split; [reflexivity|]. split; [exact Ex | exact E].
Qed.

Lemma Render_attempt_result (fetch : OpenRouter.provider) (spec : value)
  (m h : jsstring) :
  Render.attempt fetch spec m = Ok h ->
  exists text x,
    Render.callOpenRouter fetch m Render.prompt = Ok text
    /\ OpenRouter.stripFencesOf text = Ok x
    /\ OpenRouter.ensureFullDoc x spec = Ok h.
Proof.
  unfold Render.attempt. bind_inversion Et. bind_inversion Ex.
  intros E. eexists; eexists.
  split; [reflexivity|]. split; [exact Ex | exact E].
Qed.

Lemma Gemini_attempt_result (generateContent : Gemini.provider) (spec : value)
  (prompt m h : jsstring) :
  Gemini.attempt generateContent spec prompt m = Ok h ->
  exists result text x,
    generateContent m prompt = Ok result
    /\ Gemini.textOf result = Ok text
    /\ Gemini.stripFencesOf text = Ok x
    /\ Gemini.ensureFullDoc x spec = Ok h.
Proof.
  unfold Gemini.attempt. bind_inversion Er. bind_inversion Et. bind_inversion Ex.
  intros E. eexists; eexists; eexists.
  split; [reflexivity|]. split; [exact Et|]. split; [exact Ex | exact E].
Qed.

Lemma Hardened_attempt_result (sdk : Hardened.provider) (spec : value)
  (prompt m h : jsstring) :
  Hardened.attempt sdk spec prompt m = Ok (Hardened.Finalized h) ->
  exists result t,
    Hardened.withTimeout (sdk m prompt) = Ok result
    /\ Hardened.extractTextFromModelResult result = Ok (VStr t)
    /\ (20 <= List.length (trim t))%nat
    /\ Hardened.ensureFullDoc (Hardened.stripFences t) spec = Ok h.
Proof.
  unfold Hardened.attempt. bind_inversion Er. bind_inversion Et.
  destruct (truthy a0); cbn [negb]; [|discriminate].
  bind_inversion Es.
  destruct (Nat.ltb (List.length (trim a1)) 20) eqn:El; [discriminate|].
  bind_inversion Eh. intros [= <-].
  assert (a0 = VStr a1) as ->.
  { destruct a0; try discriminate. now injection Es as ->. }
  exists a, a1. apply Nat.ltb_ge in El. now repeat split.
Qed.

Lemma documentOf_Some (r : result jsstring) (h : jsstring) :
  documentOf r = Some h -> r = Ok h.
Proof. destruct r; [now intros [= ->] | discriminate]. Qed.

Lemma documentOfH_Some (r : result Hardened.attemptOutcome) (h : jsstring) :
  documentOfH r = Some h -> r = Ok (Hardened.Finalized h).
Proof. destruct r as [[|x]|]; try discriminate. now intros [= ->]. Qed.

Lemma continues_endsLoop (f : jsstring -> result jsstring) (l : list jsstring) :
  forallb (continues (fun m => documentOf (f m))) l
  = forallb (fun m => negb (endsLoop (f m))) l.
Proof.
  induction l as [|m r IH]; [reflexivity|]. cbn [forallb]. rewrite IH.
  f_equal. unfold continues. now destruct (f m).
Qed.

Lemma continues_endsLoopH (f : jsstring -> result Hardened.attemptOutcome)
  (l : list jsstring) :
  forallb (continues (fun m => documentOfH (f m))) l
  = forallb (fun m => negb (endsLoopH (f m))) l.
Proof.
  induction l as [|m r IH]; [reflexivity|]. cbn [forallb]. rewrite IH.
  f_equal. unfold continues. now destruct (f m) as [[|h]|].
Qed.

(** X10.  A handler answers 502 only after it has called every model of
    its list: the calls are those of the whole list, in order, no attempt
    has ended the loop, and the body names the last error and all the
    models. *)
Theorem X10_bad_gateway_after_all_models (fetch : OpenRouter.provider)
  (generateContent : Gemini.provider) (sdk : Hardened.provider) (reqBody : value) :
  (status (fst (OpenRouter.generate fetch reqBody)) = 502 ->
   exists prompt,
     OpenRouter.buildPrompt (OpenRouter.normalize (specOf reqBody)) = Ok prompt
     /\ forallb (fun m => negb (endsLoop
                   (OpenRouter.attempt fetch (specOf reqBody) prompt m)))
          OpenRouter.modelIds = true
     /\ OpenRouter.generate fetch reqBody
        = (exhausted
             (messageOf (lastThrown
                (map (fun m => errorOf
                        (OpenRouter.attempt fetch (specOf reqBody) prompt m))
                   OpenRouter.modelIds)))
             OpenRouter.modelIds,
           callsFor prompt OpenRouter.modelIds))
  /\ (status (fst (Gemini.generate generateContent reqBody)) = 502 ->
      exists prompt,
        Gemini.buildPrompt (OpenRouter.normalize (specOf reqBody)) = Ok prompt
        /\ forallb (fun m => negb (endsLoop
                      (Gemini.attempt generateContent (specOf reqBody) prompt m)))
             Gemini.modelIds = true
        /\ Gemini.generate generateContent reqBody
           = (exhausted
                (messageOf (lastThrown
                   (map (fun m => errorOf
                           (Gemini.attempt generateContent (specOf reqBody) prompt m))
                      Gemini.modelIds)))
                Gemini.modelIds,
              callsFor prompt Gemini.modelIds))
  /\ (status (fst (Render.generate fetch reqBody)) = 502 ->
      forallb (fun m => negb (endsLoop (Render.attempt fetch (specOf reqBody) m)))
        Render.modelIds = true
      /\ Render.generate fetch reqBody
         = (exhausted
              (messageOf (lastThrown
                 (map (fun m => errorOf (Render.attempt fetch (specOf reqBody) m))
                    Render.modelIds)))
              Render.modelIds,
            callsFor Render.prompt Render.modelIds))
  /\ (status (fst (Hardened.generate sdk reqBody)) = 502 ->
      exists safe,
        Hardened.normalize (specOf reqBody) = Ok safe
        /\ forallb (fun m => negb (endsLoopH
                      (Hardened.attempt sdk (specOf reqBody)
                         (Hardened.buildPrompt safe) m)))
             Hardened.modelIds = true
        /\ Hardened.generate sdk reqBody
           = (exhausted
                (messageOf (lastThrown
                   (map (fun m => errorOfH
                           (Hardened.attempt sdk (specOf reqBody)
                              (Hardened.buildPrompt safe) m))
                      Hardened.modelIds)))
                Hardened.modelIds,
              callsFor (Hardened.buildPrompt safe) Hardened.modelIds)).
Proof.
  split; [|split; [|split]].
  - destruct (OpenRouter_generate_cases fetch reqBody)
      as [[_ E]|[(e & _ & E)|(prompt & Hp & E)]]; rewrite E; cbn [fst];
      try discriminate.
    intros H.
    destruct (answerOf_502 _ prompt _ _
                (OpenRouter_iteration_spec fetch (specOf reqBody) prompt)
                OpenRouter.modelIds H) as (Hc & Hcalls & Hr).
    exists prompt. split; [exact Hp|]. rewrite continues_endsLoop in Hc.
    split; [exact Hc|]. unfold OpenRouter.fallback. now rewrite Hr, Hcalls.
  - destruct (Gemini_generate_cases generateContent reqBody)
      as [[_ E]|[(e & _ & E)|(prompt & Hp & E)]]; rewrite E; cbn [fst];
      try discriminate.
    intros H.
    destruct (answerOf_502 _ prompt _ _
                (Gemini_iteration_spec generateContent (specOf reqBody) prompt)
                Gemini.modelIds H) as (Hc & Hcalls & Hr).
    exists prompt. split; [exact Hp|]. rewrite continues_endsLoop in Hc.
    split; [exact Hc|]. unfold Gemini.fallback. now rewrite Hr, Hcalls.
  - destruct (Render_generate_cases fetch reqBody) as [[_ E]|[_ E]];
      rewrite E; cbn [fst]; try discriminate.
    intros H.
    destruct (answerOf_502 _ Render.prompt _ _
                (Render_iteration_spec fetch (specOf reqBody))
                Render.modelIds H) as (Hc & Hcalls & Hr).
    rewrite continues_endsLoop in Hc.
    split; [exact Hc|]. unfold Render.fallback. now rewrite Hr, Hcalls.
  - destruct (Hardened_generate_cases sdk reqBody)
      as [[_ E]|[(e & _ & E)|(safe & Hp & E)]]; rewrite E; cbn [fst];
      try discriminate.
    intros H.
    destruct (answerOf_502 _ (Hardened.buildPrompt safe) _ _
                (Hardened_iteration_spec sdk (specOf reqBody)
                   (Hardened.buildPrompt safe))
                Hardened.modelIds H) as (Hc & Hcalls & Hr).
    exists safe. split; [exact Hp|]. rewrite continues_endsLoopH in Hc.
    split; [exact Hc|]. unfold Hardened.fallback. now rewrite Hr, Hcalls.
Qed.

Lemma X10_bad_gateway_after_all_models_witness :
  (status (fst (OpenRouter.generate Examples.down
                  (Examples.request (VStr (lit "a bakery"))))) = 502
   /\ map fst (snd (OpenRouter.generate Examples.down
                      (Examples.request (VStr (lit "a bakery")))))
      = OpenRouter.modelIds)
  /\ (status (fst (Gemini.generate geminiDown
                     (Examples.request (VStr (lit "a bakery"))))) = 502
      /\ map fst (snd (Gemini.generate geminiDown
                         (Examples.request (VStr (lit "a bakery")))))
         = Gemini.modelIds)
  /\ (status (fst (Render.generate Examples.down
                     (Examples.request (VStr (lit "a bakery"))))) = 502
      /\ map fst (snd (Render.generate Examples.down
                         (Examples.request (VStr (lit "a bakery")))))
         = Render.modelIds)
  /\ (status (fst (Hardened.generate Examples.sdkDown
                     (Examples.request (VStr (lit "a bakery"))))) = 502
      /\ map fst (snd (Hardened.generate Examples.sdkDown
                         (Examples.request (VStr (lit "a bakery")))))
         = Hardened.modelIds).
Proof.
  destruct (X10_bad_gateway_after_all_models Examples.down geminiDown
              Examples.sdkDown (Examples.request (VStr (lit "a bakery"))))
    as (A & B & C & D).
  split; [|split; [|split]].
  - split; [vm_compute; reflexivity|].
    destruct (A ltac:(vm_compute; reflexivity)) as (p & _ & _ & E).
    rewrite E. reflexivity.
  - split; [vm_compute; reflexivity|].
    destruct (B ltac:(vm_compute; reflexivity)) as (p & _ & _ & E).
    rewrite E. reflexivity.
  - split; [vm_compute; reflexivity|].
    destruct (C ltac:(vm_compute; reflexivity)) as (_ & E).
    rewrite E. reflexivity.
  - split; [vm_compute; reflexivity|].
    destruct (D ltac:(vm_compute; reflexivity)) as (p & _ & _ & E).
    rewrite E. reflexivity.
Defined.

(** X11.  A handler answers 200 only with a document that one of the
    attempts it made has finalized: the html of the answer is the result
    of the attempt with a model of the list that was called, it is
    recognised as a complete document by [hasHtml], and it has at least
    20 characters. *)
Theorem X11_success_is_a_finalized_document (fetch : OpenRouter.provider)
  (generateContent : Gemini.provider) (sdk : Hardened.provider) (reqBody : value) :
  (status (fst (OpenRouter.generate fetch reqBody)) = 200 ->
   exists prompt m h,
     OpenRouter.attempt fetch (specOf reqBody) prompt m = Ok h
     /\ In (m, prompt) (snd (OpenRouter.generate fetch reqBody))
     /\ fst (OpenRouter.generate fetch reqBody) = success h
     /\ hasHtml h = true /\ (20 <= List.length h)%nat)
  /\ (status (fst (Gemini.generate generateContent reqBody)) = 200 ->
      exists prompt m h,
        Gemini.attempt generateContent (specOf reqBody) prompt m = Ok h
        /\ In (m, prompt) (snd (Gemini.generate generateContent reqBody))
        /\ fst (Gemini.generate generateContent reqBody) = success h
        /\ hasHtml h = true /\ (20 <= List.length h)%nat)
  /\ (status (fst (Render.generate fetch reqBody)) = 200 ->
      exists m h,
        Render.attempt fetch (specOf reqBody) m = Ok h
        /\ In (m, Render.prompt) (snd (Render.generate fetch reqBody))
        /\ fst (Render.generate fetch reqBody) = success h
        /\ hasHtml h = true /\ (20 <= List.length h)%nat)
  /\ (status (fst (Hardened.generate sdk reqBody)) = 200 ->
      exists prompt m h,
        Hardened.attempt sdk (specOf reqBody) prompt m = Ok (Hardened.Finalized h)
        /\ In (m, prompt) (snd (Hardened.generate sdk reqBody))
        /\ fst (Hardened.generate sdk reqBody) = success h
        /\ hasHtml h = true /\ (20 <= List.length h)%nat).
Proof.
  split; [|split; [|split]].
  - destruct (OpenRouter_generate_cases fetch reqBody)
      as [[_ E]|[(e & _ & E)|(prompt & Hp & E)]]; rewrite E; cbn [fst snd];
      try discriminate.
    intros H.
    destruct (answerOf_200 _ prompt _ _
                (OpenRouter_iteration_spec fetch (specOf reqBody) prompt)
                OpenRouter.modelIds H) as (h & m & Hr & _ & Hm & Hlen & Hin).
    apply documentOf_Some in Hm. exists prompt, m, h.
    split; [exact Hm|]. split; [exact Hin|]. split; [exact Hr|].
    split; [|exact Hlen].
    destruct (OpenRouter_attempt_result _ _ _ _ _ Hm) as (t & x & _ & _ & Hd).
    now apply OpenRouter_ensureFullDoc_result in Hd.
  - destruct (Gemini_generate_cases generateContent reqBody)
      as [[_ E]|[(e & _ & E)|(prompt & Hp & E)]]; rewrite E; cbn [fst snd];
      try discriminate.
    intros H.
    destruct (answerOf_200 _ prompt _ _
                (Gemini_iteration_spec generateContent (specOf reqBody) prompt)
                Gemini.modelIds H) as (h & m & Hr & _ & Hm & Hlen & Hin).
    apply documentOf_Some in Hm. exists prompt, m, h.
    split; [exact Hm|]. split; [exact Hin|]. split; [exact Hr|].
    split; [|exact Hlen].
    destruct (Gemini_attempt_result _ _ _ _ _ Hm) as (r & t & x & _ & _ & _ & Hd).
    now apply Gemini_ensureFullDoc_result in Hd.
  - destruct (Render_generate_cases fetch reqBody) as [[_ E]|[_ E]];
      rewrite E; cbn [fst snd]; try discriminate.
    intros H.
    destruct (answerOf_200 _ Render.prompt _ _
                (Render_iteration_spec fetch (specOf reqBody))
                Render.modelIds H) as (h & m & Hr & _ & Hm & Hlen & Hin).
    apply documentOf_Some in Hm. exists m, h.
    split; [exact Hm|]. split; [exact Hin|]. split; [exact Hr|].
    split; [|exact Hlen].
    destruct (Render_attempt_result _ _ _ _ Hm) as (t & x & _ & _ & Hd).
    now apply OpenRouter_ensureFullDoc_result in Hd.
  - destruct (Hardened_generate_cases sdk reqBody)
      as [[_ E]|[(e & _ & E)|(safe & Hp & E)]]; rewrite E; cbn [fst snd];
      try discriminate.
    intros H.
    destruct (answerOf_200 _ (Hardened.buildPrompt safe) _ _
                (Hardened_iteration_spec sdk (specOf reqBody)
                   (Hardened.buildPrompt safe))
                Hardened.modelIds H) as (h & m & Hr & _ & Hm & Hlen & Hin).
    apply documentOfH_Some in Hm. exists (Hardened.buildPrompt safe), m, h.
    split; [exact Hm|]. split; [exact Hin|]. split; [exact Hr|].
    split; [|exact Hlen].
    destruct (Hardened_attempt_result _ _ _ _ _ Hm) as (r & t & _ & _ & _ & Hd).
    now apply Hardened_ensureFullDoc_result in Hd.
Qed.

Lemma X11_success_is_a_finalized_document_witness :
  (status (fst (OpenRouter.generate (Examples.answers Examples.page)
                  (Examples.request (VStr (lit "a bakery"))))) = 200
   /\ exists h,
        fst (OpenRouter.generate (Examples.answers Examples.page)
               (Examples.request (VStr (lit "a bakery")))) = success h
        /\ hasHtml h = true)
  /\ (status (fst (Gemini.generate (geminiAnswers Examples.page)
                     (Examples.request (VStr (lit "a bakery"))))) = 200
      /\ exists h,
           fst (Gemini.generate (geminiAnswers Examples.page)
                  (Examples.request (VStr (lit "a bakery")))) = success h
           /\ hasHtml h = true)
  /\ (status (fst (Render.generate (Examples.answers Examples.page)
                     (Examples.request (VStr (lit "a bakery"))))) = 200
      /\ exists h,
           fst (Render.generate (Examples.answers Examples.page)
                  (Examples.request (VStr (lit "a bakery")))) = success h
           /\ hasHtml h = true)
  /\ (status (fst (Hardened.generate (Examples.sdkAnswers Examples.page)
                     (Examples.request (VStr (lit "a bakery"))))) = 200
      /\ exists h,
           fst (Hardened.generate (Examples.sdkAnswers Examples.page)
                  (Examples.request (VStr (lit "a bakery")))) = success h
           /\ hasHtml h = true).
Proof.
  destruct (X11_success_is_a_finalized_document (Examples.answers Examples.page)
              (geminiAnswers Examples.page) (Examples.sdkAnswers Examples.page)
              (Examples.request (VStr (lit "a bakery"))))
    as (A & B & C & D).
  split; [|split; [|split]].
  - split; [vm_compute; reflexivity|].
    destruct (A ltac:(vm_compute; reflexivity)) as (p & m & h & _ & _ & E & H & _).
    exists h. split; [exact E | exact H].
  - split; [vm_compute; reflexivity|].
    destruct (B ltac:(vm_compute; reflexivity)) as (p & m & h & _ & _ & E & H & _).
    exists h. split; [exact E | exact H].
  - split; [vm_compute; reflexivity|].
    destruct (C ltac:(vm_compute; reflexivity)) as (m & h & _ & _ & E & H & _).
    exists h. split; [exact E | exact H].
  - split; [vm_compute; reflexivity|].
    destruct (D ltac:(vm_compute; reflexivity)) as (p & m & h & _ & _ & E & H & _).
    exists h. split; [exact E | exact H].
Defined.

(** *** Errors before the loop *)

Lemma answerOf_status (st : loopState) :
  status (answerOf st) = 200 \/ status (answerOf st) = 502.
Proof. unfold answerOf. destruct (unusable (html st)); [now right | now left]. Qed.

(** X12.  A handler answers 500 exactly when the brief is truthy and
    building the prompt (in the hardened server, normalizing the spec)
    throws, which depends on the request alone; no model is called then.
    A failure of a provider never gives a 500, and the server with the
    constant prompt never answers 500. *)
Theorem X12_internal_error_before_any_call (fetch : OpenRouter.provider)
  (generateContent : Gemini.provider) (sdk : Hardened.provider) (reqBody : value) :
  ((status (fst (OpenRouter.generate fetch reqBody)) = 500
    <-> truthy (briefOf reqBody) = true
        /\ exists e,
             OpenRouter.buildPrompt (OpenRouter.normalize (specOf reqBody)) = Throw e)
   /\ (status (fst (OpenRouter.generate fetch reqBody)) = 500 ->
       snd (OpenRouter.generate fetch reqBody) = []))
  /\ ((status (fst (Gemini.generate generateContent reqBody)) = 500
       <-> truthy (briefOf reqBody) = true
           /\ exists e,
                Gemini.buildPrompt (OpenRouter.normalize (specOf reqBody)) = Throw e)
      /\ (status (fst (Gemini.generate generateContent reqBody)) = 500 ->
          snd (Gemini.generate generateContent reqBody) = []))
  /\ ((status (fst (Hardened.generate sdk reqBody)) = 500
       <-> truthy (briefOf reqBody) = true
           /\ exists e, Hardened.normalize (specOf reqBody) = Throw e)
      /\ (status (fst (Hardened.generate sdk reqBody)) = 500 ->
          snd (Hardened.generate sdk reqBody) = []))
  /\ status (fst (Render.generate fetch reqBody)) <> 500.
Proof.
  split; [|split; [|split]].
  - unfold OpenRouter.generate.
    change (getOpt (or_ reqBody (VObj [])) (lit "spec")) with (specOf reqBody).
    change (getOpt (specOf reqBody) (lit "brief")) with (briefOf reqBody).
    destruct (truthy (briefOf reqBody)); cbn [negb fst snd].
    + destruct (OpenRouter.buildPrompt _) as [prompt|e]; cbn [fst snd].
      * change (OpenRouter.respond ?st) with (answerOf st).
        split; [split|].
        -- intros H. destruct (answerOf_status
             (OpenRouter.fallback fetch (specOf reqBody) prompt OpenRouter.modelIds))
             as [Z|Z]; rewrite Z in H; discriminate.
        -- intros [_ [e He]]. discriminate.
        -- intros H. destruct (answerOf_status
             (OpenRouter.fallback fetch (specOf reqBody) prompt OpenRouter.modelIds))
             as [Z|Z]; rewrite Z in H; discriminate.
      * split; [split|]; [intros _; split; [reflexivity | now exists e] | reflexivity
                         | reflexivity].
    + split; [split|]; [discriminate | intros [H _]; discriminate | reflexivity].
  - unfold Gemini.generate.
    change (getOpt (or_ reqBody (VObj [])) (lit "spec")) with (specOf reqBody).
    change (getOpt (specOf reqBody) (lit "brief")) with (briefOf reqBody).
    destruct (truthy (briefOf reqBody)); cbn [negb fst snd].
    + destruct (Gemini.buildPrompt _) as [prompt|e]; cbn [fst snd].
      * change (Gemini.respond ?st) with (answerOf st).
        split; [split|].
        -- intros H. destruct (answerOf_status
             (Gemini.fallback generateContent (specOf reqBody) prompt Gemini.modelIds))
             as [Z|Z]; rewrite Z in H; discriminate.
        -- intros [_ [e He]]. discriminate.
        -- intros H. destruct (answerOf_status
             (Gemini.fallback generateContent (specOf reqBody) prompt Gemini.modelIds))
             as [Z|Z]; rewrite Z in H; discriminate.
      * split; [split|]; [intros _; split; [reflexivity | now exists e] | reflexivity
                         | reflexivity].
    + split; [split|]; [discriminate | intros [H _]; discriminate | reflexivity].
  - unfold Hardened.generate.
    change (getOpt (or_ reqBody (VObj [])) (lit "spec")) with (specOf reqBody).
    change (getOpt (specOf reqBody) (lit "brief")) with (briefOf reqBody).
    destruct (truthy (briefOf reqBody)); cbn [negb fst snd].
    + destruct (Hardened.normalize _) as [safe|e]; cbn [fst snd].
      * change (Hardened.respond ?st) with (answerOf st).
        split; [split|].
        -- intros H. destruct (answerOf_status
             (Hardened.fallback sdk (specOf reqBody) (Hardened.buildPrompt safe)
                Hardened.modelIds)) as [Z|Z]; rewrite Z in H; discriminate.
        -- intros [_ [e He]]. discriminate.
        -- intros H. destruct (answerOf_status
             (Hardened.fallback sdk (specOf reqBody) (Hardened.buildPrompt safe)
                Hardened.modelIds)) as [Z|Z]; rewrite Z in H; discriminate.
      * split; [split|]; [intros _; split; [reflexivity | now exists e] | reflexivity
                         | reflexivity].
    + split; [split|]; [discriminate | intros [H _]; discriminate | reflexivity].
  - destruct (Render_generate_cases fetch reqBody) as [[_ E]|[_ E]];
      rewrite E; cbn [fst]; [discriminate|].
    intros H. destruct (answerOf_status
      (Render.fallback fetch (specOf reqBody) Render.modelIds)) as [Z|Z];
      rewrite Z in H; discriminate.
Qed.

Lemma X12_internal_error_before_any_call_witness :
  (status (fst (OpenRouter.generate (Examples.answers Examples.page)
                  (Examples.request hostile))) = 500
   /\ snd (OpenRouter.generate (Examples.answers Examples.page)
             (Examples.request hostile)) = [])
  /\ (status (fst (Gemini.generate (geminiAnswers Examples.page)
                     (Examples.request hostile))) = 500
      /\ snd (Gemini.generate (geminiAnswers Examples.page)
                (Examples.request hostile)) = [])
  /\ (status (fst (Hardened.generate (Examples.sdkAnswers Examples.page)
                     (Examples.request hostile))) = 500
      /\ snd (Hardened.generate (Examples.sdkAnswers Examples.page)
                (Examples.request hostile)) = []).
Proof.
  destruct (X12_internal_error_before_any_call (Examples.answers Examples.page)
              (geminiAnswers Examples.page) (Examples.sdkAnswers Examples.page)
              (Examples.request hostile)) as ((_ & A) & (_ & B) & (_ & C) & _).
  split; [|split].
  - split; [vm_compute; reflexivity | apply A; vm_compute; reflexivity].
  - split; [vm_compute; reflexivity | apply B; vm_compute; reflexivity].
  - split; [vm_compute; reflexivity | apply C; vm_compute; reflexivity].
Defined.

Lemma ToString_absentOrString (v : value) (d : jsstring) :
  absentOrString v = true -> exists s, ToString (or_ v (VStr d)) = Ok s.
Proof.
  destruct v; try discriminate; intros _.
  - now exists d.
  - unfold or_. destruct (truthy (VStr s)); now eexists.
Qed.

Lemma joinWith_cons (toStr : value -> result jsstring) (sep : jsstring)
  (x : value) (r : list value) :
  joinWith toStr sep (x :: r)
  = (s <- (if nullish x then Ok [] else toStr x) ;;
     match r with
     | [] => Ok s
     | _ :: _ => t <- joinWith toStr sep r ;; Ok (s ++ sep ++ t)
     end).
Proof. reflexivity. Qed.

Lemma join_strings (sep : jsstring) (items : list value) :
  forallb isString items = true -> exists s, join sep items = Ok s.
Proof.
  unfold join. induction items as [|x r IH]; [now exists []|].
  cbn [forallb]. intros H. apply andb_true_iff in H. destruct H as [Hx Hr].
  destruct x; try discriminate. destruct (IH Hr) as [t Ht].
  rewrite joinWith_cons. cbn [nullish ToString bind].
  destruct r as [|y r']; [now eexists|].
  rewrite Ht. cbn [bind]. now eexists.
Qed.

Lemma strings_are_mapped (items : list value) :
  forallb isString items = true -> exists names, items = map VStr names.
Proof.
  induction items as [|x r IH]; [now exists []|]. cbn [forallb].
  intros H. apply andb_true_iff in H. destruct H as [Hx Hr].
  destruct x; try discriminate. destruct (IH Hr) as [names ->].
  now exists (s :: names).
Qed.

Lemma stringSpec_fields (spec : value) :
  stringSpec spec = true ->
  absentOrString (getOpt spec (lit "projectName")) = true
  /\ absentOrString (getOpt spec (lit "brief")) = true
  /\ absentOrString (getOpt spec (lit "primaryColor")) = true
  /\ absentOrString (getOpt spec (lit "style")) = true
  /\ absentOrString (getOpt spec (lit "tone")) = true
  /\ match getOpt spec (lit "pages") with
     | VArr items => forallb isString items
     | _ => true
     end = true.
Proof.
  unfold stringSpec. intros H.
  repeat (apply andb_true_iff in H; destruct H as [H ?]). now repeat split.
Qed.

Lemma OpenRouter_prompt_of_strings (spec : value) :
  stringSpec spec = true ->
  exists prompt, OpenRouter.buildPrompt (OpenRouter.normalize spec) = Ok prompt.
Proof.
  intros H. destruct (stringSpec_fields spec H) as (H1 & H2 & H3 & H4 & H5 & H6).
  unfold OpenRouter.buildPrompt, OpenRouter.normalize.
  cbn [OpenRouter.pages OpenRouter.primaryColor OpenRouter.style OpenRouter.tone
       OpenRouter.projectName OpenRouter.brief].
  assert (J : exists s, join (lit ", ")
                          match getOpt spec (lit "pages") with
                          | VArr items => items
                          | _ => []
                          end = Ok s).
  { destruct (getOpt spec (lit "pages")); try (now exists []).
    now apply join_strings. }
  destruct J as [p ->].
  destruct (ToString_absentOrString _ (lit "#4f46e5") H3) as [c ->].
  destruct (ToString_absentOrString _ (lit "modern, clean") H4) as [s ->].
  destruct (ToString_absentOrString _ (lit "professional") H5) as [t ->].
  destruct (ToString_absentOrString _ (lit "Website") H1) as [n ->].
  destruct (ToString_absentOrString _ [] H2) as [b ->].
  cbn [bind]. now eexists.
Qed.

Lemma Gemini_prompt_of_strings (spec : value) :
  stringSpec spec = true ->
  exists prompt, Gemini.buildPrompt (OpenRouter.normalize spec) = Ok prompt.
Proof.
  intros H. destruct (stringSpec_fields spec H) as (H1 & H2 & H3 & H4 & H5 & H6).
  unfold Gemini.buildPrompt, OpenRouter.normalize.
  cbn [OpenRouter.pages OpenRouter.primaryColor OpenRouter.style OpenRouter.tone
       OpenRouter.projectName OpenRouter.brief].
  assert (J : exists s, join (lit ", ")
                          match getOpt spec (lit "pages") with
                          | VArr items => items
                          | _ => []
                          end = Ok s).
  { destruct (getOpt spec (lit "pages")); try (now exists []).
    now apply join_strings. }
  destruct J as [p ->].
  destruct (ToString_absentOrString _ (lit "#4f46e5") H3) as [c ->].
  destruct (ToString_absentOrString _ (lit "modern, clean") H4) as [s ->].
  destruct (ToString_absentOrString _ (lit "professional") H5) as [t ->].
  destruct (ToString_absentOrString _ (lit "Website") H1) as [n ->].
  destruct (ToString_absentOrString _ [] H2) as [b ->].
  cbn [bind]. now eexists.
Qed.

Lemma Hardened_normalize_of_strings (spec : value) :
  stringSpec spec = true -> exists safe, Hardened.normalize spec = Ok safe.
Proof.
  intros H. destruct (stringSpec_fields spec H) as (H1 & H2 & H3 & H4 & H5 & H6).
  unfold Hardened.normalize.
  destruct (ToString_absentOrString _ (lit "Website") H1) as [n ->].
  destruct (ToString_absentOrString _ [] H2) as [b ->].
  destruct (ToString_absentOrString _ (lit "#4f46e5") H3) as [c ->].
  destruct (ToString_absentOrString _ (lit "modern, clean") H4) as [s ->].
  destruct (ToString_absentOrString _ (lit "professional") H5) as [t ->].
  cbn [bind].
  destruct (getOpt spec (lit "pages")); cbn [bind]; try (now eexists).
  destruct (strings_are_mapped _ H6) as [names ->].
  rewrite kebabAll_strings. cbn [bind]. now eexists.
Qed.

(** X13.  A request whose text fields are absent or strings and whose
    pages are strings is never answered 500: with a brief that is not
    empty the answer is 200 or 502, whatever the providers do. *)
Theorem X13_string_specs_never_500 (fetch : OpenRouter.provider)
  (generateContent : Gemini.provider) (sdk : Hardened.provider) (reqBody : value) :
  stringSpec (specOf reqBody) = true ->
  truthy (briefOf reqBody) = true ->
  (status (fst (OpenRouter.generate fetch reqBody)) = 200
   \/ status (fst (OpenRouter.generate fetch reqBody)) = 502)
  /\ (status (fst (Gemini.generate generateContent reqBody)) = 200
      \/ status (fst (Gemini.generate generateContent reqBody)) = 502)
  /\ (status (fst (Hardened.generate sdk reqBody)) = 200
      \/ status (fst (Hardened.generate sdk reqBody)) = 502).
Proof.
  intros Hs Hb. split; [|split].
  - destruct (OpenRouter_prompt_of_strings _ Hs) as [p Hp].
    destruct (OpenRouter_generate_cases fetch reqBody)
      as [[F _]|[(e & He & _)|(prompt & _ & E)]]; [congruence | congruence|].
    rewrite E. apply answerOf_status.
  - destruct (Gemini_prompt_of_strings _ Hs) as [p Hp].
    destruct (Gemini_generate_cases generateContent reqBody)
      as [[F _]|[(e & He & _)|(prompt & _ & E)]]; [congruence | congruence|].
    rewrite E. apply answerOf_status.
  - destruct (Hardened_normalize_of_strings _ Hs) as [p Hp].
    destruct (Hardened_generate_cases sdk reqBody)
      as [[F _]|[(e & He & _)|(safe & _ & E)]]; [congruence | congruence|].
    rewrite E. apply answerOf_status.
Qed.

Lemma X13_string_specs_never_500_witness :
  stringSpec (specOf (Examples.request (VStr (lit "a bakery")))) = true
  /\ truthy (briefOf (Examples.request (VStr (lit "a bakery")))) = true
  /\ (status (fst (OpenRouter.generate Examples.down
                     (Examples.request (VStr (lit "a bakery"))))) = 200
      \/ status (fst (OpenRouter.generate Examples.down
                        (Examples.request (VStr (lit "a bakery"))))) = 502).
Proof.
  split; [reflexivity|]. split; [reflexivity|].
  exact (proj1 (X13_string_specs_never_500 Examples.down geminiDown Examples.sdkDown
                  (Examples.request (VStr (lit "a bakery"))) eq_refl eq_refl)).
Defined.

(** X14.  In the three servers that set no minimum on the text of the
    model, an attempt that returns a document of at most 50 characters
    returns a text the model wrote as a complete document: every other
    text, the empty one included, comes back inside a shell of more than
    50 characters, which ends the loop. *)
Theorem X14_only_model_documents_are_short (fetch : OpenRouter.provider)
  (generateContent : Gemini.provider) (spec : value) (prompt m h : jsstring) :
  longEnough h = false ->
  (OpenRouter.attempt fetch spec prompt m = Ok h ->
   hasHtml h = true
   /\ exists text,
        OpenRouter.callOpenRouter fetch m prompt = Ok text
        /\ OpenRouter.stripFencesOf text = Ok h)
  /\ (Gemini.attempt generateContent spec prompt m = Ok h ->
      hasHtml h = true
      /\ exists result text,
           generateContent m prompt = Ok result
           /\ Gemini.textOf result = Ok text
           /\ Gemini.stripFencesOf text = Ok h)
  /\ (Render.attempt fetch spec m = Ok h ->
      hasHtml h = true
      /\ exists text,
           Render.callOpenRouter fetch m Render.prompt = Ok text
           /\ OpenRouter.stripFencesOf text = Ok h).
Proof.
  intros Hshort. split; [|split]; intros H.
  - destruct (OpenRouter_attempt_result _ _ _ _ _ H) as (t & x & Ht & Hx & Hd).
    destruct (OpenRouter_ensureFullDoc_result _ _ _ Hd) as [Hh [->|[_ Hl]]];
      [|congruence].
    split; [exact Hh|]. now exists t.
  - destruct (Gemini_attempt_result _ _ _ _ _ H) as (r & t & x & Hr & Ht & Hx & Hd).
    destruct (Gemini_ensureFullDoc_result _ _ _ Hd) as [Hh [->|[_ Hl]]];
      [|congruence].
    split; [exact Hh|]. now exists r, t.
  - destruct (Render_attempt_result _ _ _ _ H) as (t & x & Ht & Hx & Hd).
    destruct (OpenRouter_ensureFullDoc_result _ _ _ Hd) as [Hh [->|[_ Hl]]];
      [|congruence].
    split; [exact Hh|]. now exists t.
Qed.

Lemma X14_only_model_documents_are_short_witness :
  longEnough (lit "<html>hi</html>") = false
  /\ OpenRouter.attempt (Examples.answers (lit "<html>hi</html>")) VNull []
       (lit "openai/gpt-4o") = Ok (lit "<html>hi</html>")
  /\ hasHtml (lit "<html>hi</html>") = true.
Proof.
  split; [reflexivity|]. split; [vm_compute; reflexivity|].
  exact (proj1 (proj1 (X14_only_model_documents_are_short
                         (Examples.answers (lit "<html>hi</html>"))
                         (geminiAnswers (lit "<html>hi</html>")) VNull []
                         (lit "openai/gpt-4o") (lit "<html>hi</html>") eq_refl)
                  ltac:(vm_compute; reflexivity))).
Defined.

(** X15.  The hardened server finalizes only a text that is a string with
    at least 20 characters after trimming: a document it puts into [html]
    is the result of [ensureFullDoc] on such a text with its fences
    removed, so it is that text or a shell around it. *)
Theorem X15_hardened_minimum_text (sdk : Hardened.provider) (spec : value)
  (prompt m h : jsstring) :
  Hardened.attempt sdk spec prompt m = Ok (Hardened.Finalized h) ->
  exists result t,
    Hardened.withTimeout (sdk m prompt) = Ok result
    /\ Hardened.extractTextFromModelResult result = Ok (VStr t)
    /\ (20 <= List.length (trim t))%nat
    /\ hasHtml h = true
    /\ (h = Hardened.stripFences t
        \/ hasHtml (Hardened.stripFences t) = false /\ longEnough h = true).
Proof.
  intros H. destruct (Hardened_attempt_result _ _ _ _ _ H) as (r & t & Hr & Ht & Hl & Hd).
  exists r, t. split; [exact Hr|]. split; [exact Ht|]. split; [exact Hl|].
  now apply Hardened_ensureFullDoc_result in Hd.
Qed.

Lemma X15_hardened_minimum_text_witness :
  Hardened.attempt (Examples.sdkAnswers Examples.page) VNull []
    (lit "gemini-2.0-flash") = Ok (Hardened.Finalized Examples.page)
  /\ exists t,
       Hardened.extractTextFromModelResult (Examples.sdkResult Examples.page)
       = Ok (VStr t)
       /\ (20 <= List.length (trim t))%nat.
Proof.
  split; [vm_compute; reflexivity|].
  destruct (X15_hardened_minimum_text (Examples.sdkAnswers Examples.page) VNull []
              (lit "gemini-2.0-flash") Examples.page
              ltac:(vm_compute; reflexivity))
    as (r & t & Hr & Ht & Hl & _).
  exists t. injection Hr as <-. split; [exact Ht | exact Hl].
Defined.

(** *** The last document decides *)

Section LastDocument.

Variable body : jsstring -> loopState -> loopState * bool.
Variable prompt : jsstring.
Variable newHtml : jsstring -> option jsstring.
Variable newErr : jsstring -> option exn.

Hypothesis body_spec : forall m st,
  body m st
  = ({| html := laterHtml (html st) (newHtml m);
        lastErr := laterError (lastErr st) (newErr m);
        tried := tried st ++ [m];
        calls := calls st ++ [(m, prompt)] |},
     match newHtml m with Some h => longEnough h | None => false end).

Lemma laterHtml_none (after : list jsstring) (h : jsstring) :
  forallb (fun k => noDocument (newHtml k)) after = true ->
  fold_left laterHtml (map newHtml after) h = h.
Proof.
  induction after as [|k r IH]; [reflexivity|]. cbn [forallb map fold_left].
  intros H. apply andb_true_iff in H. destruct H as [Hk Hr].
  destruct (newHtml k); [discriminate|]. now apply IH.
Qed.

Lemma forOf_last_document (before after : list jsstring) (m h : jsstring) :
  forallb (continues newHtml) before = true ->
  newHtml m = Some h ->
  longEnough h = false ->
  forallb (fun k => noDocument (newHtml k)) after = true ->
  html (forOf body (before ++ m :: after) initialState) = h
  /\ calls (forOf body (before ++ m :: after) initialState)
     = callsFor prompt (before ++ m :: after).
Proof.
  intros Hb Hm Hl Ha.
  assert (C : forallb (continues newHtml) (before ++ m :: after) = true).
  { rewrite forallb_app, Hb. cbn [forallb andb]. unfold continues at 1.
    rewrite Hm, Hl. cbn [negb andb].
    rewrite forallb_forall in *. intros k Hk. specialize (Ha k Hk).
    unfold continues. now destruct (newHtml k). }
  rewrite (forOf_continues body prompt newHtml newErr body_spec _ _ C).
  cbn [html calls initialState app]. split; [|reflexivity].
  rewrite map_app, fold_left_app. cbn [map fold_left]. rewrite Hm.
  cbn [laterHtml]. now apply laterHtml_none.
Qed.

End LastDocument.

(** X16.  When no document is longer than 50 characters, the loop runs to
    the end of the list and the answer is decided by the last document an
    attempt finalized, not by the best one: the html after the loop is the
    result of the last attempt that returned, and the answer is 502 when
    that result is shorter than 20 characters, whatever the earlier
    attempts gave. *)
Theorem X16_last_document_decides (fetch : OpenRouter.provider)
  (sdk : Hardened.provider) (spec : value) (prompt : jsstring)
  (before after : list jsstring) (m h : jsstring) :
  longEnough h = false ->
  (forallb (fun k => negb (endsLoop (OpenRouter.attempt fetch spec prompt k)))
     before = true ->
   OpenRouter.attempt fetch spec prompt m = Ok h ->
   forallb (fun k => noDocument (documentOf (OpenRouter.attempt fetch spec prompt k)))
     after = true ->
   html (OpenRouter.fallback fetch spec prompt (before ++ m :: after)) = h
   /\ calls (OpenRouter.fallback fetch spec prompt (before ++ m :: after))
      = callsFor prompt (before ++ m :: after)
   /\ status (OpenRouter.respond
                (OpenRouter.fallback fetch spec prompt (before ++ m :: after)))
      = if unusable h then 502 else 200)
  /\ (forallb (fun k => negb (endsLoopH (Hardened.attempt sdk spec prompt k)))
        before = true ->
      Hardened.attempt sdk spec prompt m = Ok (Hardened.Finalized h) ->
      forallb (fun k => noDocument (documentOfH (Hardened.attempt sdk spec prompt k)))
        after = true ->
      html (Hardened.fallback sdk spec prompt (before ++ m :: after)) = h
      /\ calls (Hardened.fallback sdk spec prompt (before ++ m :: after))
         = callsFor prompt (before ++ m :: after)
      /\ status (Hardened.respond
                   (Hardened.fallback sdk spec prompt (before ++ m :: after)))
         = if unusable h then 502 else 200).
Proof.
  intros Hl. split; intros Hb Hm Ha.
  - rewrite <- continues_endsLoop in Hb.
    assert (Hm' : documentOf (OpenRouter.attempt fetch spec prompt m) = Some h)
      by now rewrite Hm.
    destruct (forOf_last_document _ prompt
                (fun k => documentOf (OpenRouter.attempt fetch spec prompt k))
                (fun k => errorOf (OpenRouter.attempt fetch spec prompt k))
                (OpenRouter_iteration_spec fetch spec prompt) before after m h
                Hb Hm' Hl Ha) as [E1 E2].
    split; [exact E1|]. split; [exact E2|].
    unfold OpenRouter.respond, OpenRouter.fallback in *. rewrite E1.
    now destruct (unusable h).
  - rewrite <- continues_endsLoopH in Hb.
    assert (Hm' : documentOfH (Hardened.attempt sdk spec prompt m) = Some h)
      by now rewrite Hm.
    destruct (forOf_last_document _ prompt
                (fun k => documentOfH (Hardened.attempt sdk spec prompt k))
                (fun k => errorOfH (Hardened.attempt sdk spec prompt k))
                (Hardened_iteration_spec sdk spec prompt) before after m h
                Hb Hm' Hl Ha) as [E1 E2].
    split; [exact E1|]. split; [exact E2|].
    unfold Hardened.respond. unfold Hardened.fallback in *. rewrite E1.
    now destruct (unusable h).
Qed.

(** The first model gives a usable document of 33 characters, the second
    one of 13 characters, the others fail: the answer is 502. *)
Lemma X16_last_document_decides_witness :
  longEnough (lit "<html></html>") = false
  /\ OpenRouter.attempt shrinking VNull [] (lit "x-ai/grok-code-fast-1")
     = Ok (lit "<html><body>hello!!</body></html>")
  /\ OpenRouter.attempt shrinking VNull [] (lit "openai/gpt-4o")
     = Ok (lit "<html></html>")
  /\ html (OpenRouter.fallback shrinking VNull [] OpenRouter.modelIds)
     = lit "<html></html>"
  /\ status (OpenRouter.respond
               (OpenRouter.fallback shrinking VNull [] OpenRouter.modelIds)) = 502
  /\ Hardened.attempt sdkFencedShort VNull [] (lit "gemini-1.5-flash")
     = Ok (Hardened.Finalized (lit "<html></html>"))
  /\ status (Hardened.respond
               (Hardened.fallback sdkFencedShort VNull [] Hardened.modelIds)) = 502.
Proof.
  split; [reflexivity|]. split; [vm_compute; reflexivity|].
  split; [vm_compute; reflexivity|].
  destruct (X16_last_document_decides shrinking sdkFencedShort VNull []
              [lit "x-ai/grok-code-fast-1"]
              [lit "anthropic/claude-3.5-sonnet"; lit "deepseek/deepseek-chat"]
              (lit "openai/gpt-4o") (lit "<html></html>") eq_refl) as [P _].
  destruct (P ltac:(vm_compute; reflexivity) ltac:(vm_compute; reflexivity)
              ltac:(vm_compute; reflexivity)) as (A & _ & C).
  split; [exact A|]. split; [exact C|]. split; [vm_compute; reflexivity|].
  destruct (X16_last_document_decides Examples.down sdkFencedShort VNull []
              [lit "gemini-2.0-flash-exp"; lit "gemini-2.0-flash"] []
              (lit "gemini-1.5-flash") (lit "<html></html>") eq_refl) as [_ Q].
  destruct (Q ltac:(vm_compute; reflexivity) ltac:(vm_compute; reflexivity)
              ltac:(vm_compute; reflexivity)) as (_ & _ & D).
  exact D.
Defined.

(** *** The first Gemini server and the server with the constant prompt *)

Lemma Gemini_textOf_missing (result : value) :
  truthy (getOpt (getOpt result (lit "response")) (lit "text")) = false ->
  Gemini.textOf result = Ok (VStr []).
Proof. unfold Gemini.textOf. now intros ->. Qed.

(** X17.  The first Gemini server takes a result without text for a
    success: when the result of the first model has no [response.text],
    the text is the empty string, [ensureFullDoc] puts it into the shell,
    and the handler answers 200 with a page whose body is empty after a
    single call. *)
Theorem X17_gemini_accepts_missing_text (generateContent : Gemini.provider)
  (reqBody result : value) (prompt t : jsstring) :
  truthy (briefOf reqBody) = true ->
  Gemini.buildPrompt (OpenRouter.normalize (specOf reqBody)) = Ok prompt ->
  generateContent (lit "gemini-2.0-flash-exp") prompt = Ok result ->
  truthy (getOpt (getOpt result (lit "response")) (lit "text")) = false ->
  Gemini.titleOf (defaultObj (specOf reqBody)) = Ok t ->
  Gemini.generate generateContent reqBody
  = (success (Gemini.shell (escapeHtmlAttr t) []),
     [(lit "gemini-2.0-flash-exp", prompt)]).
Proof.
  intros Hb Hp Hr Ht Htitle.
  assert (A : Gemini.attempt generateContent (specOf reqBody) prompt
                (lit "gemini-2.0-flash-exp")
              = Ok (Gemini.shell (escapeHtmlAttr t) [])).
  { unfold Gemini.attempt. rewrite Hr. cbn [bind].
    rewrite (Gemini_textOf_missing _ Ht). cbn [bind].
    unfold Gemini.stripFencesOf. cbn [asString bind].
    change (Gemini.stripFences []) with (@nil N).
    rewrite Gemini_ensureFullDoc_wraps by reflexivity.
    now rewrite Htitle. }
  unfold Gemini.generate.
  change (getOpt (or_ reqBody (VObj [])) (lit "spec")) with (specOf reqBody).
  change (getOpt (specOf reqBody) (lit "brief")) with (briefOf reqBody).
  rewrite Hb, Hp. cbn [negb].
  assert (F : Gemini.fallback generateContent (specOf reqBody) prompt Gemini.modelIds
              = {| html := Gemini.shell (escapeHtmlAttr t) [];
                   lastErr := None;
                   tried := [lit "gemini-2.0-flash-exp"];
                   calls := [(lit "gemini-2.0-flash-exp", prompt)] |}).
  { unfold Gemini.fallback.
    change Gemini.modelIds
      with ([] ++ lit "gemini-2.0-flash-exp"
               :: [lit "gemini-2.0-flash"; lit "gemini-1.5-flash"]).
    rewrite (forOf_breaks _ prompt
               (fun k => documentOf
                           (Gemini.attempt generateContent (specOf reqBody) prompt k))
               (fun k => errorOf
                           (Gemini.attempt generateContent (specOf reqBody) prompt k))
               (Gemini_iteration_spec generateContent (specOf reqBody) prompt)
               [] _ (lit "gemini-2.0-flash-exp") (Gemini.shell (escapeHtmlAttr t) [])).
    - rewrite A. reflexivity.
    - reflexivity.
    - now rewrite A.
    - apply Gemini_shell_long. }
  rewrite F. unfold Gemini.respond. cbn [html calls].
  now rewrite (usable_long _ (Gemini_shell_long _ _)).
Qed.

Lemma X17_gemini_accepts_missing_text_witness :
  Gemini.textOf (VObj []) = Ok (VStr [])
  /\ fst (Gemini.generate geminiSilent (Examples.request (VStr (lit "a bakery"))))
     = success (Gemini.shell (lit "Website") [])
  /\ List.length
       (snd (Gemini.generate geminiSilent (Examples.request (VStr (lit "a bakery")))))
     = 1%nat.
Proof.
  split; [reflexivity|].
  destruct (Gemini.buildPrompt
              (OpenRouter.normalize (specOf (Examples.request (VStr (lit "a bakery"))))))
    as [prompt|e] eqn:E; [|vm_compute in E; discriminate].
  rewrite (X17_gemini_accepts_missing_text geminiSilent
             (Examples.request (VStr (lit "a bakery"))) (VObj []) prompt
             (lit "Website") eq_refl E eq_refl eq_refl eq_refl).
  split; reflexivity.
Defined.

(** X18.  The first Gemini server and the server with the constant prompt
    validate as the other two: a request whose [spec?.brief] is falsy is
    answered 400 with the fixed body and without a call, and no other
    request is answered 400. *)
Theorem X18_validation_of_the_other_servers (generateContent : Gemini.provider)
  (fetch : OpenRouter.provider) (reqBody : value) :
  (truthy (briefOf reqBody) = false ->
   Gemini.generate generateContent reqBody = (badRequest, [])
   /\ Render.generate fetch reqBody = (badRequest, []))
  /\ (status (fst (Gemini.generate generateContent reqBody)) = 400
      <-> truthy (briefOf reqBody) = false)
  /\ (status (fst (Render.generate fetch reqBody)) = 400
      <-> truthy (briefOf reqBody) = false).
Proof.
  split; [|split].
  - intros H. split.
    + destruct (Gemini_generate_cases generateContent reqBody)
        as [[_ E]|[(e & _ & E)|(prompt & _ & E)]]; [exact E | |];
        unfold Gemini.generate in *;
        change (getOpt (or_ reqBody (VObj [])) (lit "spec")) with (specOf reqBody) in *;
        change (getOpt (specOf reqBody) (lit "brief")) with (briefOf reqBody) in *;
        now rewrite H.
    + destruct (Render_generate_cases fetch reqBody) as [[_ E]|[F _]];
        [exact E | congruence].
  - destruct (Gemini_generate_cases generateContent reqBody)
      as [[F E]|[(e & He & E)|(prompt & Hp & E)]]; rewrite E; cbn [fst].
    + now split.
    + split; [discriminate|]. intros F. unfold Gemini.generate in E.
      change (getOpt (or_ reqBody (VObj [])) (lit "spec")) with (specOf reqBody) in E.
      change (getOpt (specOf reqBody) (lit "brief")) with (briefOf reqBody) in E.
      rewrite F in E. discriminate.
    + split.
      * intros H. destruct (answerOf_status
          (Gemini.fallback generateContent (specOf reqBody) prompt Gemini.modelIds))
          as [Z|Z]; rewrite Z in H; discriminate.
      * intros F. unfold Gemini.generate in E.
        change (getOpt (or_ reqBody (VObj [])) (lit "spec")) with (specOf reqBody) in E.
        change (getOpt (specOf reqBody) (lit "brief")) with (briefOf reqBody) in E.
        rewrite F in E. cbn [negb] in E. injection E as E _.
        destruct (answerOf_status
          (Gemini.fallback generateContent (specOf reqBody) prompt Gemini.modelIds))
          as [Z|Z]; rewrite <- E in Z; discriminate.
  - destruct (Render_generate_cases fetch reqBody) as [[F E]|[F E]];
      rewrite E; cbn [fst].
    + now split.
    + split; [|congruence].
      intros H. destruct (answerOf_status
        (Render.fallback fetch (specOf reqBody) Render.modelIds))
        as [Z|Z]; rewrite Z in H; discriminate.
Qed.

Lemma X18_validation_of_the_other_servers_witness :
  Gemini.generate (geminiAnswers Examples.page) (Examples.request (VStr []))
  = (badRequest, [])
  /\ Render.generate (Examples.answers Examples.page) (VObj []) = (badRequest, []).
Proof.
  split.
  - exact (proj1 (proj1 (X18_validation_of_the_other_servers
                           (geminiAnswers Examples.page)
                           (Examples.answers Examples.page)
                           (Examples.request (VStr []))) eq_refl)).
  - exact (proj2 (proj1 (X18_validation_of_the_other_servers
                           (geminiAnswers Examples.page)
                           (Examples.answers Examples.page)
                           (VObj [])) eq_refl)).
Defined.

Lemma forOf_ext (body1 body2 : jsstring -> loopState -> loopState * bool)
  (models : list jsstring) (st : loopState) :
  (forall m s, body1 m s = body2 m s) ->
  forOf body1 models st = forOf body2 models st.
Proof.
  intros H. revert st. induction models as [|m r IH]; intros st; [reflexivity|].
  cbn [forOf]. rewrite H. destruct (body2 m st) as [st' b].
  destruct b; [reflexivity | apply IH].
Qed.

Lemma truthy_property_of_object (v : value) (k : jsstring) :
  truthy (getOpt v k) = true -> exists props, v = VObj props.
Proof. destruct v; try discriminate. intros _. now eexists. Qed.

(** X19.  The server with the constant prompt reads nothing of the spec
    but whether the brief is truthy and, for the title of a shell, the
    project name: two requests with truthy briefs and the same project
    name give the same calls and the same answer, whatever their brief,
    pages, colour, style and tone. *)
Theorem X19_constant_prompt_ignores_the_brief (fetch : OpenRouter.provider)
  (reqBody1 reqBody2 : value) :
  truthy (briefOf reqBody1) = true ->
  truthy (briefOf reqBody2) = true ->
  getOpt (specOf reqBody1) (lit "projectName")
  = getOpt (specOf reqBody2) (lit "projectName") ->
  Render.generate fetch reqBody1 = Render.generate fetch reqBody2.
Proof.
  intros H1 H2 Hn.
  destruct (Render_generate_cases fetch reqBody1) as [[F _]|[_ E1]]; [congruence|].
  destruct (Render_generate_cases fetch reqBody2) as [[F _]|[_ E2]]; [congruence|].
  rewrite E1, E2.
  destruct (truthy_property_of_object _ _ H1) as [p1 P1].
  destruct (truthy_property_of_object _ _ H2) as [p2 P2].
  assert (T : OpenRouter.titleOf (defaultObj (specOf reqBody1))
              = OpenRouter.titleOf (defaultObj (specOf reqBody2))).
  { rewrite P1, P2 in *. unfold OpenRouter.titleOf. cbn [defaultObj getProp bind].
    now rewrite Hn. }
  assert (A : forall m s,
             Render.iteration fetch (specOf reqBody1) m s
             = Render.iteration fetch (specOf reqBody2) m s).
  { intros m s. unfold Render.iteration, Render.attempt.
    destruct (Render.callOpenRouter fetch m Render.prompt) as [text|e];
      cbn [bind]; [|reflexivity].
    destruct (OpenRouter.stripFencesOf text) as [x|e]; cbn [bind]; [|reflexivity].
    unfold OpenRouter.ensureFullDoc. now rewrite T. }
  unfold Render.fallback.
  now rewrite (forOf_ext _ _ Render.modelIds initialState A).
Qed.

Lemma X19_constant_prompt_ignores_the_brief_witness :
  Render.generate (Examples.answers (lit "Sorry, no."))
    (VObj [(lit "spec", VObj [(lit "brief", VStr (lit "a bakery"));
                              (lit "pages", VArr [VStr (lit "Menu")])])])
  = Render.generate (Examples.answers (lit "Sorry, no."))
      (VObj [(lit "spec", VObj [(lit "brief", VStr (lit "a law firm"));
                                (lit "tone", VStr (lit "formal"))])]).
Proof.
  exact (X19_constant_prompt_ignores_the_brief (Examples.answers (lit "Sorry, no."))
           (VObj [(lit "spec", VObj [(lit "brief", VStr (lit "a bakery"));
                                     (lit "pages", VArr [VStr (lit "Menu")])])])
           (VObj [(lit "spec", VObj [(lit "brief", VStr (lit "a law firm"));
                                     (lit "tone", VStr (lit "formal"))])])
           eq_refl eq_refl eq_refl).
Defined.

(** *** Bounds of the hardened server *)

Lemma slice0_length (n : N) (s : jsstring) :
  (List.length (slice0 n s) <= N.to_nat n)%nat.
Proof. unfold slice0. rewrite length_firstn. lia. Qed.

Lemma clamp_length (s : jsstring) (n : N) :
  (List.length (Hardened.clamp s n) <= N.to_nat n)%nat.
Proof.
  unfold Hardened.clamp. destruct (N.ltb_spec n (N.of_nat (List.length s))).
  - apply slice0_length.
  - lia.
Qed.

Lemma clamp_short (s : jsstring) (n : N) :
  (List.length s <= N.to_nat n)%nat -> Hardened.clamp s n = s.
Proof.
  intros H. unfold Hardened.clamp.
  destruct (N.ltb_spec n (N.of_nat (List.length s))); [lia | reflexivity].
Qed.

(** X20.  The hardened server bounds the text fields it puts into the
    prompt: after normalization the project name, the style and the tone
    have at most 200 characters, the colour at most 20 and the brief at
    most 4000; [clamp] leaves a string within its bound unchanged. *)
Theorem X20_normalized_fields_are_bounded (spec : value) (safe : Hardened.safeSpec) :
  Hardened.normalize spec = Ok safe ->
  (List.length (Hardened.projectName safe) <= 200)%nat
  /\ (List.length (Hardened.brief safe) <= 4000)%nat
  /\ (List.length (Hardened.primaryColor safe) <= 20)%nat
  /\ (List.length (Hardened.style safe) <= 200)%nat
  /\ (List.length (Hardened.tone safe) <= 200)%nat
  /\ (forall s n, (List.length s <= N.to_nat n)%nat -> Hardened.clamp s n = s).
Proof.
  unfold Hardened.normalize.
  bind_inversion E1. bind_inversion E2. bind_inversion E3. bind_inversion E4.
  bind_inversion E5. bind_inversion E6. intros [= <-].
  cbn [Hardened.projectName Hardened.brief Hardened.primaryColor Hardened.style
       Hardened.tone].
  split; [apply (slice0_length 200)|]. split; [apply (clamp_length _ 4000)|].
  split; [apply (slice0_length 20)|]. split; [apply (slice0_length 200)|].
  split; [apply (slice0_length 200) | exact clamp_short].
Qed.

Lemma X20_normalized_fields_are_bounded_witness :
  exists safe,
    Hardened.normalize
      (VObj [(lit "brief", VStr (repeat 97 (N.to_nat 5000)));
             (lit "primaryColor", VStr (repeat 35 30))]) = Ok safe
    /\ (List.length (Hardened.brief safe) <= 4000)%nat
    /\ (List.length (Hardened.primaryColor safe) <= 20)%nat.
Proof.
  destruct (Hardened.normalize
              (VObj [(lit "brief", VStr (repeat 97 (N.to_nat 5000)));
                     (lit "primaryColor", VStr (repeat 35 30))]))
    as [safe|e] eqn:E; [|vm_compute in E; discriminate].
  exists safe. split; [reflexivity|].
  destruct (X20_normalized_fields_are_bounded _ safe E) as (_ & B & C & _).
  split; [exact B | exact C].
Defined.

(** *** The download URL *)

Lemma b64char_ascii (i : N) : isAscii (Buffer.b64char i) = true.
Proof.
  unfold isAscii, Buffer.b64char.
  destruct (N.ltb_spec i 26); [apply N.ltb_lt; lia|].
  destruct (N.ltb_spec i 52); [apply N.ltb_lt; lia|].
  destruct (N.ltb_spec i 62); [apply N.ltb_lt; lia|].
  destruct (N.eqb_spec i 62); reflexivity.
Qed.

Lemma base64Encode_ascii (bs : list N) :
  forallb isAscii (Buffer.base64Encode bs) = true.
Proof.
  induction bs as [| a | a b | a b c r IH] using list_ind3;
    cbn [Buffer.base64Encode forallb]; rewrite ?b64char_ascii; try reflexivity.
  exact IH.
Qed.

Lemma base64Encode_length (bs : list N) :
  List.length (Buffer.base64Encode bs) = (4 * ((List.length bs + 2) / 3))%nat.
Proof.
  induction bs as [| a | a b | a b c r IH] using list_ind3; try reflexivity.
  cbn [Buffer.base64Encode List.length]. rewrite IH.
  replace (S (S (S (List.length r))) + 2)%nat
    with ((List.length r + 2) + 1 * 3)%nat by lia.
  rewrite Nat.div_add by lia. lia.
Qed.

(** X21.  The download URL is ASCII for every document, unpaired
    surrogates included: it is the 22 characters of the prefix followed by
    four characters of the base64 alphabet for every three bytes of the
    UTF-8 text, the last group padded. *)
Theorem X21_download_url_is_ascii (h : jsstring) :
  forallb isAscii (downloadUrlOf h) = true
  /\ List.length (downloadUrlOf h)
     = (22 + 4 * ((List.length (Buffer.utf8Encode h) + 2) / 3))%nat.
Proof.
  unfold downloadUrlOf. split.
  - rewrite forallb_app, base64Encode_ascii. reflexivity.
  - rewrite length_app, base64Encode_length. reflexivity.
Qed.

(** *** The adapters *)

(** X22.  [callOpenRouter] returns exactly when the request resolves with
    a status from 200 to 299 and a body that parses; the shape of the
    parsed data never makes it throw, and what it returns is truthy or the
    empty string.  A status outside that range gives an error whose
    message is the body, with the prefix of [server/server.js] and without
    it in the server with the constant prompt. *)
Theorem X22_callOpenRouter_outcomes (fetch : OpenRouter.provider)
  (model prompt : jsstring) :
  ((exists v, OpenRouter.callOpenRouter fetch model prompt = Ok v)
   <-> exists status text data,
         fetch model prompt = OpenRouter.FetchResolves status text (Ok data)
         /\ OpenRouter.ok status = true)
  /\ ((exists v, Render.callOpenRouter fetch model prompt = Ok v)
      <-> exists status text data,
            fetch model prompt = OpenRouter.FetchResolves status text (Ok data)
            /\ OpenRouter.ok status = true)
  /\ (forall v,
        OpenRouter.callOpenRouter fetch model prompt = Ok v
        \/ Render.callOpenRouter fetch model prompt = Ok v ->
        v = VStr [] \/ truthy v = true)
  /\ (forall status text json,
        fetch model prompt = OpenRouter.FetchResolves status text json ->
        OpenRouter.ok status = false ->
        OpenRouter.callOpenRouter fetch model prompt
        = Throw (Exn Error (lit "OpenRouter error: " ++ text))
        /\ Render.callOpenRouter fetch model prompt = Throw (Exn Error text)).
Proof.
  unfold OpenRouter.callOpenRouter, Render.callOpenRouter.
  destruct (fetch model prompt) as [e|status text json].
  - split; [|split; [|split]].
    + split; [intros [v H]; discriminate | intros (s & t & d & H & _); discriminate].
    + split; [intros [v H]; discriminate | intros (s & t & d & H & _); discriminate].
    + intros v [H|H]; discriminate.
    + intros s t j H. discriminate.
  - destruct (OpenRouter.ok status) eqn:Es; cbn [negb].
    + destruct json as [data|e]; cbn [bind].
      * split; [|split; [|split]].
        -- split; [intros _; now exists status, text, data | intros _; now eexists].
        -- split; [intros _; now exists status, text, data | intros _; now eexists].
        -- intros v H.
           assert (E : v = or_ (getOpt (getOpt (getOpt0 (getOpt data (lit "choices")))
                                          (lit "message")) (lit "content")) (VStr []))
             by (destruct H as [H|H]; now injection H).
           rewrite E. unfold or_.
           destruct (truthy (getOpt _ (lit "content"))) eqn:T; [now right | now left].
        -- intros s t j [= <- <- <-] F. congruence.
      * split; [|split; [|split]].
        -- split; [intros [v H]; discriminate
                  | intros (s & t & d & [= _ _ H] & _); discriminate].
        -- split; [intros [v H]; discriminate
                  | intros (s & t & d & [= _ _ H] & _); discriminate].
        -- intros v [H|H]; discriminate.
        -- intros s t j [= <- <- <-] F. congruence.
    + split; [|split; [|split]].
      * split; [intros [v H]; discriminate
               | intros (s & t & d & [= <- _ _] & F); congruence].
      * split; [intros [v H]; discriminate
               | intros (s & t & d & [= <- _ _] & F); congruence].
      * intros v [H|H]; discriminate.
      * intros s t j [= <- <- <-] _. now split.
Qed.

Lemma X22_callOpenRouter_outcomes_witness :
  OpenRouter.callOpenRouter
    (fun _ _ => OpenRouter.FetchResolves 429 (lit "rate limited") (Ok VNull))
    (lit "openai/gpt-4o") []
  = Throw (Exn Error (lit "OpenRouter error: rate limited"))
  /\ Render.callOpenRouter
       (fun _ _ => OpenRouter.FetchResolves 429 (lit "rate limited") (Ok VNull))
       (lit "openai/gpt-4o") []
     = Throw (Exn Error (lit "rate limited"))
  /\ OpenRouter.callOpenRouter (Examples.answers []) (lit "openai/gpt-4o") []
     = Ok (VStr [])
  /\ (VStr [] = VStr (@nil N) \/ truthy (VStr []) = true).
Proof.
  destruct (X22_callOpenRouter_outcomes
              (fun _ _ => OpenRouter.FetchResolves 429 (lit "rate limited") (Ok VNull))
              (lit "openai/gpt-4o") []) as (_ & _ & _ & D).
  destruct (D 429 (lit "rate limited") (Ok VNull) eq_refl eq_refl) as [D1 D2].
  split; [exact D1|]. split; [exact D2|]. split; [vm_compute; reflexivity|].
  destruct (X22_callOpenRouter_outcomes (Examples.answers [])
              (lit "openai/gpt-4o") []) as (_ & _ & C & _).
  apply (C (VStr [])). left. vm_compute. reflexivity.
Defined.
Lemma serialize_data (v : value) :
  dataOnly v = true ->
  forall b, exists o, Json.serialize b v = Ok o /\ (v <> VUndefined -> o <> None).
Proof.
  revert v. fix IH 1. intros v Hd b.
  destruct v as [| |t|n|s|items|props|src call].
  - exists None. split; [reflexivity | congruence].
  - eexists. split; [reflexivity | discriminate].
  - destruct t; eexists; (split; [reflexivity | discriminate]).
  - eexists. split; [reflexivity | discriminate].
  - eexists. split; [reflexivity | discriminate].
  - cbn [dataOnly] in Hd. cbn [Json.serialize].
    match goal with
    | |- context [Js.bind (?f items) _] =>
        assert (G : exists parts, f items = Ok parts)
    end.
    { revert Hd. induction items as [|x r IHr]; intros Hd; [now eexists|].
      cbn [forallb] in Hd. apply andb_true_iff in Hd. destruct Hd as [Hx Hr].
      destruct (IH x Hx true) as (o & -> & _). cbn [bind].
      destruct (IHr Hr) as (parts & ->). cbn [bind]. now eexists. }
    destruct G as (parts & ->). cbn [bind].
    eexists. split; [reflexivity | discriminate].
  - cbn [dataOnly] in Hd. cbn [Json.serialize].
    match goal with
    | |- context [Js.bind (?f props) ?k] =>
        assert (G : exists members, f props = Ok members);
        [|set (plain := Js.bind (f props) k) in *]
    end.
    { revert Hd. induction props as [|[k x] r IHr]; intros Hd; [now eexists|].
      cbn [forallb snd] in Hd. apply andb_true_iff in Hd. destruct Hd as [Hx Hr].
      destruct (IH x Hx true) as (o & -> & _). cbn [bind].
      destruct (IHr Hr) as (members & ->). cbn [bind]. now eexists. }
    assert (P : exists text, plain = Ok (Some text)).
    { subst plain. destruct G as (members & ->). cbn [bind]. now eexists. }
    destruct P as (text & P).
    assert (T : forall l, forallb (fun kv => dataOnly (snd kv)) l = true ->
      (fix toJSON (l : list (jsstring * value)) : result (option jsstring) :=
         match l with
         | [] => plain
         | (k, x) :: r =>
             if jsstring_eqb (lit "toJSON") k then
               match x with
               | VFun _ (Ok replaced) => Json.serialize false replaced
               | VFun _ (Throw e) => Throw e
               | _ => plain
               end
             else toJSON r
         end) l = plain).
    { clear -plain. induction l as [|[k x] r IHr]; intros Hl; [reflexivity|].
      cbn [forallb snd] in Hl. apply andb_true_iff in Hl. destruct Hl as [Hx Hr].
      destruct (jsstring_eqb (lit "toJSON") k); [|now apply IHr].
      destruct x; try reflexivity. discriminate. }
    exists (Some text). split; [|discriminate].
    destruct b; [|exact P]. transitivity plain; [apply T; exact Hd | exact P].
  - discriminate.
Qed.

(** X23.  On a result that holds no function (data as [JSON.parse]
    produces them) [extractTextFromModelResult] never throws: one of the
    accessor paths gives a value, or the result is serialized. *)
Theorem X23_adapter_total_on_data (result : value) :
  dataOnly result = true ->
  exists v, Hardened.extractTextFromModelResult result = Ok v.
Proof.
  intros Hd. unfold Hardened.extractTextFromModelResult.
  destruct (truthy result) eqn:T; cbn [negb]; [|now eexists].
  destruct (if truthy (getOpt result (lit "response")) then _ else None) as [r|];
    [now eexists|].
  destruct (isString (getOpt (getOpt result (lit "response")) (lit "output_text")));
    [now eexists|].
  destruct (isString (getOpt result (lit "output_text"))); [now eexists|].
  destruct (match coalesce _ _ with VArr _ => _ | _ => None end) as [v|];
    [now eexists|].
  destruct (serialize_data result Hd true) as (o & E & N0).
  unfold Json.stringify. rewrite E. cbn [bind].
  destruct o as [text|].
  - destruct result; now eexists.
  - exfalso. apply N0; [|reflexivity]. intros ->. discriminate.
Qed.

Lemma X23_adapter_total_on_data_witness :
  exists v,
    Hardened.extractTextFromModelResult
      (VObj [(lit "candidates", VArr [VObj [(lit "finishReason", VStr (lit "STOP"))]])])
    = Ok v.
Proof.
  exact (X23_adapter_total_on_data
           (VObj [(lit "candidates",
                   VArr [VObj [(lit "finishReason", VStr (lit "STOP"))]])])
           eq_refl).
Defined.

(** X24.  A model that does not answer within the time limit counts as a
    failed attempt with the message [timeout]: when no model of the list
    answers in time, the hardened server has called each of them once and
    answers 502 with that message as [details]. *)
Theorem X24_timeouts_are_failures (sdk : Hardened.provider) (reqBody : value)
  (safe : Hardened.safeSpec) :
  truthy (briefOf reqBody) = true ->
  Hardened.normalize (specOf reqBody) = Ok safe ->
  (forall m, In m Hardened.modelIds ->
             sdk m (Hardened.buildPrompt safe) = Hardened.Pending) ->
  Hardened.generate sdk reqBody
  = (exhausted (VStr (lit "timeout")) Hardened.modelIds,
     callsFor (Hardened.buildPrompt safe) Hardened.modelIds).
Proof.
  intros Hb Hn Hp.
  assert (A : forall m, In m Hardened.modelIds ->
              Hardened.attempt sdk (specOf reqBody) (Hardened.buildPrompt safe) m
              = Throw (Exn Error (lit "timeout"))).
  { intros m Hm. unfold Hardened.attempt. now rewrite (Hp m Hm). }
  rewrite (Hardened_generate_valid _ _ _ Hb Hn).
  assert (F : forallb (fun m => failsOrShortH
                         (Hardened.attempt sdk (specOf reqBody)
                            (Hardened.buildPrompt safe) m))
                Hardened.modelIds = true).
  { apply forallb_forall. intros m Hm. now rewrite (A m Hm). }
  destruct (Hardened_exhausted _ _ _ _ F) as [E1 E2]. rewrite E1, E2.
  unfold Hardened.modelIds in *. cbn [map].
  rewrite !A by (cbn [In]; tauto). reflexivity.
Qed.

Lemma X24_timeouts_are_failures_witness :
  exists prompt,
    Hardened.generate sdkHangs (Examples.request (VStr (lit "a bakery")))
    = (exhausted (VStr (lit "timeout")) Hardened.modelIds,
       callsFor prompt Hardened.modelIds).
Proof.
  destruct (Hardened.normalize (specOf (Examples.request (VStr (lit "a bakery")))))
    as [safe|e] eqn:E; [|vm_compute in E; discriminate].
  exists (Hardened.buildPrompt safe).
  exact (X24_timeouts_are_failures sdkHangs
           (Examples.request (VStr (lit "a bakery"))) safe eq_refl E
           (fun _ _ => eq_refl)).
Defined.

(** *** The prompt of the hardened server *)

Lemma dropWhile_length (p : N -> bool) (s : jsstring) :
  (List.length (dropWhile p s) <= List.length s)%nat.
Proof.
  induction s as [|c r IH]; [apply le_n|]. simpl. destruct (p c); simpl; lia.
Qed.

Lemma trim_length (s : jsstring) : (List.length (trim s) <= List.length s)%nat.
Proof.
  unfold trim, trimEnd, trimStart. rewrite length_rev.
  pose proof (dropWhile_length isSpace (rev (dropWhile isSpace s))) as H1.
  pose proof (dropWhile_length isSpace s) as H2.
  rewrite length_rev in H1. lia.
Qed.

Lemma Hardened_promptText_length (p c s t n b : jsstring) :
  N.of_nat (List.length (Hardened.promptText p c s t n b))
  = 2033 + 2 * N.of_nat (List.length p) + N.of_nat (List.length c)
    + N.of_nat (List.length s) + N.of_nat (List.length t)
    + 2 * N.of_nat (List.length n) + N.of_nat (List.length b).
Proof.
  unfold Hardened.promptText. repeat rewrite length_app. simpl List.length. lia.
Qed.

(** X25.  The prompt of the hardened server has no white space at either
    end, and its length is bounded but for the list of pages, which is
    not clamped: at most 6853 characters and twice the length of the
    joined page names. *)
Theorem X25_hardened_prompt_is_bounded (spec : value) (safe : Hardened.safeSpec) :
  Hardened.normalize spec = Ok safe ->
  trimmed (Hardened.buildPrompt safe) = true
  /\ N.of_nat (List.length (Hardened.buildPrompt safe))
     <= 6853 + 2 * N.of_nat (List.length (intercalate (lit ", ") (Hardened.pages safe))).
Proof.
  intros H. split; [apply trim_trimmed|].
  unfold Hardened.buildPrompt.
  pose proof (trim_length (Hardened.promptText
    (intercalate (lit ", ") (Hardened.pages safe)) (Hardened.primaryColor safe)
    (Hardened.style safe) (Hardened.tone safe) (Hardened.projectName safe)
    (Hardened.brief safe))) as L.
  pose proof (Hardened_promptText_length
    (intercalate (lit ", ") (Hardened.pages safe)) (Hardened.primaryColor safe)
    (Hardened.style safe) (Hardened.tone safe) (Hardened.projectName safe)
    (Hardened.brief safe)) as L2.
  revert H. unfold Hardened.normalize.
  bind_inversion E1. bind_inversion E2. bind_inversion E3. bind_inversion E4.
  bind_inversion E5. bind_inversion E6. intros [= <-].
  cbn [Hardened.projectName Hardened.brief Hardened.primaryColor Hardened.style
       Hardened.tone Hardened.pages] in *.
  pose proof (slice0_length 200 a). pose proof (clamp_length a0 4000).
  pose proof (slice0_length 20 a1). pose proof (slice0_length 200 a2).
  pose proof (slice0_length 200 a3).
  lia.
Qed.

Lemma X25_hardened_prompt_is_bounded_witness :
  exists safe,
    Hardened.normalize (VObj [(lit "brief", VStr (repeat 97 (N.to_nat 5000)))]) = Ok safe
    /\ N.of_nat (List.length (Hardened.buildPrompt safe))
       <= 6853 + 2 * N.of_nat (List.length (intercalate (lit ", ")
                                               (Hardened.pages safe))).
Proof.
  destruct (Hardened.normalize (VObj [(lit "brief", VStr (repeat 97 (N.to_nat 5000)))]))
    as [safe|e] eqn:E; [|vm_compute in E; discriminate].
  exists safe. split; [reflexivity|].
  exact (proj2 (X25_hardened_prompt_is_bounded _ safe E)).
Defined.

(** *** The JSON-LD block *)

Lemma quoteBody_plain (s : jsstring) :
  forallb jsonPlain s = true -> Json.quoteBody s = s.
Proof.
  induction s as [|c r IH]; [reflexivity|]. cbn [forallb]. intros H.
  apply andb_true_iff in H. destruct H as [Hc Hr].
  unfold jsonPlain in Hc.
  apply andb_true_iff in Hc. destruct Hc as [Hc Hlo].
  apply andb_true_iff in Hc. destruct Hc as [Hc Hhi].
  apply andb_true_iff in Hc. destruct Hc as [Hc Hbs].
  apply andb_true_iff in Hc. destruct Hc as [Hge Hdq].
  apply negb_true_iff in Hlo, Hhi, Hbs, Hdq. apply N.leb_le in Hge.
  cbn [Json.quoteBody].
  rewrite Hhi, Hlo. unfold Json.quoteUnit.
  assert (E8 : (c =? 8) = false) by (apply N.eqb_neq; lia).
  assert (E9 : (c =? 9) = false) by (apply N.eqb_neq; lia).
  assert (E10 : (c =? 10) = false) by (apply N.eqb_neq; lia).
  assert (E12 : (c =? 12) = false) by (apply N.eqb_neq; lia).
  assert (E13 : (c =? 13) = false) by (apply N.eqb_neq; lia).
  assert (E32 : (c <? 32) = false) by (apply N.ltb_ge; lia).
  rewrite E8, E9, E10, E12, E13, Hdq, Hbs, E32. cbn [app].
  now rewrite (IH Hr).
Qed.

(** X26.  The JSON-LD block of the hardened shell holds the project name
    as JSON text, not as HTML text: a name without control characters,
    double quotes, backslashes and surrogates stands in the block
    character for character, the characters [<], [>] and [&] included,
    while the title holds the same name with its entities. *)
Theorem X26_jsonLd_is_not_html_escaped (props : list (jsstring * value))
  (name : jsstring) (f : Hardened.headFields) :
  lookupOwn (lit "projectName") props = Some (VStr name) ->
  lookupOwn (lit "seo") props = None ->
  name <> [] ->
  forallb jsonPlain name = true ->
  Hardened.headOf (VObj props) = Ok f ->
  Hardened.jsonLd f = organizationText name
  /\ Hardened.title f = escapeHtmlAttr name.
Proof.
  intros Hp Hseo Hn Hplain. unfold Hardened.headOf. cbn [getProp bind getOpt].
  rewrite Hseo, Hp. destruct name as [|c r]; [contradiction|].
  cbn [getOpt or_ truthy callToString ToString bind Hardened.escapeHtmlAttrOf asString].
  bind_inversion E1. bind_inversion E2. bind_inversion E3.
  assert (J : Json.stringify (Hardened.organization (VObj props))
              = Ok (Some (organizationText (c :: r)))).
  { unfold Hardened.organization. cbn [getOpt]. rewrite Hp.
    cbn [or_ truthy]. unfold organizationText.
    rewrite <- (quoteBody_plain (c :: r) Hplain) at 2. reflexivity. }
  rewrite J. cbn [bind]. intros [= <-]. now split.
Qed.

Lemma X26_jsonLd_is_not_html_escaped_witness :
  exists f,
    Hardened.headOf
      (VObj [(lit "projectName", VStr (lit "</script><script>alert(1)</script>"))])
    = Ok f
    /\ Hardened.jsonLd f = organizationText (lit "</script><script>alert(1)</script>")
    /\ Hardened.title f
       = lit "&lt;/script&gt;&lt;script&gt;alert(1)&lt;/script&gt;".
Proof.
  destruct (Hardened.headOf
              (VObj [(lit "projectName",
                      VStr (lit "</script><script>alert(1)</script>"))]))
    as [f|e] eqn:E; [|vm_compute in E; discriminate].
  exists f. split; [reflexivity|].
  destruct (X26_jsonLd_is_not_html_escaped
              [(lit "projectName", VStr (lit "</script><script>alert(1)</script>"))]
              (lit "</script><script>alert(1)</script>") f
              eq_refl eq_refl ltac:(discriminate) eq_refl E) as [A B].
  split; [exact A | exact B].
Defined.
